(** * tedxsdg: the memoizing tool registry and the crew manager

    A shallow embedding of [tools/tool_registry.py] (class [ToolRegistry])
    and [crewai_manager/manager.py] (class [CrewAIManager]).

    Python values that come out of the YAML documents are modelled by
    [pyval]; Python dictionaries that are iterated are association lists in
    insertion order; the registry's memo table [self.tools] is a [gmap].
    Exceptions are values of [exn]; a method is a function from a state to
    a result and a new state, so that what a raising call leaves behind in
    [self] is visible.  The four configuration documents are top-level
    mappings with string keys; what they map to is arbitrary.

    The manager is modelled from the point where the four documents have
    been read; the existence checks on the paths and the reads themselves
    are modelled on their own, in [ConfigFiles].  Logging is left out: it
    decides nothing.  Two of the tools are embedded as well: the slug tool
    of [tools/tedx_slug_tool.py] and the query helpers and the video search
    of [tools/custom_tool.py], over Python's own notion of white space.  The
    classes and functions the two files import from elsewhere (the
    constructors of the tools and of crewai's [Agent], [Task] and [Crew],
    the field rules of the pydantic schemas) are parameters of the
    development; each may raise, and is run on an explicit outside world. *)

From Stdlib Require Import ZArith QArith Ascii String List Bool Lia.
From Stdlib Require Import DecimalString.
From stdpp Require Import base gmap strings list.

Close Scope Q_scope.
Open Scope string_scope.

(** ** Python values *)

#[warnings="-register-all"]
Inductive pyval : Type :=
| PNone
| PBool (b : bool)
| PInt (z : Z)
| PFloat (q : Q)
| PStr (s : string)
| PList (l : list pyval)
| PDict (d : list (string * pyval))
| PObj (cls : string) (fields : list (string * pyval)).

(** A mapping with string keys, in insertion order. *)
Definition dict : Type := list (string * pyval).

Inductive exn : Type :=
| ValueError (msg : string)
| KeyError (key : pyval)
| TypeError (msg : string)
| AttributeError (msg : string)
| ValidationError (errs : list (string * string))
| FileNotFoundError (msg : string)
| RecursionError
| Exception (msg : string).

Inductive result (A : Type) : Type :=
| Ok (a : A)
| Raise (e : exn).
Arguments Ok {A} a.
Arguments Raise {A} e.

Module Py.

Fixpoint lookup (k : string) (d : dict) : option pyval :=
  match d with
  | [] => None
  | (k', v) :: d' => if String.eqb k k' then Some v else lookup k d'
  end.

Definition keys (d : dict) : list string := map fst d.
Definition values (d : dict) : list pyval := map snd d.

(** [bool(v)] *)
Definition truthy (v : pyval) : bool :=
  match v with
  | PNone => false
  | PBool b => b
  | PInt z => negb (Z.eqb z 0)
  | PFloat q => negb (Qeq_bool q 0%Q)
  | PStr s => negb (String.eqb s "")
  | PList l => match l with [] => false | _ => true end
  | PDict d => match d with [] => false | _ => true end
  | PObj _ _ => true
  end.

(** [v[k]] for a string key *)
Definition getitem (v : pyval) (k : string) : result pyval :=
  match v with
  | PDict d => match lookup k d with
               | Some x => Ok x
               | None => Raise (KeyError (PStr k))
               end
  | _ => Raise (TypeError "object is not subscriptable by a string key")
  end.

(** [v.get(k, default)] *)
Definition get (v : pyval) (k : string) (default : pyval) : result pyval :=
  match v with
  | PDict d => match lookup k d with
               | Some x => Ok x
               | None => Ok default
               end
  | _ => Raise (AttributeError "object has no attribute 'get'")
  end.

(** [v.a] *)
Definition getattr (v : pyval) (a : string) : result pyval :=
  match v with
  | PObj _ fields => match lookup a fields with
                     | Some x => Ok x
                     | None => Raise (AttributeError a)
                     end
  | _ => Raise (AttributeError a)
  end.

(** [v.dict()] of a pydantic model *)
Definition dict_method (v : pyval) : result pyval :=
  match v with
  | PObj _ fields => Ok (PDict fields)
  | _ => Raise (AttributeError "dict")
  end.

Definition isinstance (v : pyval) (c : string) : bool :=
  match v with
  | PObj cls _ => String.eqb cls c
  | _ => false
  end.

(** The numbers that compare equal across [bool], [int] and [float]. *)
Definition num (v : pyval) : option Q :=
  match v with
  | PBool b => Some (if b then 1%Q else 0%Q)
  | PInt z => Some (inject_Z z)
  | PFloat q => Some q
  | _ => None
  end.

(** Equality of two hashable keys. *)
Definition key_eqb (a b : pyval) : bool :=
  match a, b with
  | PNone, PNone => true
  | PStr s, PStr t => String.eqb s t
  | _, _ => match num a, num b with
            | Some x, Some y => Qeq_bool x y
            | _, _ => false
            end
  end.

Definition hashable (v : pyval) : bool :=
  match v with
  | PList _ | PDict _ => false
  | _ => true
  end.

(** [d[k]] where [d] has string keys and [k] is any value *)
Definition getitem_key (d : dict) (k : pyval) : result pyval :=
  if hashable k then
    match k with
    | PStr s => match lookup s d with
                | Some x => Ok x
                | None => Raise (KeyError k)
                end
    | _ => Raise (KeyError k)
    end
  else Raise (TypeError "unhashable type").

(** [str(e)], as far as the messages of this program go *)
Definition message (e : exn) : string :=
  match e with
  | ValueError m | TypeError m | AttributeError m
  | FileNotFoundError m | Exception m => m
  | KeyError (PStr k) => "'" +:+ k +:+ "'"
  | KeyError _ => ""
  | ValidationError errs =>
      fold_right (fun fe acc => fst fe +:+ ": " +:+ snd fe +:+ "; " +:+ acc) "" errs
  | RecursionError => "maximum recursion depth exceeded"
  end.

Fixpoint contains (needle hay : string) : bool :=
  String.prefix needle hay ||
  match hay with
  | EmptyString => false
  | String _ hay' => contains needle hay'
  end.

End Py.

(** ** A state and exception monad *)

Definition M (S A : Type) : Type := S -> result A * S.

Definition ret {S A} (a : A) : M S A := fun s => (Ok a, s).
Definition raise {S A} (e : exn) : M S A := fun s => (Raise e, s).
Definition bind {S A B} (m : M S A) (k : A -> M S B) : M S B :=
  fun s => match m s with
           | (Ok a, s') => k a s'
           | (Raise e, s') => (Raise e, s')
           end.
Definition lift_result {S A} (r : result A) : M S A := fun s => (r, s).
Definition gets {S A} (f : S -> A) : M S A := fun s => (Ok (f s), s).
Definition modify {S} (f : S -> S) : M S unit := fun s => (Ok tt, f s).

(** [try: m except Exception as e: h e] *)
Definition try_except {S A} (m : M S A) (h : exn -> M S A) : M S A :=
  fun s => match m s with
           | (Ok a, s') => (Ok a, s')
           | (Raise e, s') => h e s'
           end.

Declare Scope py_scope.
Delimit Scope py_scope with py.
Notation "x <- m ;; k" := (bind m (fun x => k))
  (at level 100, m at next level, right associativity) : py_scope.
Notation "m ;;; k" := (bind m (fun _ => k))
  (at level 100, right associativity) : py_scope.
Open Scope py_scope.

Fixpoint for_each {S A} (xs : list A) (body : A -> M S unit) : M S unit :=
  match xs with
  | [] => ret tt
  | x :: xs' => body x ;;; for_each xs' body
  end.

Fixpoint map_m {S A B} (f : A -> M S B) (xs : list A) : M S (list B) :=
  match xs with
  | [] => ret []
  | x :: xs' => y <- f x ;; ys <- map_m f xs' ;; ret (y :: ys)
  end.

(** ** Objects of the program *)

(** The six classes [get_tool] can instantiate. *)
Inductive ToolClass : Type :=
| TEDxSearchTool
| TEDxSlugTool
| TEDxTranscriptTool
| SDGAlignTool
| SustainabilityImpactTool
| DuckDuckGoSearchTool.

(** A live tool object.  [tool_id] is its identity ([id(tool)]): two
    instances are the same object exactly when their ids agree. *)
Record ToolInstance : Type := {
  tool_id : nat;
  tool_class : ToolClass;
  tool_kwargs : pyval
}.

Record Agent : Type := {
  agent_id : nat;
  agent_name : pyval;
  agent_spec : pyval;
  agent_tools : list ToolInstance
}.

Record Task : Type := {
  task_id : nat;
  description : pyval;
  agent : Agent;
  priority : pyval;
  expected_output : pyval
}.

Inductive Process : Type := sequential | hierarchical.

(** The keyword arguments [initialize_crew] passes to [Crew]. *)
Record CrewArgs : Type := {
  crew_agents : list Agent;
  crew_tasks : list Task;
  crew_process : Process;
  crew_memory : bool;
  crew_embedder : pyval;
  crew_max_rpm : pyval;
  crew_share_crew : bool;
  crew_verbose : bool
}.

Record Crew : Type := {
  crew_id : nat;
  crew_args : CrewArgs
}.

(** Every call of a constructor of a tool, agent, task or crew class is
    recorded, with the identity of the object the call returned or the
    exception it raised. *)
Inductive event : Type :=
| EvTool (name : string) (outcome : result nat)
| EvAgent (name : pyval) (outcome : result nat)
| EvTask (outcome : result nat)
| EvCrew (outcome : result nat).

(** What a pydantic model makes of its keyword arguments. *)
Inductive validated : Type :=
| Valid (fields : dict)
| Invalid (errs : list (string * string)).

(** The outside world [W] the constructors act on (files, network), the
    allocator of object identities and the record of constructor calls. *)
Record Sys (W : Type) : Type := {
  world : W;
  next_id : nat;
  log : list event
}.
Arguments world {W} _.
Arguments next_id {W} _.
Arguments log {W} _.

(** ** State of [tools/tool_registry.py] *)

Record ToolRegistry : Type := {
  llm_config : pyval;
  embedder_config : pyval;
  tools : gmap string ToolInstance;
  tool_configs : dict
}.

Record RegState (W : Type) : Type := {
  reg : ToolRegistry;
  sys : Sys W
}.
Arguments reg {W} _.
Arguments sys {W} _.

(** ** State of [crewai_manager/manager.py] *)

Record CrewAIManager : Type := {
  agents_config : dict;
  tasks_config : dict;
  model_config : dict;
  tools_config : dict;
  agents : list (pyval * Agent);
  tasks : list Task;
  tool_config : pyval;
  tool_registry : ToolRegistry;
  memory : bool
}.

Record MgrState (W : Type) : Type := {
  mgr : CrewAIManager;
  msys : Sys W
}.
Arguments mgr {W} _.
Arguments msys {W} _.

Definition set_tools (t : gmap string ToolInstance) (r : ToolRegistry)
  : ToolRegistry :=
  {| llm_config := llm_config r; embedder_config := embedder_config r;
     tools := t; tool_configs := tool_configs r |}.

Definition set_agents (a : list (pyval * Agent)) (m : CrewAIManager)
  : CrewAIManager :=
  {| agents_config := agents_config m; tasks_config := tasks_config m;
     model_config := model_config m; tools_config := tools_config m;
     agents := a; tasks := tasks m; tool_config := tool_config m;
     tool_registry := tool_registry m; memory := memory m |}.

Definition set_tasks (t : list Task) (m : CrewAIManager) : CrewAIManager :=
  {| agents_config := agents_config m; tasks_config := tasks_config m;
     model_config := model_config m; tools_config := tools_config m;
     agents := agents m; tasks := t; tool_config := tool_config m;
     tool_registry := tool_registry m; memory := memory m |}.

Definition set_tool_registry (r : ToolRegistry) (m : CrewAIManager)
  : CrewAIManager :=
  {| agents_config := agents_config m; tasks_config := tasks_config m;
     model_config := model_config m; tools_config := tools_config m;
     agents := agents m; tasks := tasks m; tool_config := tool_config m;
     tool_registry := r; memory := memory m |}.

(** The table [self.agents]: keys are whatever the task documents name as
    agent, in insertion order. *)
Module AgentTable.

Fixpoint lookup (k : pyval) (t : list (pyval * Agent)) : option Agent :=
  match t with
  | [] => None
  | (k', a) :: t' => if Py.key_eqb k k' then Some a else lookup k t'
  end.

(** [k in t] *)
Definition contains (k : pyval) (t : list (pyval * Agent)) : result bool :=
  if Py.hashable k
  then Ok (match lookup k t with Some _ => true | None => false end)
  else Raise (TypeError "unhashable type").

(** [t[k] = a] *)
Fixpoint set (k : pyval) (a : Agent) (t : list (pyval * Agent))
  : list (pyval * Agent) :=
  match t with
  | [] => [(k, a)]
  | (k', a') :: t' =>
      if Py.key_eqb k k' then (k', a) :: t' else (k', a') :: set k a t'
  end.

(** [t[k]] *)
Definition getitem (k : pyval) (t : list (pyval * Agent)) : result Agent :=
  if Py.hashable k
  then match lookup k t with
       | Some a => Ok a
       | None => Raise (KeyError k)
       end
  else Raise (TypeError "unhashable type").

End AgentTable.

(** ** schemas/config_schemas.py *)

Module Schema.

Definition is_space (c : ascii) : bool :=
  existsb (Ascii.eqb c) [" "%char; "009"%char; "010"%char; "013"%char].

(** Nothing is left of [s] after trimming. *)
Fixpoint blank (s : string) : bool :=
  match s with
  | EmptyString => true
  | String c s' => is_space c && blank s'
  end.

Definition required_string (field : string) (o : option pyval)
  : list (string * string) :=
  match o with
  | None => [(field, "field required")]
  | Some (PStr s) => if blank s then [(field, "must not be empty")] else []
  | Some _ => [(field, "must be a string")]
  end.

Definition non_negative (field : string) (o : option pyval)
  : list (string * string) :=
  match o with
  | None => []
  | Some v => match Py.num v with
              | Some q => if Qle_bool 0%Q q then []
                          else [(field, "must be greater than or equal to 0")]
              | None => [(field, "must be a number")]
              end
  end.

Definition path_strings (field : string) (o : option pyval)
  : list (string * string) :=
  match o with
  | None => []
  | Some (PList l) =>
      if forallb (fun v => match v with PStr _ => true | _ => false end) l
      then [] else [(field, "must be a sequence of strings")]
  | Some _ => [(field, "must be a sequence of strings")]
  end.

Definition or_default (o : option pyval) (d : pyval) : pyval :=
  match o with Some v => v | None => d end.

(** Modelled from the spec: the field rules of [LLMConfig], whose class
    is not among the sources.  [provider] and [model] are required and
    not blank, [temperature] defaults to 1.0 and is at least 0, [top_p]
    and [stream] are optional; every violated rule is listed.  The
    registry reads the model settings under [config] and the manager
    reads [model] directly, so the object offers both. *)
Definition LLMConfig_validate (d : dict) : validated :=
  let errs := (required_string "provider" (Py.lookup "provider" d)
               ++ required_string "model" (Py.lookup "model" d)
               ++ non_negative "temperature" (Py.lookup "temperature" d))%list in
  match errs with
  | [] =>
      let settings :=
        [("model", or_default (Py.lookup "model" d) PNone);
         ("temperature", or_default (Py.lookup "temperature" d) (PFloat 1%Q));
         ("top_p", or_default (Py.lookup "top_p" d) PNone);
         ("stream", or_default (Py.lookup "stream" d) PNone)] in
      Valid (("provider", or_default (Py.lookup "provider" d) PNone)
               :: (settings ++ [("config", PObj "LLMSettings" settings)])%list)
  | _ => Invalid errs
  end.

Definition embedder_model (d : dict) : option pyval :=
  match Py.lookup "config" d with
  | Some (PDict c) => Py.lookup "model" c
  | _ => Py.lookup "model" d
  end.

(** Modelled from the spec: the field rules of [EmbedderConfig], whose
    class is not among the sources.  [provider] and [model] are required
    and not blank, [data_paths] is a sequence of path strings; every
    violated rule is listed. *)
Definition EmbedderConfig_validate (d : dict) : validated :=
  let errs := (required_string "provider" (Py.lookup "provider" d)
               ++ required_string "model" (embedder_model d)
               ++ path_strings "data_paths" (Py.lookup "data_paths" d))%list in
  match errs with
  | [] =>
      Valid [("provider", or_default (Py.lookup "provider" d) PNone);
             ("model", or_default (embedder_model d) PNone);
             ("data_paths", or_default (Py.lookup "data_paths" d) (PList []))]
  | _ => Invalid errs
  end.

End Schema.

(** ** A small installation to run the program on *)

Module Demo.

(** The world is the set of files that exist. *)
Definition World : Type := list string.

Definition file_exists (path : string) (w : World) : bool :=
  existsb (String.eqb path) w.

Definition path_of (kwargs : pyval) (fallback : string) : string :=
  match Py.get kwargs "data_path" PNone with
  | Ok (PStr p) => if String.eqb p "" then fallback else p
  | _ => fallback
  end.

Definition configs_given (kwargs : pyval) : bool :=
  match Py.get kwargs "llm_config" PNone, Py.get kwargs "embedder_config" PNone with
  | Ok l, Ok e => Py.truthy l && Py.truthy e
  | _, _ => false
  end.

Definition details_csv : string :=
  "data/github-mauropelucchi-tedx_dataset-update_2024-details.csv".

Definition open_csv (path : string) (w : World) : option exn * World :=
  if file_exists path w then (None, w)
  else (Some (FileNotFoundError ("No such file or directory: '" +:+ path +:+ "'")), w).

(** The constructors of the tool classes: [TEDxSlugTool] and
    [SustainabilityImpactTool] read their CSV file, [TEDxTranscriptTool]
    reads nothing; the search tool is taken to read its file like the
    slug tool, the other two to need nothing. *)
Definition tool_class_init (c : ToolClass) (kwargs : pyval) (w : World)
  : option exn * World :=
  match c with
  | TEDxSearchTool | TEDxSlugTool =>
      if configs_given kwargs then open_csv (path_of kwargs details_csv) w
      else (Some (ValueError "Missing LLM configuration or Embedder configuration."), w)
  | TEDxTranscriptTool =>
      if configs_given kwargs then (None, w)
      else (Some (ValueError "Missing LLM configuration or Embedder configuration."), w)
  | SustainabilityImpactTool =>
      match Py.get kwargs "data_path" PNone with
      | Ok (PStr p) =>
          if file_exists p w then (None, w)
          else (Some (FileNotFoundError ("File not found: " +:+ p)), w)
      | _ => (Some (Exception "Failed to load impact data."), w)
      end
  | SDGAlignTool | DuckDuckGoSearchTool => (None, w)
  end.

(** Constructors that build an index file on their first call and give
    up on it: the call that finds no index raises and leaves the index
    behind, every later call succeeds. *)
Definition tool_class_init_slow (c : ToolClass) (kwargs : pyval) (w : World)
  : option exn * World :=
  if file_exists "data/index" w then (None, w)
  else (Some (Exception "Timed out while building the index"),
        "data/index" :: w).

Definition Agent_init (name spec llm emb : pyval) (ts : list ToolInstance)
           (w : World) : option exn * World := (None, w).

Definition Task_init (description : pyval) (a : Agent)
           (priority expected_output : pyval) (w : World)
  : option exn * World := (None, w).

Definition Crew_init (args : CrewArgs) (w : World) : option exn * World :=
  (None, w).

(** A [Crew] whose own validation turns the arguments down. *)
Definition Crew_rejects (args : CrewArgs) (w : World) : option exn * World :=
  (Some (Exception "Crew validation failed"), w).

Definition ollama : pyval :=
  PDict [("provider", PStr "ollama");
         ("config", PDict [("model", PStr "nomic-embed-text")])].

Definition tool_entry (path : string) : pyval :=
  PDict [("data_path", PStr path); ("embedder_config", ollama)].

Definition tools_doc : dict :=
  [("tedx_search", tool_entry "data/tedx.csv");
   ("tedx_slug", tool_entry "data/tedx.csv");
   ("tedx_transcript", tool_entry "data/tedx.csv");
   ("sustainability_impact", tool_entry "data/impact_data.csv");
   ("duckduckgo_search", tool_entry "data/none.csv")].

Definition model_doc : dict :=
  [("llm", PDict [("provider", PStr "ollama");
                  ("config", PDict [("model", PStr "llama3");
                                    ("temperature", PFloat 0%Q)])])].

Definition agents_doc : dict :=
  [("researcher", PDict [("role", PStr "Researcher");
                         ("tools", PList [PStr "tedx_transcript"])]);
   ("analyst", PDict [("role", PStr "Analyst");
                      ("tools", PList [PStr "duckduckgo_search"])])].

Definition tasks_doc : dict :=
  [("research", PDict [("description", PStr "Find talks");
                       ("agent", PStr "researcher")]);
   ("review", PDict [("description", PStr "Review");
                     ("agent", PStr "reviewer");
                     ("priority", PInt 1)]);
   ("analyse", PDict [("description", PStr "Analyse");
                      ("agent", PStr "analyst");
                      ("priority", PInt 3);
                      ("expected_output", PStr "A report")])].

Definition files : World := ["data/tedx.csv"; "data/impact_data.csv"].

(** The validated language-model configuration of [model_doc]. *)
Definition llm_settings : dict :=
  [("model", PStr "llama3"); ("temperature", PFloat 0%Q);
   ("top_p", PNone); ("stream", PNone)].

Definition llm : pyval :=
  PObj "LLMConfig"
       (("provider", PStr "ollama")
          :: (llm_settings ++ [("config", PObj "LLMSettings" llm_settings)])%list).

Definition embedder : pyval :=
  PObj "EmbedderConfig"
       [("provider", PStr "ollama"); ("model", PStr "nomic-embed-text");
        ("data_paths", PList [])].

Definition registry_over (doc : dict) : ToolRegistry :=
  {| llm_config := llm; embedder_config := embedder;
     tools := ∅; tool_configs := doc |}.

(** A model document without [model] and with a negative temperature. *)
Definition model_doc_bad : dict :=
  [("llm", PDict [("provider", PStr "ollama");
                  ("config", PDict [("temperature", PInt (-1))])])].

(** A model document with a blank [model] and a negative temperature. *)
Definition model_doc_blank : dict :=
  [("llm", PDict [("provider", PStr "ollama");
                  ("config", PDict [("model", PStr " ");
                                    ("temperature", PInt (-1))])])].

(** A tools document whose web search declares no [data_path]. *)
Definition tools_doc_partial : dict :=
  [("tedx_search", tool_entry "data/tedx.csv");
   ("duckduckgo_search", PDict [("embedder_config", ollama)])].

(** A tools document in which neither the search tool nor the slug tool
    has a [data_path]. *)
Definition tools_doc_no_paths : dict :=
  [("tedx_search", PDict [("embedder_config", ollama)]);
   ("tedx_slug", PDict [("embedder_config", ollama)])].

(** A tasks document all of whose agents are unknown. *)
Definition tasks_doc_ghosts : dict :=
  [("research", PDict [("description", PStr "Find talks");
                       ("agent", PStr "ghost")]);
   ("review", PDict [("description", PStr "Review");
                     ("agent", PStr "reviewer")])].

(** A world in which the impact data file is missing. *)
Definition files_no_impact : World := ["data/tedx.csv"].

End Demo.

(** ** Python text

    A [string] is a Python [str] whose characters are below 256. *)

Module Text.

(** [c.isspace()] *)
Definition isspace (c : ascii) : bool :=
  let n := nat_of_ascii c in
  Nat.leb 9 n && Nat.leb n 13 || Nat.leb 28 n && Nat.leb n 32
  || Nat.eqb n 133 || Nat.eqb n 160.

(** [s.lstrip()] *)
Fixpoint lstrip (s : string) : string :=
  match s with
  | EmptyString => EmptyString
  | String c s' => if isspace c then lstrip s' else s
  end.

(** [s.rstrip()] *)
Fixpoint rstrip (s : string) : string :=
  match s with
  | EmptyString => EmptyString
  | String c s' =>
      match rstrip s' with
      | EmptyString => if isspace c then EmptyString else String c EmptyString
      | r => String c r
      end
  end.

(** [s.strip()] *)
Definition strip (s : string) : string := rstrip (lstrip s).

(** [c.lower()] *)
Definition lower_char (c : ascii) : ascii :=
  let n := nat_of_ascii c in
  if Nat.leb 65 n && Nat.leb n 90
     || Nat.leb 192 n && Nat.leb n 222 && negb (Nat.eqb n 215)
  then ascii_of_nat (n + 32) else c.

(** [s.lower()] *)
Fixpoint lower (s : string) : string :=
  match s with
  | EmptyString => EmptyString
  | String c s' => String (lower_char c) (lower s')
  end.

(** [c.upper()] for the letters of the basic alphabet, which is all
    [capitalize] meets in this program. *)
Definition upper_char (c : ascii) : ascii :=
  let n := nat_of_ascii c in
  if Nat.leb 97 n && Nat.leb n 122 then ascii_of_nat (n - 32) else c.

(** [s.capitalize()] *)
Definition capitalize (s : string) : string :=
  match s with
  | EmptyString => EmptyString
  | String c s' => String (upper_char c) (lower s')
  end.

Definition newline : string := String (ascii_of_nat 10) EmptyString.

(** The first and the last character, when there are any. *)
Definition first_char (s : string) : option ascii :=
  match s with
  | EmptyString => None
  | String c _ => Some c
  end.

Fixpoint last_char (s : string) : option ascii :=
  match s with
  | EmptyString => None
  | String c s' => match last_char s' with
                   | None => Some c
                   | Some d => Some d
                   end
  end.

(** Neither end of the text is white space. *)
Definition trimmed (s : string) : Prop :=
  (forall c, first_char s = Some c -> isspace c = false) /\
  (forall c, last_char s = Some c -> isspace c = false).

(** All of the text is white space. *)
Fixpoint blank (s : string) : bool :=
  match s with
  | EmptyString => true
  | String c s' => isspace c && blank s'
  end.

End Text.

(** ** tools/custom_tool.py *)

Module CustomTool.

(** What the tools' input schemas let through to [extract_query_string]:
    nothing, a text, a number or a mapping. *)
Inductive query : Type :=
| QNone
| QStr (s : string)
| QInt (z : Z)
| QDict (d : dict).

(** [str(z)] *)
Definition str_of_int (z : Z) : string :=
  NilZero.string_of_int (Z.to_int z).

(** [v.strip()] *)
Definition strip_method (v : pyval) : result pyval :=
  match v with
  | PStr s => Ok (PStr (Text.strip s))
  | _ => Raise (AttributeError "strip")
  end.

(** [d.get(k, default)] on a mapping *)
Definition dict_get (d : dict) (k : string) (default : pyval) : pyval :=
  match Py.lookup k d with
  | Some v => v
  | None => default
  end.

(** The test [query_input is None or str(query_input).lower() in
    ['none', 'null', '']]; the text of a mapping starts with a brace and is
    none of the three. *)
Definition says_nothing (query_input : query) : bool :=
  match query_input with
  | QNone => true
  | QStr s => existsb (String.eqb (Text.lower s)) ["none"; "null"; ""]
  | QInt z => existsb (String.eqb (Text.lower (str_of_int z))) ["none"; "null"; ""]
  | QDict _ => false
  end.

Definition extract_query_string (query_input : query) : result pyval :=
  if says_nothing query_input then Ok (PStr "")
  else
    match query_input with
    | QStr s => Ok (PStr (Text.strip s))
    | QDict d =>
        match strip_method (dict_get d "query" (dict_get d "q" (PStr ""))) with
        | Ok fallback => Ok (dict_get d "search_query" fallback)
        | Raise e => Raise e
        end
    | QInt z => Ok (PStr (Text.strip (str_of_int z)))
    | QNone => Ok (PStr "")
    end.

(** The loop over [input_data.items()]: the first string value that is
    not blank, trimmed. *)
Fixpoint first_text (items : list (string * pyval)) : option string :=
  match items with
  | [] => None
  | (_, PStr s) :: rest =>
      if String.eqb (Text.strip s) "" then first_text rest
      else Some (Text.strip s)
  | _ :: rest => first_text rest
  end.

Definition search_input (q : string) : pyval := PDict [("search_query", PStr q)].

Definition prepare_youtube_search_input (input_data : pyval) : result pyval :=
  match input_data with
  | PStr s =>
      if String.eqb (Text.strip s) "" then Raise (ValueError "Input string is empty.")
      else Ok (search_input (Text.strip s))
  | PDict d =>
      match
        match Py.lookup "search_query" d with
        | Some (PStr s) =>
            if String.eqb (Text.strip s) "" then None else Some (Text.strip s)
        | _ => None
        end
      with
      | Some q => Ok (search_input q)
      | None =>
          match first_text d with
          | Some q => Ok (search_input q)
          | None =>
              Raise (ValueError
                       "Dictionary input does not contain a valid 'search_query' string.")
          end
      end
  | _ => Raise (ValueError
                  "Input must be a string or a dictionary containing 'search_query'.")
  end.

(** A value that [prepare_youtube_search_input] can take a query from:
    a text that is not blank. *)
Definition usable (v : pyval) : bool :=
  match v with
  | PStr s => negb (Text.blank s)
  | _ => false
  end.

(** The inputs [prepare_youtube_search_input] can take a query from. *)
Definition has_query (input_data : pyval) : bool :=
  match input_data with
  | PStr _ => usable input_data
  | PDict d => existsb (fun item => usable (snd item)) d
  | _ => false
  end.

(** A statement of a loop body either returns from the function or lets
    the loop go on. *)
Inductive flow (A : Type) : Type :=
| Returned (a : A)
| Fallthrough.
Arguments Returned {A} a.
Arguments Fallthrough {A}.

Definition test_queries : list string := ["cats"; "dogs"; "funny pets"].

(** The body of the loop over [test_queries] in
    [CustomYoutubeVideoSearchTool._run]; [run] is [self.crewai_tool.run]. *)
Definition youtube_test {W} (run : pyval -> W -> result string * W)
           (test_query : string) (w : W) : flow string * W :=
  match run (PStr test_query) w with
  | (Ok r, w') =>
      (Returned ("Test Search Results for '" +:+ test_query +:+ "':"
                 +:+ Text.newline +:+ r), w')
  | (Raise e, w') =>
      (Returned ("Error during YouTube video search for query '" +:+ test_query
                 +:+ "': " +:+ Py.message e), w')
  end.

Fixpoint youtube_tests {W} (run : pyval -> W -> result string * W)
         (queries : list string) (w : W) : flow string * W :=
  match queries with
  | [] => (Fallthrough, w)
  | q :: queries' =>
      match youtube_test run q w with
      | (Returned answer, w') => (Returned answer, w')
      | (Fallthrough, w') => youtube_tests run queries' w'
      end
  end.

(** [CustomYoutubeVideoSearchTool._run]; [str] is Python's [str]. *)
Definition youtube_run {W} (str : pyval -> string)
           (run : pyval -> W -> result string * W)
           (search_query : pyval) (w : W) : result string * W :=
  match
    match prepare_youtube_search_input search_query with
    | Ok formatted_input => Py.getitem formatted_input "search_query"
    | Raise e => Raise e
    end
  with
  | Raise (ValueError m) => (Ok ("Error: " +:+ m), w)
  | Raise e => (Raise e, w)
  | Ok query_str =>
      if negb (Py.truthy query_str)
      then (Ok "Error: No valid search query provided.", w)
      else
        match youtube_tests run test_queries w with
        | (Returned answer, w') => (Ok answer, w')
        | (Fallthrough, w') =>
            match run query_str w' with
            | (Ok r, w'') =>
                (Ok ("Final Answer: YouTube Search Results for '"
                     +:+ str query_str +:+ "':" +:+ Text.newline +:+ r), w'')
            | (Raise e, w'') =>
                (Ok ("Error during YouTube video search: " +:+ Py.message e), w'')
            end
        end
  end.

(** A search tool that answers every query alike and keeps a record of
    the queries it was run on. *)
Definition sample_search (q : pyval) (w : list pyval) : result string * list pyval :=
  (Ok "3 videos", (w ++ [q])%list).

Definition sample_str (v : pyval) : string :=
  match v with
  | PStr s => s
  | _ => ""
  end.

End CustomTool.

(** ** tools/tedx_slug_tool.py *)

Module SlugTool.

(** A row of the CSV file as [csv.DictReader] hands it over. *)
Definition row : Type := dict.

Record TEDxSlugTool : Type := {
  slug_llm_config : pyval;
  slug_embedder_config : pyval;
  slug_data_path : pyval;
  csv_data : gmap string row
}.

Definition default_data_path : string :=
  "data/github-mauropelucchi-tedx_dataset-update_2024-details.csv".

(** [data_path or '...details.csv'] *)
Definition data_path_or_default (data_path : pyval) : pyval :=
  if Py.truthy data_path then data_path else PStr default_data_path.

(** The loop of [_load_csv_data] over the rows of the reader. *)
Fixpoint index_rows (rows : list row) (slug_index : gmap string row)
  : result (gmap string row) :=
  match rows with
  | [] => Ok slug_index
  | r :: rows' =>
      match CustomTool.strip_method (CustomTool.dict_get r "slug" (PStr "")) with
      | Raise e => Raise e
      | Ok (PStr slug) =>
          if negb (String.eqb slug "")
          then index_rows rows' (<[slug := r]> slug_index)
          else index_rows rows' slug_index
      | Ok _ => index_rows rows' slug_index
      end
  end.

(** [_load_csv_data]; [read_rows] opens the file and reads all its rows,
    or raises what [open] or the reader raise. *)
Definition _load_csv_data {W} (read_rows : pyval -> W -> result (list row) * W)
           (data_path : pyval) (w : W) : result (gmap string row) * W :=
  match read_rows data_path w with
  | (Raise e, w') => (Raise e, w')
  | (Ok rows, w') => (index_rows rows ∅, w')
  end.

(** [TEDxSlugTool.__init__]; [super_init] is the constructor of
    [StructuredTool]. *)
Definition TEDxSlugTool_init {W} (super_init : W -> option exn * W)
           (read_rows : pyval -> W -> result (list row) * W)
           (llm_config embedder_config data_path : pyval) (w : W)
  : result TEDxSlugTool * W :=
  if negb (Py.truthy llm_config) || negb (Py.truthy embedder_config)
  then (Raise (ValueError "Missing LLM configuration or Embedder configuration."), w)
  else
    match super_init w with
    | (Some e, w1) => (Raise e, w1)
    | (None, w1) =>
        match _load_csv_data read_rows (data_path_or_default data_path) w1 with
        | (Raise e, w2) => (Raise e, w2)
        | (Ok index, w2) =>
            (Ok {| slug_llm_config := llm_config;
                   slug_embedder_config := embedder_config;
                   slug_data_path := data_path_or_default data_path;
                   csv_data := index |}, w2)
        end
    end.

(** [TEDxSlugTool._run]; [show] is how Python prints a row. *)
Definition _run (show : row -> string) (self : TEDxSlugTool) (slug : string)
  : string :=
  if String.eqb slug "" then "Error: No slug provided."
  else
    match csv_data self !! slug with
    | Some ((_ :: _) as r) =>
        "Final Answer: Data for slug '" +:+ slug +:+ "':" +:+ Text.newline
        +:+ show r
    | _ => "No data found for slug '" +:+ slug
           +:+ "'. Please ensure the slug is correct."
    end.

(** The row's slug column holds a text. *)
Definition slug_is_text (r : row) : bool :=
  match CustomTool.dict_get r "slug" (PStr "") with
  | PStr _ => true
  | _ => false
  end.

(** The row's slug, trimmed, is [slug]. *)
Definition has_slug (slug : string) (r : row) : bool :=
  match CustomTool.dict_get r "slug" (PStr "") with
  | PStr s => String.eqb (Text.strip s) slug
  | _ => false
  end.

(** The last of the rows that has the slug. *)
Fixpoint last_row (slug : string) (rows : list row) : option row :=
  match rows with
  | [] => None
  | r :: rows' =>
      match last_row slug rows' with
      | Some r' => Some r'
      | None => if has_slug slug r then Some r else None
      end
  end.

(** The rows of a file whose last slug repeats the first. *)
Definition sample_rows : list row :=
  [[("slug", PStr "ada_lovelace"); ("title", PStr "The first program")];
   [("slug", PStr "   "); ("title", PStr "No slug")];
   [("slug", PStr " grace_hopper "); ("title", PStr "Compilers")];
   [("title", PStr "No slug column")];
   [("slug", PStr "ada_lovelace"); ("title", PStr "The first program, again")]].

(** The same file with a row that is shorter than the header: the reader
    fills its missing slug with None. *)
Definition short_rows : list row :=
  (sample_rows ++ [[("slug", PNone); ("title", PNone)]])%list.

(** A file system with the two files [talks.csv] and [short.csv]. *)
Definition sample_read (data_path : pyval) (w : unit)
  : result (list row) * unit :=
  match data_path with
  | PStr p =>
      if String.eqb p "talks.csv" then (Ok sample_rows, w)
      else if String.eqb p "short.csv" then (Ok short_rows, w)
      else (Raise (FileNotFoundError ("No such file or directory: '" +:+ p +:+ "'")), w)
  | _ => (Raise (TypeError "expected str, bytes or os.PathLike object"), w)
  end.

Definition sample_super (w : unit) : option exn * unit := (None, w).

(** A stand-in for the way Python prints a row: its title. *)
Definition show_title (r : row) : string :=
  match Py.lookup "title" r with
  | Some (PStr t) => t
  | _ => ""
  end.

End SlugTool.

(** ** crewai_manager/manager.py and config_loader.py: the configuration files *)

Module ConfigFiles.

(** [_validate_config_path]; [path_exists] is [os.path.exists] on the
    file system as it is. *)
Definition _validate_config_path (path_exists : string -> bool)
           (config_path config_name : string) : result unit :=
  if path_exists config_path then Ok tt
  else Raise (FileNotFoundError
                (Text.capitalize config_name +:+ " config file not found: "
                 +:+ config_path)).

(** [load_config]; [read_yaml] opens the file and parses it, and each of
    the three handlers logs and raises the exception again. *)
Definition load_config {W} (read_yaml : string -> W -> result pyval * W)
           (config_path config_type : string) (w : W) : result pyval * W :=
  match read_yaml config_path w with
  | (Ok config, w') => (Ok config, w')
  | (Raise e, w') => (Raise e, w')
  end.

Record documents : Type := {
  agents_document : pyval;
  tasks_document : pyval;
  model_document : pyval;
  tools_document : pyval
}.

(** The first eight statements of [CrewAIManager.__init__]: the four
    checks, then the four loads. *)
Definition load_documents {W} (path_exists : W -> string -> bool)
           (read_yaml : string -> W -> result pyval * W)
           (agents_config_path tasks_config_path model_config_path
              tools_config_path : string) (w : W) : result documents * W :=
  match _validate_config_path (path_exists w) agents_config_path "agents" with
  | Raise e => (Raise e, w)
  | Ok _ =>
  match _validate_config_path (path_exists w) tasks_config_path "tasks" with
  | Raise e => (Raise e, w)
  | Ok _ =>
  match _validate_config_path (path_exists w) model_config_path "model" with
  | Raise e => (Raise e, w)
  | Ok _ =>
  match _validate_config_path (path_exists w) tools_config_path "tools" with
  | Raise e => (Raise e, w)
  | Ok _ =>
  match load_config read_yaml agents_config_path "agents" w with
  | (Raise e, w1) => (Raise e, w1)
  | (Ok a, w1) =>
  match load_config read_yaml tasks_config_path "tasks" w1 with
  | (Raise e, w2) => (Raise e, w2)
  | (Ok t, w2) =>
  match load_config read_yaml model_config_path "model" w2 with
  | (Raise e, w3) => (Raise e, w3)
  | (Ok m, w3) =>
  match load_config read_yaml tools_config_path "tools" w3 with
  | (Raise e, w4) => (Raise e, w4)
  | (Ok tl, w4) =>
      (Ok {| agents_document := a; tasks_document := t;
             model_document := m; tools_document := tl |}, w4)
  end end end end end end end end.

(** The first of the four paths that does not exist, with the word the
    error message starts with. *)
Definition first_missing (path_exists : string -> bool)
           (agents_config_path tasks_config_path model_config_path
              tools_config_path : string) : option (string * string) :=
  List.find (fun p => negb (path_exists (snd p)))
            [("Agents", agents_config_path); ("Tasks", tasks_config_path);
             ("Model", model_config_path); ("Tools", tools_config_path)].

End ConfigFiles.

Section Program.

(** The collaborators whose source is not part of the core: the outside
    world, the field rules of the pydantic models of
    [schemas.config_schemas], and the constructors of the tool classes
    and of crewai's [Agent], [Task] and [Crew]. *)
Variable W : Type.
Variable LLMConfig_validate : dict -> validated.
Variable EmbedderConfig_validate : dict -> validated.
Variable tool_class_init : ToolClass -> pyval -> W -> option exn * W.
Variable Agent_init :
  pyval -> pyval -> pyval -> pyval -> list ToolInstance -> W -> option exn * W.
Variable Task_init : pyval -> Agent -> pyval -> pyval -> W -> option exn * W.
Variable Crew_init : CrewArgs -> W -> option exn * W.

(** A call of a class with keyword arguments, for a class whose
    [__init__] is [init]. *)
Definition construct (ev : result nat -> event)
           (init : W -> option exn * W) (y : Sys W) : result nat * Sys W :=
  match init (world y) with
  | (None, w') =>
      (Ok (next_id y),
       {| world := w'; next_id := S (next_id y);
          log := log y ++ [ev (Ok (next_id y))] |})
  | (Some e, w') =>
      (Raise e,
       {| world := w'; next_id := next_id y; log := log y ++ [ev (Raise e)] |})
  end.

(** A pydantic model class [cls] called on the unpacked mapping [v]. *)
Definition model_new (cls : string) (validate : dict -> validated)
           (v : pyval) : result pyval :=
  match v with
  | PDict d => match validate d with
               | Valid fields => Ok (PObj cls fields)
               | Invalid errs => Raise (ValidationError errs)
               end
  | _ => Raise (TypeError "argument after ** must be a mapping")
  end.

Definition EmbedderConfig_new : pyval -> result pyval :=
  model_new "EmbedderConfig" EmbedderConfig_validate.

Definition sub_model (field cls : string) (validate : dict -> validated)
           (o : option pyval) : result pyval :=
  match o with
  | None => Raise (ValidationError [(field, "field required")])
  | Some (PObj c fs) =>
      if String.eqb c cls then Ok (PObj c fs)
      else Raise (ValidationError [(field, "value is not a valid dict")])
  | Some v =>
      match model_new cls validate v with
      | Raise (TypeError _) =>
          Raise (ValidationError [(field, "value is not a valid dict")])
      | r => r
      end
  end.

(** Modelled from the spec: [ToolConfig] of [schemas.config_schemas],
    which is not among the sources.  It holds [llm : LLMConfig] and
    [embedder : EmbedderConfig]; both sub-configurations are validated
    independently and the error lists every violated field rule of
    both. *)
Definition ToolConfig_new (v : pyval) : result pyval :=
  match v with
  | PDict d =>
      match sub_model "llm" "LLMConfig" LLMConfig_validate (Py.lookup "llm" d),
            sub_model "embedder" "EmbedderConfig" EmbedderConfig_validate
                      (Py.lookup "embedder" d) with
      | Ok l, Ok e => Ok (PObj "ToolConfig" [("llm", l); ("embedder", e)])
      | Raise (ValidationError le), Raise (ValidationError ee) =>
          Raise (ValidationError (le ++ ee))
      | Raise x, _ => Raise x
      | _, Raise x => Raise x
      end
  | _ => Raise (TypeError "argument after ** must be a mapping")
  end.

(** ** tools/tool_registry.py *)

Definition in_sys {A} (m : Sys W -> result A * Sys W) : M (RegState W) A :=
  fun s => let '(r, y) := m (sys s) in (r, {| reg := reg s; sys := y |}).

(** [ToolRegistry.__init__]; [tools_doc] is what [_load_tool_configs]
    read from the tools file. *)
Definition ToolRegistry_init (llm emb : pyval) (tools_doc : dict)
  : result ToolRegistry :=
  if negb (Py.isinstance llm "LLMConfig")
  then Raise (TypeError "Invalid LLMConfig provided.")
  else if negb (Py.isinstance emb "EmbedderConfig")
  then Raise (TypeError "Invalid EmbedderConfig provided.")
  else Ok {| llm_config := llm; embedder_config := emb;
             tools := ∅; tool_configs := tools_doc |}.

Definition needs_data_path (tool_name : string) : bool :=
  existsb (String.eqb tool_name) ["tedx_search"; "tedx_slug"; "tedx_transcript"].

Definition missing_data_path (tool_name : string) : exn :=
  ValueError ("Missing data path for tool '" +:+ tool_name +:+ "'").

(** [llm.config.a] *)
Definition llm_config_attr (llm : pyval) (a : string) : result pyval :=
  match Py.getattr llm "config" with
  | Ok c => Py.getattr c a
  | Raise e => Raise e
  end.

Definition _create_tool (tool_name : string) (tool_class : ToolClass)
  : M (RegState W) ToolInstance :=
  self <- gets reg ;;
  tool_config <- lift_result
    (Py.get (PDict (tool_configs self)) tool_name (PDict [])) ;;
  embedder_conf <- lift_result (Py.get tool_config "embedder_config" (PDict [])) ;;
  data_path <- lift_result (Py.get tool_config "data_path" PNone) ;;
  embedder_conf <-
    (if Py.isinstance embedder_conf "EmbedderConfig" then ret embedder_conf
     else lift_result (EmbedderConfig_new embedder_conf)) ;;
  (if needs_data_path tool_name && negb (Py.truthy data_path)
   then raise (missing_data_path tool_name) else ret tt) ;;;
  provider <- lift_result (Py.getattr (llm_config self) "provider") ;;
  model <- lift_result (llm_config_attr (llm_config self) "model") ;;
  temperature <- lift_result (llm_config_attr (llm_config self) "temperature") ;;
  top_p <- lift_result (llm_config_attr (llm_config self) "top_p") ;;
  stream <- lift_result (llm_config_attr (llm_config self) "stream") ;;
  let llm_config_dict :=
    PDict [("provider", provider);
           ("config", PDict [("model", model); ("temperature", temperature);
                             ("top_p", top_p); ("stream", stream)])] in
  embedder_dict <- lift_result (Py.dict_method embedder_conf) ;;
  let tool_kwargs :=
    PDict [("llm_config", llm_config_dict);
           ("embedder_config", embedder_dict);
           ("data_path", data_path)] in
  i <- in_sys (construct (EvTool tool_name) (tool_class_init tool_class tool_kwargs)) ;;
  ret {| tool_id := i; tool_class := tool_class; tool_kwargs := tool_kwargs |}.

(** [self.tools[tool_name] = tool] *)
Definition memoize (tool_name : string) (tool : ToolInstance)
           (s : RegState W) : RegState W :=
  {| reg := set_tools (<[tool_name := tool]> (tools (reg s))) (reg s);
     sys := sys s |}.

(** The body of [get_tool]; [self_get_tool] stands for the two recursive
    calls [self.get_tool(...)]. *)
Definition get_tool_body (self_get_tool : string -> M (RegState W) ToolInstance)
           (tool_name : string) : M (RegState W) ToolInstance :=
  fun s =>
    match tools (reg s) !! tool_name with
    | Some tool => (Ok tool, s)
    | None =>
        try_except
          (tool <-
             (if String.eqb tool_name "tedx_search" then
                _create_tool tool_name TEDxSearchTool
              else if String.eqb tool_name "tedx_slug" then
                self_get_tool "tedx_search" ;;;
                _create_tool tool_name TEDxSlugTool
              else if String.eqb tool_name "tedx_transcript" then
                self_get_tool "tedx_slug" ;;;
                _create_tool tool_name TEDxTranscriptTool
              else if String.eqb tool_name "sdg_align" then
                _create_tool tool_name SDGAlignTool
              else if String.eqb tool_name "sustainability_impact" then
                _create_tool tool_name SustainabilityImpactTool
              else if String.eqb tool_name "duckduckgo_search" then
                _create_tool tool_name DuckDuckGoSearchTool
              else raise (ValueError ("Unknown tool: " +:+ tool_name))) ;;
           modify (memoize tool_name tool) ;;;
           ret tool)
          (fun e => raise e) s
    end.

(** [get_tool] with its recursion depth bounded by [fuel]; the chain
    transcript, slug, search is two calls deep. *)
Fixpoint get_tool_fuel (fuel : nat) (tool_name : string)
  : M (RegState W) ToolInstance :=
  match fuel with
  | O => raise RecursionError
  | S fuel' => get_tool_body (get_tool_fuel fuel') tool_name
  end.

Definition get_tool : string -> M (RegState W) ToolInstance := get_tool_fuel 3.

(** A client's life with a registry: one [get_tool] after another, each
    one's exception caught by the caller. *)
Fixpoint requests (names : list string) (s : RegState W) : RegState W :=
  match names with
  | [] => s
  | n :: names' => requests names' (snd (get_tool n s))
  end.

(** The state right after [ToolRegistry.__init__]. *)
Definition new_registry (r : ToolRegistry) (w : W) : RegState W :=
  {| reg := set_tools ∅ r;
     sys := {| world := w; next_id := 0; log := [] |} |}.

(** ** crewai_manager/manager.py *)

Definition in_msys {A} (m : Sys W -> result A * Sys W) : M (MgrState W) A :=
  fun s => let '(r, y) := m (msys s) in (r, {| mgr := mgr s; msys := y |}).

(** A method of [self.tool_registry] called from the manager. *)
Definition with_registry {A} (m : M (RegState W) A) : M (MgrState W) A :=
  fun s =>
    let '(r, rs) := m {| reg := tool_registry (mgr s); sys := msys s |} in
    (r, {| mgr := set_tool_registry (reg rs) (mgr s); msys := sys rs |}).

Fixpoint map_result {A B} (f : A -> result B) (xs : list A) : result (list B) :=
  match xs with
  | [] => Ok []
  | x :: xs' =>
      match f x with
      | Raise e => Raise e
      | Ok y => match map_result f xs' with
                | Raise e => Raise e
                | Ok ys => Ok (y :: ys)
                end
      end
  end.

(** [_initialize_tool_config], reading [self.model_config] and
    [self.tools_config]. *)
Definition _initialize_tool_config {S} (model_config tools_config : dict)
  : M S pyval :=
  try_except
    (llm <- lift_result (Py.getitem (PDict model_config) "llm") ;;
     provider <- lift_result (Py.getitem llm "provider") ;;
     llm <- lift_result (Py.getitem (PDict model_config) "llm") ;;
     config <- lift_result (Py.getitem llm "config") ;;
     model <- lift_result (Py.getitem config "model") ;;
     llm <- lift_result (Py.getitem (PDict model_config) "llm") ;;
     config <- lift_result (Py.getitem llm "config") ;;
     temperature <- lift_result (Py.get config "temperature" (PFloat 1%Q)) ;;
     let llm_config :=
       PDict [("provider", provider); ("model", model);
              ("temperature", temperature)] in
     data_paths <- lift_result
       (map_result (fun tool_config => Py.getitem tool_config "data_path")
                   (Py.values tools_config)) ;;
     let embedder_config :=
       PDict [("provider", PStr "ollama");
              ("config", PDict [("model", PStr "nomic-embed-text")]);
              ("data_paths", PList data_paths)] in
     let tool_config_data :=
       PDict [("llm", llm_config); ("embedder", embedder_config)] in
     lift_result (ToolConfig_new tool_config_data))
    (fun e => raise e).

(** [CrewAIManager.__init__] once the four documents have been read from
    their files. *)
Definition CrewAIManager_init (agents_doc tasks_doc model_doc tools_doc : dict)
           (w : W) : result (MgrState W) :=
  match fst (_initialize_tool_config model_doc tools_doc tt) with
  | Raise e => Raise e
  | Ok tc =>
      match Py.getattr tc "llm" with
      | Raise e => Raise e
      | Ok llm =>
          match Py.getattr tc "embedder" with
          | Raise e => Raise e
          | Ok emb =>
              match ToolRegistry_init llm emb tools_doc with
              | Raise e => Raise e
              | Ok r =>
                  Ok {| mgr := {| agents_config := agents_doc;
                                  tasks_config := tasks_doc;
                                  model_config := model_doc;
                                  tools_config := tools_doc;
                                  agents := [];
                                  tasks := [];
                                  tool_config := tc;
                                  tool_registry := r;
                                  memory := true |};
                        msys := {| world := w; next_id := 0; log := [] |} |}
              end
          end
      end
  end.

(** The tool names an agent's entry declares. *)
Definition declared_tools (agent_config : pyval) : result (list pyval) :=
  match Py.get agent_config "tools" (PList []) with
  | Ok (PList l) => Ok l
  | Ok PNone => Ok []
  | Ok _ => Raise (TypeError "tools must be a sequence of tool names")
  | Raise e => Raise e
  end.

Definition get_declared_tool (name : pyval) : M (MgrState W) ToolInstance :=
  match name with
  | PStr n => with_registry (get_tool n)
  | _ => raise (ValueError "Unknown tool")
  end.

(** Modelled from the spec: [create_agent] of
    [crewai_manager.agent_factory], which is not among the sources.  For
    each tool name the agent's entry declares it calls
    [ToolRegistry.get_tool], whose failures it lets through unchanged,
    and then constructs the [Agent] bound to those tool instances and
    the shared configuration. *)
Definition create_agent (name agent_config llm emb : pyval)
  : M (MgrState W) Agent :=
  names <- lift_result (declared_tools agent_config) ;;
  ts <- map_m get_declared_tool names ;;
  i <- in_msys (construct (EvAgent name) (Agent_init name agent_config llm emb ts)) ;;
  ret {| agent_id := i; agent_name := name; agent_spec := agent_config;
         agent_tools := ts |}.

Definition _create_agent (name : pyval) : M (MgrState W) Agent :=
  try_except
    (self <- gets mgr ;;
     llm <- lift_result (Py.getattr (tool_config self) "llm") ;;
     unready <-
       (if negb (Py.truthy llm) then ret true
        else emb <- lift_result (Py.getattr (tool_config self) "embedder") ;;
             ret (negb (Py.truthy emb))) ;;
     (if unready : bool
      then raise (ValueError "LLMConfig or EmbedderConfig not properly initialized.")
      else ret tt) ;;;
     agent_config <- lift_result (Py.getitem_key (agents_config self) name) ;;
     llm <- lift_result (Py.getattr (tool_config self) "llm") ;;
     emb <- lift_result (Py.getattr (tool_config self) "embedder") ;;
     create_agent name agent_config llm emb)
    (fun e => raise e).

Definition placeholder_output : string := "No output specified.".

Definition create_task (task_name : string) : M (MgrState W) unit :=
  self <- gets mgr ;;
  (match Py.lookup task_name (tasks_config self) with
   | None => raise (ValueError ("Task '" +:+ task_name
                                +:+ "' not found in tasks configuration."))
   | Some _ => ret tt
   end) ;;;
  task_config <- lift_result (Py.getitem (PDict (tasks_config self)) task_name) ;;
  agent_name <- lift_result (Py.get task_config "agent" PNone) ;;
  known <- lift_result (AgentTable.contains agent_name (agents self)) ;;
  (if known : bool then ret tt
   else a <- _create_agent agent_name ;;
        modify (fun s => {| mgr := set_agents (AgentTable.set agent_name a (agents (mgr s)))
                                              (mgr s);
                            msys := msys s |})) ;;;
  self <- gets mgr ;;
  agent <- lift_result (AgentTable.getitem agent_name (agents self)) ;;
  priority <- lift_result (Py.get task_config "priority" (PInt 2)) ;;
  description <- lift_result (Py.get task_config "description" (PStr "")) ;;
  expected_output <- lift_result
    (Py.get task_config "expected_output" (PStr placeholder_output)) ;;
  i <- in_msys (construct EvTask (Task_init description agent priority expected_output)) ;;
  let task := {| task_id := i; description := description; agent := agent;
                 priority := priority; expected_output := expected_output |} in
  modify (fun s => {| mgr := set_tasks (tasks (mgr s) ++ [task]) (mgr s);
                      msys := msys s |}).

Definition empty_crew : exn :=
  ValueError "At least one agent and one task must be successfully created to initialize the crew.".

(** The loop of [initialize_crew] over the task names. *)
Definition create_tasks (names : list string) : M (MgrState W) unit :=
  for_each names
    (fun task_name => try_except (create_task task_name) (fun _ => ret tt)).

(** The test [not self.agents or not self.tasks]. *)
Definition no_agents_or_tasks (self : CrewAIManager) : bool :=
  match agents self with [] => true | _ => false end
  || match tasks self with [] => true | _ => false end.

Definition crew_kwargs (self : CrewAIManager) (embedder : pyval) : CrewArgs :=
  {| crew_agents := map snd (agents self);
     crew_tasks := tasks self;
     crew_process := sequential;
     crew_memory := memory self;
     crew_embedder := embedder;
     crew_max_rpm := PNone;
     crew_share_crew := false;
     crew_verbose := true |}.

Definition initialize_crew : M (MgrState W) Crew :=
  self <- gets mgr ;;
  create_tasks (Py.keys (tasks_config self)) ;;;
  self <- gets mgr ;;
  (if no_agents_or_tasks self then raise empty_crew else ret tt) ;;;
  try_except
    (emb <- lift_result (Py.getattr (tool_config self) "embedder") ;;
     embedder <-
       (if Py.truthy emb
        then emb' <- lift_result (Py.getattr (tool_config self) "embedder") ;;
             lift_result (Py.dict_method emb')
        else ret (PDict [])) ;;
     let args := crew_kwargs self embedder in
     i <- in_msys (construct EvCrew (Crew_init args)) ;;
     ret {| crew_id := i; crew_args := args |})
    (fun e => raise e).

(** ** Notions the statements are written with *)

(** Calls of the constructor of tool [t] recorded in [l]. *)
Definition is_call (t : string) (e : event) : bool :=
  match e with
  | EvTool n _ => String.eqb n t
  | _ => false
  end.

Fixpoint calls (t : string) (l : list event) : nat :=
  match l with
  | [] => 0
  | e :: l' => (if is_call t e then 1 else 0) + calls t l'
  end.

(** Identities of the instances of tool [t] whose construction is
    recorded in [l]. *)
Fixpoint made (t : string) (l : list event) : list nat :=
  match l with
  | [] => []
  | EvTool n (Ok i) :: l' =>
      if String.eqb n t then i :: made t l' else made t l'
  | _ :: l' => made t l'
  end.

(** Calls of the constructor of tool [t] recorded in [l] that raised. *)
Fixpoint failures (t : string) (l : list event) : nat :=
  match l with
  | [] => 0
  | EvTool n (Raise _) :: l' =>
      (if String.eqb n t then 1 else 0) + failures t l'
  | _ :: l' => failures t l'
  end.

(** [data_path] as [_create_tool] reads it from the tools document. *)
Definition data_path_of (doc : dict) (tool_name : string) : result pyval :=
  match Py.get (PDict doc) tool_name (PDict []) with
  | Ok tool_config => Py.get tool_config "data_path" PNone
  | Raise e => Raise e
  end.

Definition has_data_path (doc : dict) (tool_name : string) : bool :=
  match data_path_of doc tool_name with
  | Ok v => Py.truthy v
  | Raise _ => false
  end.

(** The embedder configuration [_create_tool] derives for a tool. *)
Definition tool_embedder (doc : dict) (tool_name : string) : result pyval :=
  match Py.get (PDict doc) tool_name (PDict []) with
  | Ok tool_config =>
      match Py.get tool_config "embedder_config" (PDict []) with
      | Ok c => if Py.isinstance c "EmbedderConfig" then Ok c
                else EmbedderConfig_new c
      | Raise e => Raise e
      end
  | Raise e => Raise e
  end.

(** What [_create_tool] does once the keyword arguments are there. *)
Definition instantiate (tool_name : string) (cls : ToolClass) (kw : pyval)
           (s : RegState W) : result ToolInstance * RegState W :=
  match construct (EvTool tool_name) (tool_class_init cls kw) (sys s) with
  | (Ok i, y) => (Ok {| tool_id := i; tool_class := cls; tool_kwargs := kw |},
                  {| reg := reg s; sys := y |})
  | (Raise e, y) => (Raise e, {| reg := reg s; sys := y |})
  end.

(** The hard-coded precedence of [get_tool] as two tables: the class of
    each recognized name and the one tool that has to exist first. *)
Definition class_of (tool_name : string) : option ToolClass :=
  if String.eqb tool_name "tedx_search" then Some TEDxSearchTool
  else if String.eqb tool_name "tedx_slug" then Some TEDxSlugTool
  else if String.eqb tool_name "tedx_transcript" then Some TEDxTranscriptTool
  else if String.eqb tool_name "sdg_align" then Some SDGAlignTool
  else if String.eqb tool_name "sustainability_impact" then Some SustainabilityImpactTool
  else if String.eqb tool_name "duckduckgo_search" then Some DuckDuckGoSearchTool
  else None.

Definition predecessor (tool_name : string) : option string :=
  if String.eqb tool_name "tedx_slug" then Some "tedx_search"
  else if String.eqb tool_name "tedx_transcript" then Some "tedx_slug"
  else None.

(** Length of the chain of predecessors below a tool. *)
Definition rank (tool_name : string) : nat :=
  if String.eqb tool_name "tedx_slug" then 1
  else if String.eqb tool_name "tedx_transcript" then 2
  else 0.

(** The pre-fetch of the predecessor, when there is one. *)
Definition ensure (self_get_tool : string -> M (RegState W) ToolInstance)
           (tool_name : string) (s : RegState W) : option exn * RegState W :=
  match predecessor tool_name with
  | None => (None, s)
  | Some p => match self_get_tool p s with
              | (Ok _, s') => (None, s')
              | (Raise e, s') => (Some e, s')
              end
  end.

(** [get_tool] driven by the two tables. *)
Definition get_tool_table (self_get_tool : string -> M (RegState W) ToolInstance)
           (tool_name : string) (s : RegState W)
  : result ToolInstance * RegState W :=
  match tools (reg s) !! tool_name with
  | Some tool => (Ok tool, s)
  | None =>
      match class_of tool_name with
      | None => (Raise (ValueError ("Unknown tool: " +:+ tool_name)), s)
      | Some cls =>
          match ensure self_get_tool tool_name s with
          | (Some e, s1) => (Raise e, s1)
          | (None, s1) =>
              match _create_tool tool_name cls s1 with
              | (Ok tool, s2) => (Ok tool, memoize tool_name tool s2)
              | (Raise e, s2) => (Raise e, s2)
              end
          end
      end
  end.

(** The memo table and the record of constructions agree: a memoized
    name was constructed once, with the identity the table holds, is a
    recognized name, has its data path when it needs one, and sits above
    a memoized predecessor; any other name was never constructed. *)
Definition consistent (s : RegState W) : Prop :=
  forall k : string,
    match tools (reg s) !! k with
    | Some t =>
        made k (log (sys s)) = [tool_id t] /\
        class_of k <> None /\
        (needs_data_path k = true ->
         has_data_path (tool_configs (reg s)) k = true) /\
        (forall p, predecessor k = Some p -> is_Some (tools (reg s) !! p))
    | None => made k (log (sys s)) = []
    end.

(** The error names the tool: the name occurs in its message. *)
Definition names_tool (e : exn) (tool_name : string) : bool :=
  Py.contains tool_name (Py.message e).

(** The error says something about the field. *)
Definition reports (e : exn) (field : string) : bool :=
  match e with
  | ValidationError errs => existsb (fun fe => String.eqb (fst fe) field) errs
  | KeyError (PStr k) => String.eqb k field
  | _ => false
  end.

(** One pass of [initialize_crew] over the task names, with what became
    of each: the task appended for it, or nothing when [create_task]
    raised. *)
Inductive pass : MgrState W -> list string -> list (option Task)
                 -> MgrState W -> Prop :=
| pass_done s : pass s [] [] s
| pass_made s n ns t s1 out s2 :
    create_task n s = (Ok tt, s1) ->
    tasks (mgr s1) = (tasks (mgr s) ++ [t])%list ->
    pass s1 ns out s2 ->
    pass s (n :: ns) (Some t :: out) s2
| pass_dropped s n ns e s1 out s2 :
    create_task n s = (Raise e, s1) ->
    pass s1 ns out s2 ->
    pass s (n :: ns) (None :: out) s2.

(** The tasks of a pass, in order. *)
Fixpoint kept (out : list (option Task)) : list Task :=
  match out with
  | [] => []
  | Some t :: out' => t :: kept out'
  | None :: out' => kept out'
  end.

(** The agent a task entry names is not in the agents document. *)
Definition unknown_agent (self : CrewAIManager) (task_name : string) : Prop :=
  exists tc a,
    Py.lookup task_name (tasks_config self) = Some tc /\
    Py.get tc "agent" PNone = Ok (PStr a) /\
    Py.lookup a (agents_config self) = None.

(** What one call [get_tool name] may do to a registry: it keeps what
    is memoized, calls a constructor at most once per name and only for
    names that are not memoized, memoizes what it constructs, and lets
    go of a constructor's exception unchanged. *)
Definition effect (name : string) (s : RegState W)
           (r : result ToolInstance) (s' : RegState W) : Prop :=
  reg s' = set_tools (tools (reg s')) (reg s) /\
  exists d,
    log (sys s') = (log (sys s) ++ d)%list /\
    (forall k t, tools (reg s) !! k = Some t ->
                 tools (reg s') !! k = Some t /\ calls k d = 0) /\
    (forall k, tools (reg s) !! k = None ->
       match tools (reg s') !! k with
       | Some t =>
           made k d = [tool_id t] /\
           class_of k <> None /\
           (needs_data_path k = true ->
            has_data_path (tool_configs (reg s)) k = true) /\
           (forall p, predecessor k = Some p -> is_Some (tools (reg s') !! p))
       | None => made k d = []
       end) /\
    (forall k, calls k d <= 1 /\
               (0 < calls k d -> k = name \/ rank k < rank name)) /\
    (forall k e, In (EvTool k (Raise e)) d -> r = Raise e) /\
    (forall x, r = Ok x -> tools (reg s') !! name = Some x).

(** The same for the pre-fetch of the predecessor of [name]. *)
Definition below (name : string) (s : RegState W)
           (o : option exn) (s' : RegState W) : Prop :=
  reg s' = set_tools (tools (reg s')) (reg s) /\
  exists d,
    log (sys s') = (log (sys s) ++ d)%list /\
    (forall k t, tools (reg s) !! k = Some t ->
                 tools (reg s') !! k = Some t /\ calls k d = 0) /\
    (forall k, tools (reg s) !! k = None ->
       match tools (reg s') !! k with
       | Some t =>
           made k d = [tool_id t] /\
           class_of k <> None /\
           (needs_data_path k = true ->
            has_data_path (tool_configs (reg s)) k = true) /\
           (forall p, predecessor k = Some p -> is_Some (tools (reg s') !! p))
       | None => made k d = []
       end) /\
    (forall k, calls k d <= 1 /\ (0 < calls k d -> rank k < rank name)) /\
    (forall k e, In (EvTool k (Raise e)) d -> o = Some e) /\
    (o = None -> forall p, predecessor name = Some p ->
                           is_Some (tools (reg s') !! p)).

(** The manager's own fields are as before; only its tool registry may
    have moved. *)
Definition only_registry (s s' : MgrState W) : Prop :=
  exists r, mgr s' = set_tool_registry r (mgr s).

(** The agents table holds only agents the agents document defines. *)
Definition agents_known (s : MgrState W) : Prop :=
  forall k a, AgentTable.lookup k (agents (mgr s)) = Some a ->
              exists c, Py.getitem_key (agents_config (mgr s)) k = Ok c.

(** A manager as [__init__] leaves it, as far as [initialize_crew]
    reads it: the validated configuration has its embedder object. *)
Definition ready (s : MgrState W) : Prop :=
  exists cls fields,
    Py.getattr (tool_config (mgr s)) "embedder" = Ok (PObj cls fields).

(** The fields of the manager that are set once, in [__init__]. *)
Definition configs_of (m : CrewAIManager)
  : dict * dict * dict * dict * pyval * bool :=
  (agents_config m, tasks_config m, model_config m, tools_config m,
   tool_config m, memory m).

(** The mapping [_create_tool] passes as [llm_config]: it is read from
    the registry's own configuration alone. *)
Definition llm_kwargs (llm : pyval) : result pyval :=
  match Py.getattr llm "provider" with
  | Raise e => Raise e
  | Ok provider =>
      match llm_config_attr llm "model" with
      | Raise e => Raise e
      | Ok model =>
          match llm_config_attr llm "temperature" with
          | Raise e => Raise e
          | Ok temperature =>
              match llm_config_attr llm "top_p" with
              | Raise e => Raise e
              | Ok top_p =>
                  match llm_config_attr llm "stream" with
                  | Raise e => Raise e
                  | Ok stream =>
                      Ok (PDict [("provider", provider);
                                 ("config",
                                  PDict [("model", model);
                                         ("temperature", temperature);
                                         ("top_p", top_p);
                                         ("stream", stream)])])
                  end
              end
          end
      end
  end.

(** The instance is one that [_create_tool] builds for the name [k] in a
    registry with the configuration of [r]: it has the class that
    [get_tool] hard-codes for [k], and its keyword arguments are the
    registry's model settings, the embedder settings and the data path of
    the entry of [k] in the tools document. *)
Definition built_for (r : ToolRegistry) (k : string) (t : ToolInstance) : Prop :=
  class_of k = Some (tool_class t) /\
  exists llm_dict emb emb_dict dp,
    tool_kwargs t = PDict [("llm_config", llm_dict);
                           ("embedder_config", emb_dict);
                           ("data_path", dp)] /\
    llm_kwargs (llm_config r) = Ok llm_dict /\
    tool_embedder (tool_configs r) k = Ok emb /\
    Py.dict_method emb = Ok emb_dict /\
    data_path_of (tool_configs r) k = Ok dp.

(** Every memoized instance was built for its name, under an identity
    the allocator has already passed. *)
Definition well_formed (s : RegState W) : Prop :=
  forall k t, tools (reg s) !! k = Some t ->
              tool_id t < next_id (sys s) /\ built_for (reg s) k t.

(** No two names share an instance. *)
Definition distinct_ids (s : RegState W) : Prop :=
  forall k1 k2 t1 t2,
    tools (reg s) !! k1 = Some t1 -> tools (reg s) !! k2 = Some t2 ->
    tool_id t1 = tool_id t2 -> k1 = k2.

(** What the agents table holds, it holds for good. *)
Definition agents_kept (s s' : MgrState W) : Prop :=
  forall k a, AgentTable.lookup k (agents (mgr s)) = Some a ->
              AgentTable.lookup k (agents (mgr s')) = Some a.

(** ** Facts about the registry *)

Ltac inner_case :=
  match goal with
  | |- context [match ?x with _ => _ end] =>
      lazymatch x with
      | context [match _ with _ => _ end] => fail
      | _ => destruct x eqn:?
      end
  end.

Lemma calls_app (t : string) (l1 l2 : list event) :
  calls t (l1 ++ l2) = calls t l1 + calls t l2.
Proof.
  induction l1 as [|e l1 IH]; simpl; [reflexivity|].
  rewrite IH. lia.
Qed.

Lemma made_app (t : string) (l1 l2 : list event) :
  made t (l1 ++ l2) = (made t l1 ++ made t l2)%list.
Proof.
  induction l1 as [|e l1 IH]; simpl; [reflexivity|].
  destruct e as [n [i|x]| | |]; simpl; try assumption.
  destruct (String.eqb n t); simpl; congruence.
Qed.

Lemma made_le_calls (t : string) (l : list event) :
  length (made t l) <= calls t l.
Proof.
  induction l as [|e l IH]; simpl; [lia|].
  destruct e as [n [i|x]| | |]; simpl; try lia.
  destruct (String.eqb n t); simpl; lia.
Qed.

Lemma made_nil_of_calls (t : string) (l : list event) :
  calls t l = 0 -> made t l = [].
Proof.
  intros H. pose proof (made_le_calls t l) as Hle.
  destruct (made t l); [reflexivity | simpl in Hle; lia].
Qed.

(** [_create_tool] either raises before it reaches the constructor,
    leaving everything as it was, or calls the constructor. *)
(** Every call of a constructor either made an instance or raised. *)
Lemma calls_made_failures (t : string) (l : list event) :
  calls t l = length (made t l) + failures t l.
Proof.
  induction l as [|e l IH]; simpl; [reflexivity|].
  destruct e as [n [i|x]| | |]; simpl; try exact IH.
  - destruct (String.eqb n t); simpl; lia.
  - destruct (String.eqb n t); simpl; lia.
Qed.

Lemma create_tool_split (name : string) (cls : ToolClass) (s : RegState W) :
  (exists e, _create_tool name cls s = (Raise e, s) /\
     (tool_embedder (tool_configs (reg s)) name <> Raise e ->
      has_data_path (tool_configs (reg s)) name = false ->
      needs_data_path name = true -> e = missing_data_path name)) \/
  (exists kw, _create_tool name cls s = instantiate name cls kw s /\
     (needs_data_path name = true ->
      has_data_path (tool_configs (reg s)) name = true)).
Proof.
  unfold _create_tool, instantiate, has_data_path, data_path_of, tool_embedder,
    bind, gets, lift_result, ret, raise, in_sys.
  repeat (inner_case; simpl in * );
    try (left; eexists; split; [reflexivity|];
        intros; try congruence;
        destruct (needs_data_path name), (Py.truthy _); simpl in *; congruence);
    try (right; eexists; split;
        [ match goal with H : construct _ _ _ = _ |- _ => rewrite H end;
          reflexivity
        | intros;
          destruct (needs_data_path name), (Py.truthy _); simpl in *; congruence ]).
  all: exfalso; unfold Py.get in *;
    match goal with H : _ = Raise _ |- _ => revert H end;
    destruct a; try discriminate;
    destruct (Py.lookup "data_path" d); discriminate.
Qed.

Lemma instantiate_cases (name : string) (cls : ToolClass) (kw : pyval)
      (s : RegState W) :
  match instantiate name cls kw s with
  | (Ok t, s') =>
      reg s' = reg s /\
      log (sys s') = (log (sys s) ++ [EvTool name (Ok (tool_id t))])%list /\
      tool_id t = next_id (sys s) /\ tool_class t = cls
  | (Raise e, s') =>
      reg s' = reg s /\
      log (sys s') = (log (sys s) ++ [EvTool name (Raise e)])%list
  end.
Proof.
  unfold instantiate, construct.
  destruct (tool_class_init cls kw (world (sys s))) as [[e|] w']; simpl; auto.
Qed.

(** The chain of conditionals of [get_tool] is the two tables. *)
Lemma get_tool_body_table (g : string -> M (RegState W) ToolInstance)
      (name : string) (s : RegState W) :
  get_tool_body g name s = get_tool_table g name s.
Proof.
  unfold get_tool_body, get_tool_table.
  destruct (tools (reg s) !! name); [reflexivity|].
  unfold class_of, ensure, predecessor, try_except, bind, modify, ret, raise.
  destruct (String.eqb_spec name "tedx_search") as [->|_]; simpl.
  { destruct (_create_tool _ _ s) as [[t|e] s2]; reflexivity. }
  destruct (String.eqb_spec name "tedx_slug") as [->|_]; simpl.
  { destruct (g "tedx_search" s) as [[x|e] s1]; [|reflexivity].
    destruct (_create_tool _ _ s1) as [[t|e] s2]; reflexivity. }
  destruct (String.eqb_spec name "tedx_transcript") as [->|_]; simpl.
  { destruct (g "tedx_slug" s) as [[x|e] s1]; [|reflexivity].
    destruct (_create_tool _ _ s1) as [[t|e] s2]; reflexivity. }
  destruct (String.eqb_spec name "sdg_align") as [->|_]; simpl.
  { destruct (_create_tool _ _ s) as [[t|e] s2]; reflexivity. }
  destruct (String.eqb_spec name "sustainability_impact") as [->|_]; simpl.
  { destruct (_create_tool _ _ s) as [[t|e] s2]; reflexivity. }
  destruct (String.eqb_spec name "duckduckgo_search") as [->|_]; simpl.
  { destruct (_create_tool _ _ s) as [[t|e] s2]; reflexivity. }
  reflexivity.
Qed.

Lemma predecessor_rank (name p : string) :
  predecessor name = Some p -> rank p < rank name.
Proof.
  unfold predecessor, rank.
  destruct (String.eqb_spec name "tedx_slug") as [->|_].
  { intros [= <-]. simpl. lia. }
  destruct (String.eqb_spec name "tedx_transcript") as [->|_].
  { intros [= <-]. simpl. lia. }
  discriminate.
Qed.

Lemma set_tools_twice (m : gmap string ToolInstance) (r r0 : ToolRegistry) :
  r = set_tools (tools r) r0 -> set_tools m r = set_tools m r0.
Proof. intros ->. reflexivity. Qed.

Lemma effect_stay (name : string) (s : RegState W) (e : exn) :
  effect name s (Raise e) s.
Proof.
  split; [destruct s as [[]]; reflexivity|].
  exists []. rewrite app_nil_r.
  split; [reflexivity|].
  split; [intros k t Hk; split; [exact Hk | reflexivity]|].
  split; [intros k Hk; rewrite Hk; reflexivity|].
  split; [intros k; simpl; split; lia|].
  split; [intros k e0 []|].
  discriminate.
Qed.

Lemma effect_hit (name : string) (s : RegState W) (t : ToolInstance) :
  tools (reg s) !! name = Some t -> effect name s (Ok t) s.
Proof.
  intros Hm.
  split; [destruct s as [[]]; reflexivity|].
  exists []. rewrite app_nil_r.
  split; [reflexivity|].
  split; [intros k t' Hk; split; [exact Hk | reflexivity]|].
  split; [intros k Hk; rewrite Hk; reflexivity|].
  split; [intros k; simpl; split; lia|].
  split; [intros k e0 []|].
  intros x [= <-]. assumption.
Qed.

Lemma below_stay (name : string) (s : RegState W) :
  predecessor name = None -> below name s None s.
Proof.
  intros Hp.
  split; [destruct s as [[]]; reflexivity|].
  exists []. rewrite app_nil_r.
  split; [reflexivity|].
  split; [intros k t Hk; split; [exact Hk | reflexivity]|].
  split; [intros k Hk; rewrite Hk; reflexivity|].
  split; [intros k; simpl; split; lia|].
  split; [intros k e0 []|].
  intros _ p. rewrite Hp. discriminate.
Qed.

Lemma below_of_effect (name p : string) (s s1 : RegState W)
      (r : result ToolInstance) :
  predecessor name = Some p ->
  effect p s r s1 ->
  below name s (match r with Ok _ => None | Raise e => Some e end) s1.
Proof.
  intros Hp [Hreg (d & Hlog & Hkeep & Hnew & Hcalls & Hfail & Hok)].
  split; [assumption|].
  exists d.
  split; [assumption|].
  split; [assumption|].
  split; [assumption|].
  split.
  { intros k. split; [apply Hcalls|].
    intros Hpos. apply predecessor_rank in Hp.
    destruct (proj2 (Hcalls k) Hpos) as [->|]; lia. }
  split.
  { intros k e Hin. rewrite (Hfail k e Hin). reflexivity. }
  intros Hnone q Hq. rewrite Hp in Hq. injection Hq as <-.
  destruct r as [x|e]; [|discriminate].
  rewrite (Hok x eq_refl). eexists; reflexivity.
Qed.

Lemma below_fail (name : string) (s s1 : RegState W) (e : exn) :
  below name s (Some e) s1 -> effect name s (Raise e) s1.
Proof.
  intros [Hreg (d & Hlog & Hkeep & Hnew & Hcalls & Hfail & _)].
  split; [assumption|].
  exists d.
  split; [assumption|].
  split; [assumption|].
  split; [assumption|].
  split.
  { intros k. split; [apply Hcalls|].
    intros Hpos. right. apply (proj2 (Hcalls k) Hpos). }
  split.
  { intros k e0 Hin. specialize (Hfail k e0 Hin). congruence. }
  discriminate.
Qed.

Lemma below_not_memoized (name : string) (s s1 : RegState W) (d : list event) :
  (forall k, tools (reg s) !! k = None ->
     match tools (reg s1) !! k with
     | Some t =>
         made k d = [tool_id t] /\
         class_of k <> None /\
         (needs_data_path k = true ->
          has_data_path (tool_configs (reg s)) k = true) /\
         (forall p, predecessor k = Some p -> is_Some (tools (reg s1) !! p))
     | None => made k d = []
     end) ->
  (forall k, calls k d <= 1 /\ (0 < calls k d -> rank k < rank name)) ->
  tools (reg s) !! name = None ->
  tools (reg s1) !! name = None /\ calls name d = 0.
Proof.
  intros Hnew Hcalls Hnone.
  assert (Hz : calls name d = 0).
  { destruct (calls name d) eqn:Hc; [reflexivity|].
    pose proof (proj2 (Hcalls name)) as H. rewrite Hc in H.
    specialize (H ltac:(lia)). lia. }
  split; [|assumption].
  specialize (Hnew name Hnone).
  destruct (tools (reg s1) !! name) as [t|]; [|reflexivity].
  destruct Hnew as [Hm _].
  rewrite (made_nil_of_calls _ _ Hz) in Hm. discriminate.
Qed.

Lemma calls_single (k name : string) (o : result nat) :
  calls k [EvTool name o] = if String.eqb name k then 1 else 0.
Proof. simpl. destruct (String.eqb name k); reflexivity. Qed.

Lemma effect_create (name : string) (cls : ToolClass) (s s1 : RegState W) :
  tools (reg s) !! name = None ->
  class_of name = Some cls ->
  below name s None s1 ->
  effect name s
         (fst (_create_tool name cls s1))
         (match fst (_create_tool name cls s1) with
          | Ok t => memoize name t (snd (_create_tool name cls s1))
          | Raise _ => snd (_create_tool name cls s1)
          end).
Proof.
  intros Hnone Hcls [Hreg (d & Hlog & Hkeep & Hnew & Hcalls & Hfail & Hpred)].
  destruct (below_not_memoized name s s1 d Hnew Hcalls Hnone) as [Hnone1 Hz].
  assert (Hdoc : tool_configs (reg s1) = tool_configs (reg s))
    by (rewrite Hreg; reflexivity).
  destruct (create_tool_split name cls s1) as [(e & -> & _) | (kw & -> & Hpath)];
    simpl.
  - (* raised before the constructor *)
    split; [assumption|]. exists d.
    split; [assumption|].
    split; [assumption|].
    split; [assumption|].
    split.
    { intros k. split; [apply Hcalls|].
      intros Hpos. right. apply (proj2 (Hcalls k) Hpos). }
    split.
    { intros k e0 Hin. specialize (Hfail k e0 Hin). discriminate. }
    discriminate.
  - pose proof (instantiate_cases name cls kw s1) as Hi.
    destruct (instantiate name cls kw s1) as [[t|e] s2]; simpl.
    + (* the constructor returned *)
      destruct Hi as (Hr2 & Hl2 & _ & _).
      split.
      { simpl. rewrite Hr2, Hreg. reflexivity. }
      exists (d ++ [EvTool name (Ok (tool_id t))])%list.
      split.
      { simpl. rewrite Hl2, Hlog, app_assoc. reflexivity. }
      split.
      { intros k t' Hk. simpl.
        assert (Hne : name <> k) by (intros ->; congruence).
        rewrite lookup_insert_ne by assumption. rewrite Hr2.
        destruct (Hkeep k t' Hk) as [Hk1 Hc].
        split; [assumption|].
        rewrite calls_app, Hc, calls_single.
        destruct (String.eqb_spec name k); [contradiction | reflexivity]. }
      split.
      { intros k Hk. simpl. rewrite Hr2.
        destruct (decide (name = k)) as [<-|Hne].
        - rewrite lookup_insert_eq.
          split.
          { rewrite made_app, (made_nil_of_calls _ _ Hz). simpl.
            rewrite String.eqb_refl. reflexivity. }
          split; [congruence|].
          split.
          { intros Hneed. rewrite <- Hdoc. apply Hpath. assumption. }
          intros p Hp.
          destruct (Hpred eq_refl p Hp) as [x Hx].
          destruct (decide (name = p)) as [<-|Hnp].
          + rewrite lookup_insert_eq. eexists; reflexivity.
          + rewrite lookup_insert_ne by assumption. eexists; eassumption.
        - rewrite lookup_insert_ne by assumption.
          specialize (Hnew k Hk).
          assert (Hm : made k (d ++ [EvTool name (Ok (tool_id t))]) = made k d).
          { rewrite made_app. simpl.
            destruct (String.eqb_spec name k); [contradiction|].
            apply app_nil_r. }
          rewrite Hm.
          destruct (tools (reg s1) !! k) as [t'|]; [|assumption].
          destruct Hnew as (Hm' & Hc' & Hp' & Hq').
          split; [assumption|]. split; [assumption|]. split; [assumption|].
          intros p Hp. destruct (Hq' p Hp) as [x Hx].
          destruct (decide (name = p)) as [<-|Hnp].
          + rewrite lookup_insert_eq. eexists; reflexivity.
          + rewrite lookup_insert_ne by assumption. eexists; eassumption. }
      split.
      { intros k. rewrite calls_app, calls_single.
        destruct (String.eqb_spec name k) as [<-|Hne].
        - rewrite Hz. split; [lia|]. intros _. left. reflexivity.
        - split; [pose proof (proj1 (Hcalls k)); lia|].
          intros Hpos. right. apply (proj2 (Hcalls k)). lia. }
      split.
      { intros k e0 Hin. apply in_app_or in Hin. destruct Hin as [Hin|Hin].
        - specialize (Hfail k e0 Hin). discriminate.
        - destruct Hin as [Hin|[]]. discriminate. }
      intros x [= <-]. simpl. apply lookup_insert_eq.
    + (* the constructor raised *)
      destruct Hi as (Hr2 & Hl2).
      split.
      { rewrite Hr2. assumption. }
      exists (d ++ [EvTool name (Raise e)])%list.
      split.
      { rewrite Hl2, Hlog, app_assoc. reflexivity. }
      split.
      { intros k t' Hk. rewrite Hr2.
        assert (Hne : name <> k) by (intros ->; congruence).
        destruct (Hkeep k t' Hk) as [Hk1 Hc].
        split; [assumption|].
        rewrite calls_app, Hc, calls_single.
        destruct (String.eqb_spec name k); [contradiction | reflexivity]. }
      split.
      { intros k Hk. rewrite Hr2.
        assert (Hm : made k (d ++ [EvTool name (Raise e)]) = made k d).
        { rewrite made_app. simpl. apply app_nil_r. }
        rewrite Hm. apply Hnew. assumption. }
      split.
      { intros k. rewrite calls_app, calls_single.
        destruct (String.eqb_spec name k) as [<-|Hne].
        - rewrite Hz. split; [lia|]. intros _. left. reflexivity.
        - split; [pose proof (proj1 (Hcalls k)); lia|].
          intros Hpos. right. apply (proj2 (Hcalls k)). lia. }
      split.
      { intros k e0 Hin. apply in_app_or in Hin. destruct Hin as [Hin|Hin].
        - specialize (Hfail k e0 Hin). discriminate.
        - destruct Hin as [Hin|[]]. congruence. }
      discriminate.
Qed.

(** Every call of [get_tool], at any depth of recursion allowed, has
    the effect described. *)
Lemma get_tool_fuel_effect (n : nat) :
  forall (name : string) (s : RegState W),
    effect name s (fst (get_tool_fuel n name s)) (snd (get_tool_fuel n name s)).
Proof.
  induction n as [|n IH]; intros name s.
  - apply effect_stay.
  - simpl get_tool_fuel. rewrite get_tool_body_table. unfold get_tool_table.
    destruct (tools (reg s) !! name) as [t|] eqn:Hm.
    { apply effect_hit. assumption. }
    destruct (class_of name) as [cls|] eqn:Hc.
    2:{ apply effect_stay. }
    unfold ensure.
    destruct (predecessor name) as [p|] eqn:Hp.
    + specialize (IH p s).
      pose proof (below_of_effect name p s _ _ Hp IH) as Hb.
      destruct (get_tool_fuel n p s) as [[x|e] s1]; simpl in Hb.
      * pose proof (effect_create name cls s s1 Hm Hc Hb) as He.
        destruct (_create_tool name cls s1) as [[t|e] s2]; exact He.
      * apply below_fail. assumption.
    + pose proof (effect_create name cls s s Hm Hc (below_stay name s Hp)) as He.
      destruct (_create_tool name cls s) as [[t|e] s2]; exact He.
Qed.

Lemma get_tool_effect (name : string) (s : RegState W) :
  effect name s (fst (get_tool name s)) (snd (get_tool name s)).
Proof. apply get_tool_fuel_effect. Qed.

Lemma effect_configs (name : string) (s s' : RegState W)
      (r : result ToolInstance) :
  effect name s r s' -> tool_configs (reg s') = tool_configs (reg s).
Proof. intros [-> _]. reflexivity. Qed.

Lemma consistent_effect (name : string) (s s' : RegState W)
      (r : result ToolInstance) :
  consistent s -> effect name s r s' -> consistent s'.
Proof.
  intros Hc He k.
  pose proof (effect_configs _ _ _ _ He) as Hdoc.
  destruct He as [Hreg (d & Hlog & Hkeep & Hnew & _)].
  specialize (Hc k). rewrite Hlog, made_app, Hdoc.
  destruct (tools (reg s) !! k) as [t|] eqn:Hk.
  - destruct (Hkeep k t Hk) as [Hk' Hz]. rewrite Hk'.
    destruct Hc as (Hm & Hcl & Hpath & Hpred).
    rewrite Hm, (made_nil_of_calls _ _ Hz).
    split; [reflexivity|]. split; [assumption|]. split; [assumption|].
    intros p Hp. destruct (Hpred p Hp) as [x Hx].
    exists x. apply (Hkeep p x Hx).
  - specialize (Hnew k Hk). rewrite Hc. simpl.
    destruct (tools (reg s') !! k); assumption.
Qed.

Lemma new_registry_consistent (r0 : ToolRegistry) (w : W) :
  consistent (new_registry r0 w).
Proof. intros k. simpl. rewrite lookup_empty. reflexivity. Qed.

Lemma requests_consistent (names : list string) :
  forall s : RegState W, consistent s -> consistent (requests names s).
Proof.
  induction names as [|n names IH]; intros s Hc; simpl; [assumption|].
  apply IH. eapply consistent_effect; [exact Hc | apply get_tool_effect].
Qed.

Lemma requests_configs (names : list string) :
  forall s : RegState W,
    tool_configs (reg (requests names s)) = tool_configs (reg s).
Proof.
  induction names as [|n names IH]; intros s; simpl; [reflexivity|].
  rewrite IH. eapply effect_configs. apply get_tool_effect.
Qed.

(** What is memoized stays, and its constructor is not called again. *)
Lemma requests_keep (names : list string) :
  forall (s : RegState W) (k : string) (t : ToolInstance),
    tools (reg s) !! k = Some t ->
    tools (reg (requests names s)) !! k = Some t /\
    calls k (log (sys (requests names s))) = calls k (log (sys s)).
Proof.
  induction names as [|n names IH]; intros s k t Hk; simpl; [auto|].
  destruct (get_tool_effect n s) as [_ (d & Hlog & Hkeep & _)].
  destruct (Hkeep k t Hk) as [Hk' Hz].
  destruct (IH _ k t Hk') as [Hk'' Hc].
  split; [assumption|].
  rewrite Hc, Hlog, calls_app, Hz. lia.
Qed.

Lemma get_tool_table_ext (g g' : string -> M (RegState W) ToolInstance)
      (name : string) (s : RegState W) :
  (forall p, predecessor name = Some p -> g p s = g' p s) ->
  get_tool_table g name s = get_tool_table g' name s.
Proof.
  intros H. unfold get_tool_table, ensure.
  destruct (predecessor name) as [p|]; [|reflexivity].
  rewrite (H p eq_refl). reflexivity.
Qed.

(** More fuel than the chain is long changes nothing. *)
Lemma get_tool_fuel_stable (n m : nat) :
  forall (name : string) (s : RegState W),
    rank name < n -> get_tool_fuel (n + m) name s = get_tool_fuel n name s.
Proof.
  induction n as [|n IH]; intros name s Hr; [lia|].
  simpl. rewrite !get_tool_body_table.
  apply get_tool_table_ext. intros p Hp.
  apply IH. apply predecessor_rank in Hp. lia.
Qed.

Lemma rank_bound (name : string) : rank name < 3.
Proof.
  unfold rank.
  destruct (String.eqb name "tedx_slug"); [lia|].
  destruct (String.eqb name "tedx_transcript"); lia.
Qed.

(** [get_tool] never runs out of the depth it is given. *)
Lemma get_tool_enough (m : nat) (name : string) (s : RegState W) :
  get_tool_fuel (3 + m) name s = get_tool name s.
Proof. apply get_tool_fuel_stable, rank_bound. Qed.

Lemma get_tool_any_fuel (n : nat) (name : string) (s : RegState W) :
  rank name < n -> get_tool_fuel n name s = get_tool name s.
Proof.
  intros Hr. unfold get_tool.
  destruct (Nat.le_gt_cases n 3) as [Hle|Hgt].
  - replace 3 with (n + (3 - n)) by lia.
    symmetry. apply get_tool_fuel_stable. assumption.
  - replace n with (3 + (n - 3)) by lia. apply get_tool_enough.
Qed.

Lemma requests_app (l1 l2 : list string) :
  forall s : RegState W,
    requests (l1 ++ l2) s = requests l2 (requests l1 s).
Proof.
  induction l1 as [|n l1 IH]; intros s; simpl; [reflexivity|].
  apply IH.
Qed.

Lemma create_tool_ok (name : string) (cls : ToolClass) (s s2 : RegState W)
      (t : ToolInstance) :
  _create_tool name cls s = (Ok t, s2) ->
  reg s2 = reg s /\
  log (sys s2) = (log (sys s) ++ [EvTool name (Ok (tool_id t))])%list /\
  tool_id t = next_id (sys s) /\
  next_id (sys s2) = S (next_id (sys s)).
Proof.
  destruct (create_tool_split name cls s) as [(e & -> & _) | (kw & -> & _)];
    [discriminate|].
  unfold instantiate, construct.
  destruct (tool_class_init cls kw (world (sys s))) as [[e|] w']; simpl;
    [discriminate|].
  intros [= <- <-]. simpl. auto.
Qed.

Lemma get_tool_table_ok (g : string -> M (RegState W) ToolInstance)
      (name : string) (s s' : RegState W) (x : ToolInstance) :
  tools (reg s) !! name = None ->
  get_tool_table g name s = (Ok x, s') ->
  exists cls s1 s2,
    class_of name = Some cls /\
    ensure g name s = (None, s1) /\
    _create_tool name cls s1 = (Ok x, s2) /\
    s' = memoize name x s2.
Proof.
  intros Hm. unfold get_tool_table. rewrite Hm.
  destruct (class_of name) as [cls|]; [|discriminate].
  destruct (ensure g name s) as [[e|] s1]; [discriminate|].
  destruct (_create_tool name cls s1) as [[t|e] s2] eqn:Hc; [|discriminate].
  intros [= <- <-]. exists cls, s1, s2. auto.
Qed.

(** C1, as the code has it.  On a registry that has served any
    requests, a [get_tool t] that returns an instance is repeated by the
    next [get_tool t] with the identical instance and no change of state
    at all (nothing is constructed, nothing is logged); for the rest of
    the registry's life [t] stays memoized to that instance, its record
    shows exactly one successful construction and no further constructor
    call.  The constructor of [t] has then been called once for that
    construction and once more for every earlier attempt that raised,
    failures not being memoized: exactly once when it had not been
    called before. *)
Theorem get_tool_idempotent (r0 : ToolRegistry) (w : W) (pre : list string)
        (t : string) (inst : ToolInstance) (s1 : RegState W) :
  get_tool t (requests pre (new_registry r0 w)) = (Ok inst, s1) ->
  get_tool t s1 = (Ok inst, s1) /\
  (forall post : list string,
      tools (reg (requests post s1)) !! t = Some inst /\
      made t (log (sys (requests post s1))) = [tool_id inst] /\
      calls t (log (sys (requests post s1))) = calls t (log (sys s1)) /\
      calls t (log (sys (requests post s1)))
      = 1 + failures t (log (sys (requests post s1)))) /\
  (calls t (log (sys (requests pre (new_registry r0 w)))) = 0 ->
   calls t (log (sys s1)) = 1).
Proof.
  intros Hget.
  set (s0 := requests pre (new_registry r0 w)) in *.
  assert (Hc0 : consistent s0)
    by apply requests_consistent, new_registry_consistent.
  pose proof (get_tool_effect t s0) as He. rewrite Hget in He. simpl in He.
  assert (Hc1 : consistent s1) by (eapply consistent_effect; eassumption).
  destruct He as [Hreg (d & Hlog & Hkeep & Hnew & Hcalls & _ & Hok)].
  pose proof (Hok inst eq_refl) as Hmemo.
  split.
  { unfold get_tool. simpl. unfold get_tool_body. rewrite Hmemo. reflexivity. }
  split.
  { intros post.
    destruct (requests_keep post s1 t inst Hmemo) as [Hk Hcl].
    split; [assumption|].
    pose proof (requests_consistent post s1 Hc1 t) as Hc2.
    rewrite Hk in Hc2. destruct Hc2 as [Hmade _].
    split; [assumption|]. split; [assumption|].
    rewrite calls_made_failures, Hmade. reflexivity. }
  intros Hz.
  destruct (tools (reg s0) !! t) as [t0|] eqn:Hm0.
  { pose proof (Hc0 t) as H. rewrite Hm0 in H. destruct H as [H _].
    rewrite (made_nil_of_calls _ _ Hz) in H. discriminate. }
  specialize (Hnew t Hm0). rewrite Hmemo in Hnew. destruct Hnew as [Hmade _].
  pose proof (made_le_calls t d) as Hle. rewrite Hmade in Hle. simpl in Hle.
  pose proof (proj1 (Hcalls t)) as Hone.
  rewrite Hlog, calls_app, Hz. lia.
Qed.

(** C2.  On a registry that has served any requests without getting
    [tedx_search] and [tedx_slug] built, a [get_tool "tedx_transcript"]
    that returns calls the three constructors in the order search, slug,
    transcript and nothing else, and leaves all three memoized, the two
    predecessors included. *)
Theorem predecessor_ordering (r0 : ToolRegistry) (w : W) (pre : list string)
        (x : ToolInstance) (s' : RegState W) :
  tools (reg (requests pre (new_registry r0 w))) !! "tedx_search" = None ->
  tools (reg (requests pre (new_registry r0 w))) !! "tedx_slug" = None ->
  get_tool "tedx_transcript" (requests pre (new_registry r0 w)) = (Ok x, s') ->
  exists a b : ToolInstance,
    log (sys s') =
      (log (sys (requests pre (new_registry r0 w)))
       ++ [EvTool "tedx_search" (Ok (tool_id a));
           EvTool "tedx_slug" (Ok (tool_id b));
           EvTool "tedx_transcript" (Ok (tool_id x))])%list /\
    tool_id a < tool_id b /\ tool_id b < tool_id x /\
    tools (reg s') !! "tedx_search" = Some a /\
    tools (reg s') !! "tedx_slug" = Some b /\
    tools (reg s') !! "tedx_transcript" = Some x.
Proof.
  set (s := requests pre (new_registry r0 w)).
  intros Hsearch Hslug Hget.
  assert (Hc : consistent s)
    by apply requests_consistent, new_registry_consistent.
  assert (Htr : tools (reg s) !! "tedx_transcript" = None).
  { pose proof (Hc "tedx_transcript") as H.
    destruct (tools (reg s) !! "tedx_transcript"); [|reflexivity].
    destruct H as (_ & _ & _ & Hp).
    destruct (Hp "tedx_slug" eq_refl) as [y Hy]. congruence. }
  unfold get_tool in Hget. simpl in Hget.
  rewrite get_tool_body_table in Hget.
  apply get_tool_table_ok in Hget; [|assumption].
  destruct Hget as (c3 & s2 & s3 & Hc3 & He3 & Hk3 & ->).
  unfold ensure in He3. simpl in He3.
  destruct (get_tool_body _ "tedx_slug" s) as [[b|e] s2'] eqn:Hb;
    [|discriminate].
  injection He3 as ->.
  rewrite get_tool_body_table in Hb.
  apply get_tool_table_ok in Hb; [|assumption].
  destruct Hb as (c2 & s1 & s1' & Hc2 & He2 & Hk2 & ->).
  unfold ensure in He2. simpl in He2.
  destruct (get_tool_body _ "tedx_search" s) as [[a|e] s0'] eqn:Ha;
    [|discriminate].
  injection He2 as ->.
  rewrite get_tool_body_table in Ha.
  apply get_tool_table_ok in Ha; [|assumption].
  destruct Ha as (c1 & s0 & s0'' & Hc1 & He1 & Hk1 & ->).
  unfold ensure in He1. simpl in He1. injection He1 as <-.
  apply create_tool_ok in Hk1. destruct Hk1 as (Hr1 & Hl1 & Hi1 & Hn1).
  apply create_tool_ok in Hk2. destruct Hk2 as (Hr2 & Hl2 & Hi2 & Hn2).
  apply create_tool_ok in Hk3. destruct Hk3 as (Hr3 & Hl3 & Hi3 & Hn3).
  simpl in *.
  exists a, b.
  split.
  { rewrite Hl3, Hl2, Hl1, <- !app_assoc. reflexivity. }
  split; [lia|]. split; [lia|].
  rewrite Hr3. simpl. rewrite Hr2. simpl.
  rewrite lookup_insert_eq.
  rewrite !lookup_insert_ne by discriminate.
  rewrite lookup_insert_eq.
  rewrite lookup_insert_ne by discriminate.
  rewrite Hr1. simpl. rewrite lookup_insert_eq. auto.
Qed.

Lemma str_prefix_refl (a : string) : String.prefix a a = true.
Proof.
  induction a as [|c a IH]; simpl; [reflexivity|].
  destruct (ascii_dec c c); [assumption | contradiction].
Qed.

Lemma str_prefix_append (a b : string) : String.prefix a (a +:+ b) = true.
Proof.
  induction a as [|c a IH]; simpl; [destruct b; reflexivity|].
  destruct (ascii_dec c c); [assumption | contradiction].
Qed.

Lemma contains_prefix (a h : string) :
  String.prefix a h = true -> Py.contains a h = true.
Proof.
  intros H. destruct h; cbn [Py.contains]; rewrite H; reflexivity.
Qed.

Lemma contains_here (a b : string) : Py.contains a (a +:+ b) = true.
Proof. apply contains_prefix, str_prefix_append. Qed.

Lemma contains_append (p a b : string) :
  Py.contains a (p +:+ a +:+ b) = true.
Proof.
  induction p as [|c p IH].
  - exact (contains_here a b).
  - change (String c p +:+ a +:+ b) with (String c (p +:+ a +:+ b)).
    cbn [Py.contains]. rewrite IH. apply orb_true_r.
Qed.

Lemma unknown_tool_named (name : string) :
  names_tool (ValueError ("Unknown tool: " +:+ name)) name = true.
Proof.
  unfold names_tool, Py.message.
  pose proof (contains_append "Unknown tool: " name "") as H.
  assert (E : name +:+ "" = name).
  { clear H. induction name as [|c n IH]; [reflexivity|].
    change (String c n +:+ "") with (String c (n +:+ "")).
    rewrite IH. reflexivity. }
  rewrite E in H. exact H.
Qed.

Lemma missing_data_path_named (name : string) :
  names_tool (missing_data_path name) name = true.
Proof.
  unfold names_tool, missing_data_path, Py.message.
  apply (contains_append "Missing data path for tool '" name "'").
Qed.

Lemma needs_data_path_class (t : string) :
  needs_data_path t = true -> class_of t <> None.
Proof.
  unfold needs_data_path, class_of. simpl.
  destruct (String.eqb t "tedx_search"); [discriminate|].
  destruct (String.eqb t "tedx_slug"); [discriminate|].
  destruct (String.eqb t "tedx_transcript"); discriminate.
Qed.

(** [_create_tool] derives the embedder configuration first: what that
    raises is what [_create_tool] raises, with nothing done. *)
Lemma create_tool_embedder_error (name : string) (cls : ToolClass)
      (s : RegState W) (e : exn) :
  tool_embedder (tool_configs (reg s)) name = Raise e ->
  _create_tool name cls s = (Raise e, s).
Proof.
  unfold _create_tool, tool_embedder, bind, gets, lift_result, ret, raise.
  repeat (inner_case; simpl in * ); try discriminate;
    try (intros [= <-]; reflexivity).
  all: exfalso; unfold Py.get in *;
    repeat match goal with
           | H : match ?x with _ => _ end = _ |- _ => destruct x; try discriminate
           end.
Qed.

(** C8, as the code has it.  On a registry that has served any
    requests, for a tool that needs a data path and has no non-empty
    one in the tools document, [get_tool] raises and the memo table
    gains no entry for the name, neither now nor by any later request,
    so every later call goes to construction again.  What it raises is
    settled in three steps: the exception of the [get_tool] of the
    predecessor, when the tool has one and that call raises; else the
    exception raised while the embedder configuration is derived from
    the tool's entry, which is the AttributeError of [.get] for an entry
    that is not a mapping and the error of [EmbedderConfig] for an
    [embedder_config] it turns down; and only else the
    missing-data-path error naming the tool. *)
Theorem missing_data_path_fails (r0 : ToolRegistry) (w : W)
        (pre : list string) (t : string) :
  needs_data_path t = true ->
  has_data_path (tool_configs r0) t = false ->
  exists e : exn,
    fst (get_tool t (requests pre (new_registry r0 w))) = Raise e /\
    (forall post : list string,
        tools (reg (requests post
                      (snd (get_tool t (requests pre (new_registry r0 w))))))
          !! t = None) /\
    (forall p e',
        predecessor t = Some p ->
        fst (get_tool p (requests pre (new_registry r0 w))) = Raise e' ->
        e = e') /\
    ((forall p, predecessor t = Some p ->
                exists y, fst (get_tool p (requests pre (new_registry r0 w))) = Ok y) ->
     forall e', tool_embedder (tool_configs r0) t = Raise e' -> e = e') /\
    ((forall p, predecessor t = Some p ->
                exists y, fst (get_tool p (requests pre (new_registry r0 w))) = Ok y) ->
     (exists c, tool_embedder (tool_configs r0) t = Ok c) ->
     e = missing_data_path t /\ names_tool e t = true).
Proof.
  intros Hneed Hpath.
  set (s := requests pre (new_registry r0 w)).
  assert (Hdoc : tool_configs (reg s) = tool_configs r0)
    by (unfold s; rewrite requests_configs; reflexivity).
  assert (Hfree : forall l, tools (reg (requests l (new_registry r0 w))) !! t = None).
  { intros l.
    pose proof (requests_consistent l _ (new_registry_consistent r0 w) t) as H.
    destruct (tools (reg (requests l (new_registry r0 w))) !! t); [|reflexivity].
    destruct H as (_ & _ & H & _). specialize (H Hneed).
    rewrite requests_configs in H. simpl in H. congruence. }
  assert (Hlater : forall post,
             tools (reg (requests post (snd (get_tool t s)))) !! t = None).
  { intros post. specialize (Hfree (pre ++ t :: post)%list).
    rewrite requests_app in Hfree. exact Hfree. }
  pose proof (get_tool_effect t s) as He.
  destruct (fst (get_tool t s)) as [x|e] eqn:Hr.
  { exfalso. destruct He as [_ (d & _ & _ & _ & _ & _ & Hok)].
    specialize (Hok x eq_refl). specialize (Hlater []). simpl in Hlater.
    congruence. }
  exists e. split; [reflexivity|]. split; [assumption|].
  change (get_tool t s) with (get_tool_body (get_tool_fuel 2) t s) in Hr.
  rewrite get_tool_body_table in Hr. unfold get_tool_table in Hr.
  assert (Hnow : tools (reg s) !! t = None) by apply (Hfree pre).
  rewrite Hnow in Hr.
  destruct (class_of t) as [cls|] eqn:Hcls;
    [|exfalso; apply (needs_data_path_class t Hneed Hcls)].
  split.
  { intros p e' Hp Hpe. unfold ensure in Hr. rewrite Hp in Hr.
    rewrite get_tool_any_fuel in Hr
      by (apply predecessor_rank in Hp; pose proof (rank_bound t); lia).
    destruct (get_tool p s) as [[y|e''] s1]; simpl in Hpe; [discriminate|].
    injection Hpe as ->. simpl in Hr. congruence. }
  assert (Hens : (forall p, predecessor t = Some p ->
                            exists y, fst (get_tool p s) = Ok y) ->
                 exists s1, ensure (get_tool_fuel 2) t s = (None, s1) /\
                            tool_configs (reg s1) = tool_configs (reg s)).
  { intros Hpred. unfold ensure. destruct (predecessor t) as [p|] eqn:Hp.
    - destruct (Hpred p eq_refl) as [y Hy].
      rewrite get_tool_any_fuel
        by (apply predecessor_rank in Hp; pose proof (rank_bound t); lia).
      pose proof (get_tool_effect p s) as Hep.
      destruct (get_tool p s) as [[y'|e'] s1]; simpl in Hy; [|discriminate].
      exists s1. split; [reflexivity|].
      eapply effect_configs. exact Hep.
    - exists s. auto. }
  split.
  { intros Hpred e' Hemb.
    destruct (Hens Hpred) as (s1 & Hens1 & Hdoc1). rewrite Hens1 in Hr.
    rewrite (create_tool_embedder_error t cls s1 e') in Hr
      by (rewrite Hdoc1, Hdoc; exact Hemb).
    simpl in Hr. congruence. }
  intros Hpred [c Hemb].
  assert (e = missing_data_path t); [|subst e; split;
    [reflexivity | apply missing_data_path_named]].
  destruct (Hens Hpred) as (s1 & Hens1 & Hdoc1). rewrite Hens1 in Hr.
  destruct (create_tool_split t cls s1) as [(e' & Hct & Hwhy) | (kw & _ & Hhas)].
  - rewrite Hct in Hr. simpl in Hr. injection Hr as <-.
    apply Hwhy; rewrite ?Hdoc1, ?Hdoc; try assumption.
    rewrite Hemb. discriminate.
  - specialize (Hhas Hneed). rewrite Hdoc1, Hdoc in Hhas. congruence.
Qed.

(** C9, as the code has it.  On a registry that has served any
    requests, [get_tool] on a name outside the recognized set raises
    the unknown-tool error, whose message names the tool, and changes
    nothing; and whenever a tool constructor raises during a
    [get_tool], what [get_tool] raises is that very exception,
    unchanged. *)
Theorem get_tool_errors (r0 : ToolRegistry) (w : W) (pre : list string)
        (name : string) :
  (class_of name = None ->
   get_tool name (requests pre (new_registry r0 w))
     = (Raise (ValueError ("Unknown tool: " +:+ name)),
        requests pre (new_registry r0 w)) /\
   names_tool (ValueError ("Unknown tool: " +:+ name)) name = true) /\
  (forall (d : list event) (k : string) (e : exn),
      log (sys (snd (get_tool name (requests pre (new_registry r0 w)))))
        = (log (sys (requests pre (new_registry r0 w))) ++ d)%list ->
      In (EvTool k (Raise e)) d ->
      fst (get_tool name (requests pre (new_registry r0 w))) = Raise e).
Proof.
  set (s := requests pre (new_registry r0 w)).
  split.
  - intros Hcls. split; [|apply unknown_tool_named].
    unfold get_tool. simpl. rewrite get_tool_body_table. unfold get_tool_table.
    pose proof (requests_consistent pre _ (new_registry_consistent r0 w) name) as H.
    fold s in H.
    destruct (tools (reg s) !! name).
    + destruct H as (_ & H & _). contradiction.
    + rewrite Hcls. reflexivity.
  - intros d k e Hlog Hin.
    destruct (get_tool_effect name s) as [_ (d' & Hlog' & _ & _ & _ & Hfail & _)].
    rewrite Hlog' in Hlog. apply app_inv_head in Hlog. subst d'.
    eapply Hfail. eassumption.
Qed.

(** ** Facts about the manager *)

Lemma only_registry_refl (s : MgrState W) : only_registry s s.
Proof. exists (tool_registry (mgr s)). destruct s as [[]]; reflexivity. Qed.

Lemma only_registry_trans (s1 s2 s3 : MgrState W) :
  only_registry s1 s2 -> only_registry s2 s3 -> only_registry s1 s3.
Proof. intros [r1 H1] [r2 H2]. exists r2. rewrite H2, H1. reflexivity. Qed.

Lemma with_registry_frame {A} (m : M (RegState W) A) (s : MgrState W) :
  only_registry s (snd (with_registry m s)).
Proof.
  unfold with_registry.
  destruct (m _) as [r rs]. simpl. eexists; reflexivity.
Qed.

Lemma in_msys_frame {A} (m : Sys W -> result A * Sys W) (s : MgrState W) :
  mgr (snd (in_msys m s)) = mgr s.
Proof. unfold in_msys. destruct (m _). reflexivity. Qed.

Lemma get_declared_tools_frame (names : list pyval) :
  forall s : MgrState W,
    only_registry s (snd (map_m get_declared_tool names s)).
Proof.
  induction names as [|n names IH]; intros s; simpl.
  - apply only_registry_refl.
  - unfold bind.
    assert (H1 : only_registry s (snd (get_declared_tool n s))).
    { destruct n; try apply only_registry_refl. apply with_registry_frame. }
    destruct (get_declared_tool n s) as [[y|e] s1]; simpl in *; [|assumption].
    specialize (IH s1).
    destruct (map_m get_declared_tool names s1) as [[ys|e] s2]; simpl in *;
      eapply only_registry_trans; eassumption.
Qed.

Lemma create_agent_frame (name agent_config llm emb : pyval) (s : MgrState W) :
  only_registry s (snd (create_agent name agent_config llm emb s)).
Proof.
  unfold create_agent, bind, lift_result, ret.
  destruct (declared_tools agent_config) as [names|e]; simpl;
    [|apply only_registry_refl].
  pose proof (get_declared_tools_frame names s) as H.
  destruct (map_m get_declared_tool names s) as [[ts|e] s1]; simpl in *;
    [|assumption].
  pose proof (in_msys_frame
                (construct (EvAgent name)
                           (Agent_init name agent_config llm emb ts)) s1) as H2.
  destruct (in_msys _ s1) as [[i|e] s2]; simpl in *;
    destruct H as [r H]; exists r; congruence.
Qed.

(** [_create_agent] leaves the manager's own fields alone, and returns
    an agent only for a name the agents document defines. *)
Lemma _create_agent_frame (name : pyval) (s : MgrState W) :
  only_registry s (snd (_create_agent name s)) /\
  (forall a, fst (_create_agent name s) = Ok a ->
             exists c, Py.getitem_key (agents_config (mgr s)) name = Ok c).
Proof.
  unfold _create_agent, try_except, bind, gets, lift_result, ret, raise.
  repeat (inner_case; simpl in * );
    try (split; [apply only_registry_refl | discriminate]).
  all: match goal with
       | H : create_agent ?n ?c ?l ?e ?s0 = _ |- _ =>
           pose proof (create_agent_frame n c l e s0) as Hf;
           rewrite H in Hf; simpl in Hf
       end.
  all: split; [assumption | intros; try discriminate; eexists; reflexivity].
Qed.

Lemma agent_set_absent (k : pyval) (a : Agent) (t : list (pyval * Agent)) :
  AgentTable.lookup k t = None -> AgentTable.set k a t = (t ++ [(k, a)])%list.
Proof.
  induction t as [|[k' a'] t IH]; simpl; [reflexivity|].
  destruct (Py.key_eqb k k'); [discriminate|].
  intros H. rewrite (IH H). reflexivity.
Qed.

Lemma agent_lookup_app (k : pyval) (t1 t2 : list (pyval * Agent)) :
  AgentTable.lookup k (t1 ++ t2) =
  match AgentTable.lookup k t1 with
  | Some x => Some x
  | None => AgentTable.lookup k t2
  end.
Proof.
  induction t1 as [|[k' a'] t1 IH]; simpl; [reflexivity|].
  destruct (Py.key_eqb k k'); [reflexivity | assumption].
Qed.

Lemma agent_lookup_set_absent (k : pyval) (a x : Agent)
      (t : list (pyval * Agent)) :
  AgentTable.lookup k t = None ->
  AgentTable.lookup k (AgentTable.set k a t) = Some x -> x = a.
Proof.
  intros H. rewrite (agent_set_absent k a t H), agent_lookup_app, H. simpl.
  destruct (Py.key_eqb k k); congruence.
Qed.

Lemma create_task_spec (task_name : string) (s : MgrState W) :
  match create_task task_name s with
  | (Ok _, s') =>
      exists tc an a t,
        Py.lookup task_name (tasks_config (mgr s)) = Some tc /\
        Py.get tc "agent" PNone = Ok an /\
        AgentTable.lookup an (agents (mgr s')) = Some a /\
        tasks (mgr s') = (tasks (mgr s) ++ [t])%list /\
        agent t = a /\
        Py.get tc "priority" (PInt 2) = Ok (priority t) /\
        Py.get tc "description" (PStr "") = Ok (description t) /\
        Py.get tc "expected_output" (PStr placeholder_output)
          = Ok (expected_output t) /\
        (agents (mgr s') = agents (mgr s) \/
         (AgentTable.lookup an (agents (mgr s)) = None /\
          agents (mgr s') = AgentTable.set an a (agents (mgr s)) /\
          exists c, Py.getitem_key (agents_config (mgr s)) an = Ok c)) /\
        configs_of (mgr s') = configs_of (mgr s)
  | (Raise e, s') =>
      tasks (mgr s') = tasks (mgr s) /\
      (agents (mgr s') = agents (mgr s) \/
       exists an a,
         AgentTable.lookup an (agents (mgr s)) = None /\
         agents (mgr s') = AgentTable.set an a (agents (mgr s)) /\
         exists c, Py.getitem_key (agents_config (mgr s)) an = Ok c) /\
      configs_of (mgr s') = configs_of (mgr s)
  end.
Proof.
  unfold create_task, bind, gets, lift_result, ret, raise, modify, in_msys,
    construct, AgentTable.contains, AgentTable.getitem.
  repeat (inner_case; simpl in * ).
  all: try match goal with
       | H : _create_agent ?n ?s0 = _ |- _ =>
           destruct (_create_agent_frame n s0) as [[rr Hf] Hknown];
           rewrite H in Hf, Hknown; simpl in Hf, Hknown
       end.
  all: repeat match goal with
       | H : Some _ = Some _ |- _ => injection H as H; subst
       | m : MgrState W, H : mgr ?m = _ |- _ => destruct m; simpl in *; subst
       end.
  all: unfold configs_of, set_tool_registry, set_agents, set_tasks in *;
    simpl in *.
  all: try match goal with
       | H0 : AgentTable.lookup ?k ?t = None,
         H1 : AgentTable.lookup ?k (AgentTable.set ?k ?a ?t) = Some ?x |- _ =>
           assert (x = a) by (eapply agent_lookup_set_absent; eassumption);
           subst x
       end.
  all: try (split; [reflexivity|]; split; [left; reflexivity | reflexivity]).
  all: try (split; [reflexivity|]; split; [|reflexivity]; right;
            do 2 eexists; split; [eassumption|]; split; [reflexivity|];
            eapply Hknown; reflexivity).
  all: try (do 4 eexists; repeat (split; [first [reflexivity | eassumption]|]);
            split; [|reflexivity]; left; reflexivity).
  all: try (do 4 eexists; repeat (split; [first [reflexivity | eassumption]|]);
            split; [|reflexivity]; right;
            split; [eassumption|]; split; [reflexivity|];
            eapply Hknown; reflexivity).
Qed.

(** C7.  When [create_task] builds the task of an entry that has
    neither [priority] nor [expected_output], the task it appends has
    priority 2 and the fixed placeholder, which is not empty, as its
    expected output. *)
Theorem create_task_defaults (task_name : string) (tc : dict)
        (s s' : MgrState W) :
  Py.lookup task_name (tasks_config (mgr s)) = Some (PDict tc) ->
  Py.lookup "priority" tc = None ->
  Py.lookup "expected_output" tc = None ->
  create_task task_name s = (Ok tt, s') ->
  exists t : Task,
    tasks (mgr s') = (tasks (mgr s) ++ [t])%list /\
    priority t = PInt 2 /\
    expected_output t = PStr placeholder_output /\
    placeholder_output <> "".
Proof.
  intros Hentry Hprio Hout Hrun.
  pose proof (create_task_spec task_name s) as H. rewrite Hrun in H.
  destruct H as (tc' & an & a & t & Hl & _ & _ & Ht & _ & Hp & _ & Ho & _).
  rewrite Hentry in Hl. injection Hl as <-.
  simpl in Hp, Ho. rewrite Hprio in Hp. rewrite Hout in Ho.
  exists t. repeat split; try congruence. discriminate.
Qed.

(** The task list after [create_task]: as before when it raised, one
    task longer when it returned. *)
Lemma create_task_tasks (task_name : string) (s : MgrState W) :
  (forall e s', create_task task_name s = (Raise e, s') ->
                tasks (mgr s') = tasks (mgr s)) /\
  (forall s', create_task task_name s = (Ok tt, s') ->
              exists t, tasks (mgr s') = (tasks (mgr s) ++ [t])%list).
Proof.
  split.
  - intros e s' Hrun.
    pose proof (create_task_spec task_name s) as H. rewrite Hrun in H.
    apply H.
  - intros s' Hrun.
    pose proof (create_task_spec task_name s) as H. rewrite Hrun in H.
    destruct H as (tc & an & a & t & _ & _ & _ & Ht & _). exists t. exact Ht.
Qed.

(** When the agent of a task is to be created and its creation raises,
    [create_task] raises the same and stores nothing. *)
Lemma create_task_agent_failure (task_name : string) (s s1 : MgrState W)
      (tc an : pyval) (e : exn) :
  Py.lookup task_name (tasks_config (mgr s)) = Some tc ->
  Py.get tc "agent" PNone = Ok an ->
  AgentTable.contains an (agents (mgr s)) = Ok false ->
  _create_agent an s = (Raise e, s1) ->
  create_task task_name s = (Raise e, s1) /\
  tasks (mgr s1) = tasks (mgr s) /\
  agents (mgr s1) = agents (mgr s) /\
  AgentTable.lookup an (agents (mgr s1)) = None.
Proof.
  intros Hentry Hagent Hnew Hfail.
  destruct (_create_agent_frame an s) as [[rr Hf] _].
  rewrite Hfail in Hf. simpl in Hf.
  assert (Hrun : create_task task_name s = (Raise e, s1)).
  { unfold create_task, bind, gets, lift_result, ret, raise, modify.
    rewrite Hentry. simpl. rewrite Hentry, Hagent, Hnew, Hfail.
    reflexivity. }
  split; [assumption|].
  rewrite Hf. simpl. repeat split.
  unfold AgentTable.contains in Hnew.
  destruct (Py.hashable an); [|discriminate].
  destruct (AgentTable.lookup an (agents (mgr s))); [discriminate|reflexivity].
Qed.

(** C10.  [create_task] touches the task list only at its very end:
    when it raises, for whatever reason, the list is as before, and
    when it returns, exactly one task has been appended.  When the
    agent of the entry is not in the agents table and its construction
    raises, [create_task] raises that exception and the agents table
    is as before, without an entry for that agent. *)
Theorem create_task_atomic (task_name : string) (s : MgrState W) :
  (forall e s', create_task task_name s = (Raise e, s') ->
                tasks (mgr s') = tasks (mgr s)) /\
  (forall s', create_task task_name s = (Ok tt, s') ->
              exists t, tasks (mgr s') = (tasks (mgr s) ++ [t])%list) /\
  (forall tc an e s1,
      Py.lookup task_name (tasks_config (mgr s)) = Some tc ->
      Py.get tc "agent" PNone = Ok an ->
      AgentTable.contains an (agents (mgr s)) = Ok false ->
      _create_agent an s = (Raise e, s1) ->
      create_task task_name s = (Raise e, s1) /\
      tasks (mgr s1) = tasks (mgr s) /\
      agents (mgr s1) = agents (mgr s) /\
      AgentTable.lookup an (agents (mgr s1)) = None).
Proof.
  destruct (create_task_tasks task_name s) as [Hraise Hok].
  split; [exact Hraise|]. split; [exact Hok|].
  intros tc an e s1. apply create_task_agent_failure.
Qed.

Lemma key_eqb_str (k : pyval) (x : string) :
  Py.key_eqb k (PStr x) = true -> k = PStr x.
Proof.
  destruct k; simpl; try discriminate.
  intros H. apply String.eqb_eq in H. congruence.
Qed.

Lemma getitem_key_eqb (d : dict) (k an c : pyval) :
  Py.getitem_key d an = Ok c -> Py.key_eqb k an = true ->
  Py.getitem_key d k = Ok c.
Proof.
  intros Hget Heq.
  assert (exists x, an = PStr x) as [x ->].
  { unfold Py.getitem_key in Hget.
    destruct an; simpl in Hget; try discriminate. eexists; reflexivity. }
  apply key_eqb_str in Heq. congruence.
Qed.

Lemma agent_set_not_nil (k : pyval) (a : Agent) (t : list (pyval * Agent)) :
  AgentTable.set k a t <> [].
Proof.
  destruct t as [|[k' a'] t]; simpl; [discriminate|].
  destruct (Py.key_eqb k k'); discriminate.
Qed.

(** What one [create_task] keeps of the manager, raising or not. *)
Lemma create_task_keeps (n : string) (s : MgrState W) :
  configs_of (mgr (snd (create_task n s))) = configs_of (mgr s) /\
  (agents (mgr s) <> [] -> agents (mgr (snd (create_task n s))) <> []) /\
  (agents_known s -> agents_known (snd (create_task n s))) /\
  (fst (create_task n s) = Ok tt -> agents (mgr (snd (create_task n s))) <> []).
Proof.
  pose proof (create_task_spec n s) as H.
  destruct (create_task n s) as [[[]|e] s1]; simpl.
  - destruct H as (tc & an & a & t & _ & _ & Hl & _ & _ & _ & _ & _ & Hag & Hcf).
    split; [assumption|].
    assert (Hne : agents (mgr s1) <> [])
      by (intros E; rewrite E in Hl; discriminate).
    split; [auto|]. split; [|auto].
    intros Hk k a' Hk'.
    assert (Hc : agents_config (mgr s1) = agents_config (mgr s))
      by (unfold configs_of in Hcf; congruence).
    rewrite Hc.
    destruct Hag as [Hag | (Hnone & Hag & c & Hc')].
    + rewrite Hag in Hk'. eapply Hk; eassumption.
    + rewrite Hag, (agent_set_absent _ _ _ Hnone), agent_lookup_app in Hk'.
      destruct (AgentTable.lookup k (agents (mgr s))) eqn:Hold.
      * eapply Hk; eassumption.
      * simpl in Hk'. destruct (Py.key_eqb k an) eqn:Hkey; [|discriminate].
        exists c. eapply getitem_key_eqb; eassumption.
  - destruct H as (_ & Hag & Hcf).
    split; [assumption|].
    assert (Hc : agents_config (mgr s1) = agents_config (mgr s))
      by (unfold configs_of in Hcf; congruence).
    split; [|split; [|discriminate]].
    + intros Hne. destruct Hag as [-> | (an & a & _ & -> & _)];
        [assumption | apply agent_set_not_nil].
    + intros Hk k a' Hk'. rewrite Hc.
      destruct Hag as [Hag | (an & a & Hnone & Hag & c & Hc')].
      * rewrite Hag in Hk'. eapply Hk; eassumption.
      * rewrite Hag, (agent_set_absent _ _ _ Hnone), agent_lookup_app in Hk'.
        destruct (AgentTable.lookup k (agents (mgr s))) eqn:Hold.
        -- eapply Hk; eassumption.
        -- simpl in Hk'. destruct (Py.key_eqb k an) eqn:Hkey; [|discriminate].
           exists c. eapply getitem_key_eqb; eassumption.
Qed.

(** A task whose agent the agents document does not define makes
    [create_task] raise. *)
Lemma create_task_unknown_agent (n : string) (s : MgrState W) :
  agents_known s -> unknown_agent (mgr s) n ->
  exists e, fst (create_task n s) = Raise e.
Proof.
  intros Hk (tc & a & Hentry & Hagent & Hnone).
  assert (Hget : Py.getitem_key (agents_config (mgr s)) (PStr a)
                 = Raise (KeyError (PStr a))).
  { unfold Py.getitem_key. simpl. rewrite Hnone. reflexivity. }
  assert (Hnew : AgentTable.contains (PStr a) (agents (mgr s)) = Ok false).
  { unfold AgentTable.contains. simpl.
    destruct (AgentTable.lookup (PStr a) (agents (mgr s))) eqn:Hl;
      [|reflexivity].
    destruct (Hk _ _ Hl) as [c Hc]. congruence. }
  destruct (_create_agent_frame (PStr a) s) as [_ Hok].
  destruct (_create_agent (PStr a) s) as [[ag|e] s1] eqn:Hca.
  { destruct (Hok ag eq_refl) as [c Hc]. congruence. }
  exists e.
  destruct (create_task_agent_failure n s s1 tc (PStr a) e
              Hentry Hagent Hnew Hca) as [-> _].
  reflexivity.
Qed.

Lemma unknown_agent_configs (m m' : CrewAIManager) (n : string) :
  configs_of m' = configs_of m -> unknown_agent m n -> unknown_agent m' n.
Proof.
  unfold configs_of. intros [= Ha Ht _ _ _ _] (tc & a & H).
  exists tc, a. rewrite Ha, Ht. exact H.
Qed.

Lemma create_tasks_cons (n : string) (names : list string) (s : MgrState W) :
  create_tasks (n :: names) s = create_tasks names (snd (create_task n s)).
Proof.
  unfold create_tasks. simpl. unfold bind, try_except, ret.
  destruct (create_task n s) as [[[]|e] sa]; reflexivity.
Qed.

(** The loop of [initialize_crew] never raises; it appends the tasks of
    the entries whose [create_task] returned, in the order of the
    names, and nothing for the others. *)
Lemma create_tasks_spec (names : list string) :
  forall s : MgrState W,
    fst (create_tasks names s) = Ok tt /\
    configs_of (mgr (snd (create_tasks names s))) = configs_of (mgr s) /\
    (agents (mgr s) <> [] -> agents (mgr (snd (create_tasks names s))) <> []) /\
    exists out,
      pass s names out (snd (create_tasks names s)) /\
      tasks (mgr (snd (create_tasks names s))) = (tasks (mgr s) ++ kept out)%list /\
      (kept out <> [] -> agents (mgr (snd (create_tasks names s))) <> []) /\
      (agents_known s ->
       Forall2 (fun n o => unknown_agent (mgr s) n -> o = None) names out).
Proof.
  induction names as [|n names IH]; intros s.
  - simpl. split; [reflexivity|]. split; [reflexivity|]. split; [auto|].
    exists []. split; [constructor|]. split; [rewrite app_nil_r; reflexivity|].
    split; [intros H; contradiction|]. intros _. constructor.
  - rewrite create_tasks_cons.
    pose proof (create_task_keeps n s) as (Hcf & Hmono & Hkn & Hokag).
    pose proof (create_task_tasks n s) as (Hraise & Hok).
    pose proof (create_task_unknown_agent n s) as Hunk.
    destruct (create_task n s) as [[[]|e] sa] eqn:Hrun; simpl in *.
    + destruct (IH sa) as (Hr & Hcf' & Hmono' & out & Hpass & Htasks & Hag & Hun).
      destruct (Hok sa eq_refl) as [t Ht].
      split; [assumption|]. split; [congruence|]. split; [auto|].
      exists (Some t :: out).
      split; [econstructor; eassumption|].
      split; [rewrite Htasks, Ht, <- app_assoc; reflexivity|].
      split; [intros _; apply Hmono', Hokag; reflexivity|].
      intros Hk. constructor.
      * intros Hu. destruct (Hunk Hk Hu) as [e He]. discriminate.
      * eapply Forall2_impl; [apply Hun, Hkn, Hk|].
        intros n' o H Hu. apply H.
        eapply unknown_agent_configs; eassumption.
    + destruct (IH sa) as (Hr & Hcf' & Hmono' & out & Hpass & Htasks & Hag & Hun).
      split; [assumption|]. split; [congruence|]. split; [auto|].
      exists (None :: out).
      split; [econstructor; eassumption|].
      split; [rewrite Htasks, (Hraise e sa eq_refl); reflexivity|].
      split; [exact Hag|].
      intros Hk. constructor; [reflexivity|].
      eapply Forall2_impl; [apply Hun, Hkn, Hk|].
      intros n' o H Hu. apply H.
      eapply unknown_agent_configs; eassumption.
Qed.

(** [initialize_crew] is the loop, the emptiness check, and then one
    call of the [Crew] constructor whose outcome it passes on. *)
Lemma initialize_crew_eq (s : MgrState W) (cls : string) (fields : dict) :
  Py.getattr (tool_config (mgr s)) "embedder" = Ok (PObj cls fields) ->
  initialize_crew s =
  let s1 := snd (create_tasks (Py.keys (tasks_config (mgr s))) s) in
  if no_agents_or_tasks (mgr s1) then (Raise empty_crew, s1)
  else
    let args := crew_kwargs (mgr s1) (PDict fields) in
    match construct EvCrew (Crew_init args) (msys s1) with
    | (Ok i, y) => (Ok {| crew_id := i; crew_args := args |},
                    {| mgr := mgr s1; msys := y |})
    | (Raise e, y) => (Raise e, {| mgr := mgr s1; msys := y |})
    end.
Proof.
  intros Hemb.
  destruct (create_tasks_spec (Py.keys (tasks_config (mgr s))) s)
    as (Hr & Hcf & _).
  unfold initialize_crew, bind, gets, try_except, lift_result, ret, raise,
    in_msys, no_agents_or_tasks.
  simpl.
  destruct (create_tasks (Py.keys (tasks_config (mgr s))) s) as [r s1].
  simpl in *. subst r.
  assert (Htc : tool_config (mgr s1) = tool_config (mgr s))
    by (unfold configs_of in Hcf; congruence).
  destruct (_ || _); [reflexivity|].
  rewrite Htc, !Hemb. simpl.
  destruct (construct EvCrew _ (msys s1)) as [[i|e] y]; reflexivity.
Qed.

(** What [__init__] leaves behind. *)
Lemma init_ready (agents_doc tasks_doc model_doc tools_doc : dict) (w : W)
      (s : MgrState W) :
  CrewAIManager_init agents_doc tasks_doc model_doc tools_doc w = Ok s ->
  ready s /\ agents (mgr s) = [] /\ tasks (mgr s) = [] /\
  memory (mgr s) = true /\ tasks_config (mgr s) = tasks_doc /\
  agents_config (mgr s) = agents_doc /\ log (msys s) = [].
Proof.
  unfold CrewAIManager_init, ToolRegistry_init.
  destruct (fst (_initialize_tool_config model_doc tools_doc tt)) as [tc|e];
    [|discriminate].
  destruct (Py.getattr tc "llm") as [llm|e]; [|discriminate].
  destruct (Py.getattr tc "embedder") as [emb|e] eqn:Hemb; [|discriminate].
  destruct (negb (Py.isinstance llm "LLMConfig")); [discriminate|].
  destruct (negb (Py.isinstance emb "EmbedderConfig")) eqn:Hi; [discriminate|].
  intros [= <-]. simpl.
  split; [|repeat split].
  destruct emb; simpl in Hi; try discriminate.
  eexists _, _. exact Hemb.
Qed.

Lemma agents_known_nil (s : MgrState W) :
  agents (mgr s) = [] -> agents_known s.
Proof. intros H k a. rewrite H. discriminate. Qed.


(** C4, as the code has it.  On a manager fresh from [__init__],
    [initialize_crew] raises the empty-crew error with nothing
    constructed after the loop exactly when the loop ends with no agent
    or no task.  Otherwise it calls the [Crew] constructor once, with
    the agents and tasks of the loop, the sequential process and memory
    switched on, and returns the crew if the constructor accepts, or
    raises the constructor's exception if it does not. *)
Theorem initialize_crew_outcome
        (agents_doc tasks_doc model_doc tools_doc : dict) (w : W)
        (s s' : MgrState W) (r : result Crew) :
  CrewAIManager_init agents_doc tasks_doc model_doc tools_doc w = Ok s ->
  initialize_crew s = (r, s') ->
  ((r = Raise empty_crew /\ s' = snd (create_tasks (Py.keys tasks_doc) s)) <->
   (agents (mgr (snd (create_tasks (Py.keys tasks_doc) s))) = [] \/
    tasks (mgr (snd (create_tasks (Py.keys tasks_doc) s))) = [])) /\
  (agents (mgr (snd (create_tasks (Py.keys tasks_doc) s))) <> [] ->
   tasks (mgr (snd (create_tasks (Py.keys tasks_doc) s))) <> [] ->
   exists args : CrewArgs,
     crew_process args = sequential /\
     crew_memory args = true /\
     crew_tasks args = tasks (mgr (snd (create_tasks (Py.keys tasks_doc) s))) /\
     crew_agents args =
       map snd (agents (mgr (snd (create_tasks (Py.keys tasks_doc) s)))) /\
     match fst (Crew_init args
                  (world (msys (snd (create_tasks (Py.keys tasks_doc) s))))) with
     | None =>
         exists i, r = Ok {| crew_id := i; crew_args := args |} /\
                   log (msys s') =
                     (log (msys (snd (create_tasks (Py.keys tasks_doc) s)))
                      ++ [EvCrew (Ok i)])%list
     | Some e =>
         r = Raise e /\
         log (msys s') =
           (log (msys (snd (create_tasks (Py.keys tasks_doc) s)))
            ++ [EvCrew (Raise e)])%list
     end).
Proof.
  intros Hinit Hrun.
  destruct (init_ready _ _ _ _ _ _ Hinit)
    as ((cls & fields & Hemb) & _ & _ & Hmem & Htc & _ & _).
  destruct (create_tasks_spec (Py.keys tasks_doc) s) as (_ & Hcf & _).
  rewrite (initialize_crew_eq s cls fields Hemb), Htc in Hrun. simpl in Hrun.
  set (s1 := snd (create_tasks (Py.keys tasks_doc) s)) in *.
  assert (Hmem1 : memory (mgr s1) = true)
    by (unfold configs_of in Hcf; congruence).
  unfold no_agents_or_tasks, construct in Hrun.
  destruct (agents (mgr s1)) as [|ag ags] eqn:Ha.
  { simpl in Hrun. injection Hrun as <- <-.
    split; [tauto|]. intros H; contradiction. }
  destruct (tasks (mgr s1)) as [|tk tks] eqn:Ht.
  { simpl in Hrun. injection Hrun as <- <-.
    split; [tauto|]. intros _ H; contradiction. }
  simpl in Hrun.
  split.
  - split; [|intros [H|H]; discriminate].
    intros [_ Hs]. exfalso.
    destruct (Crew_init _ (world (msys s1))) as [[e|] w'];
      injection Hrun as _ Hrun; rewrite Hs in Hrun;
      apply (f_equal (fun x => length (log (msys x)))) in Hrun;
      simpl in Hrun; rewrite length_app in Hrun; simpl in Hrun; lia.
  - intros _ _.
    exists (crew_kwargs (mgr s1) (PDict fields)).
    split; [reflexivity|]. split; [exact Hmem1|].
    split; [simpl; congruence|]. split; [simpl; rewrite Ha; reflexivity|].
    destruct (Crew_init _ (world (msys s1))) as [[e|] w'];
      injection Hrun as <- <-; simpl; eauto.
Qed.

(** With the keys it indexes in place, [_initialize_tool_config] is the
    validation of what it collected. *)
Lemma initialize_tool_config_collected {S} (model_doc tools_doc : dict) (st : S)
      (llm c : dict) (provider model : pyval) (data_paths : list pyval) :
  Py.lookup "llm" model_doc = Some (PDict llm) ->
  Py.lookup "provider" llm = Some provider ->
  Py.lookup "config" llm = Some (PDict c) ->
  Py.lookup "model" c = Some model ->
  map_result (fun tool_config => Py.getitem tool_config "data_path")
             (Py.values tools_doc) = Ok data_paths ->
  _initialize_tool_config model_doc tools_doc st =
  (ToolConfig_new
     (PDict [("llm",
              PDict [("provider", provider); ("model", model);
                     ("temperature",
                      match Py.lookup "temperature" c with
                      | Some t => t
                      | None => PFloat 1%Q
                      end)]);
             ("embedder",
              PDict [("provider", PStr "ollama");
                     ("config", PDict [("model", PStr "nomic-embed-text")]);
                     ("data_paths", PList data_paths)])]), st).
Proof.
  intros Hllm Hprov Hcfg Hmodel Hpaths.
  unfold _initialize_tool_config, try_except, bind, lift_result, raise.
  generalize ToolConfig_new. intros validate.
  simpl. rewrite Hllm. simpl. rewrite Hprov, Hcfg. simpl. rewrite Hmodel.
  rewrite Hpaths.
  destruct (Py.lookup "temperature" c); simpl;
    match goal with
    | |- context [validate ?x] => destruct (validate x)
    end; reflexivity.
Qed.

(** Without the [model] key it raises the [KeyError] of that key before
    anything is validated. *)
Lemma initialize_tool_config_no_model {S} (model_doc tools_doc : dict) (st : S)
      (llm c : dict) (provider : pyval) :
  Py.lookup "llm" model_doc = Some (PDict llm) ->
  Py.lookup "provider" llm = Some provider ->
  Py.lookup "config" llm = Some (PDict c) ->
  Py.lookup "model" c = None ->
  _initialize_tool_config model_doc tools_doc st
  = (Raise (KeyError (PStr "model")), st).
Proof.
  intros Hllm Hprov Hcfg Hmodel.
  unfold _initialize_tool_config, try_except, bind, lift_result, raise.
  simpl. rewrite Hllm. simpl. rewrite Hprov, Hcfg. simpl. rewrite Hmodel.
  reflexivity.
Qed.

(** ** More on the registry *)

Lemma create_tool_raise (name : string) (cls : ToolClass) (s s2 : RegState W)
      (e : exn) :
  _create_tool name cls s = (Raise e, s2) ->
  reg s2 = reg s /\ next_id (sys s2) = next_id (sys s).
Proof.
  destruct (create_tool_split name cls s) as [(e' & -> & _) | (kw & -> & _)].
  - intros [= _ <-]. auto.
  - unfold instantiate, construct.
    destruct (tool_class_init cls kw (world (sys s))) as [[e'|] w']; simpl;
      [|discriminate].
    intros [= _ <-]. auto.
Qed.

Lemma ensure_below (n : nat) (name : string) (s : RegState W) :
  below name s (fst (ensure (get_tool_fuel n) name s))
        (snd (ensure (get_tool_fuel n) name s)).
Proof.
  unfold ensure. destruct (predecessor name) as [p|] eqn:Hp.
  - pose proof (below_of_effect name p s _ _ Hp (get_tool_fuel_effect n p s)) as Hb.
    destruct (get_tool_fuel n p s) as [[x|e] s1]; exact Hb.
  - apply below_stay. exact Hp.
Qed.

(** X1: a [get_tool] that raises leaves the requested name out of the
    memo table, so that the next request for it starts over, and keeps
    every instance that was memoized before the call. *)
Theorem get_tool_failure_not_memoized (name : string) (s s' : RegState W)
        (e : exn) :
  get_tool name s = (Raise e, s') ->
  tools (reg s') !! name = None /\
  (forall k t, tools (reg s) !! k = Some t -> tools (reg s') !! k = Some t).
Proof.
  intros H. split.
  - revert H. unfold get_tool.
    change (get_tool_fuel 3 name s)
      with (get_tool_body (get_tool_fuel 2) name s).
    rewrite get_tool_body_table. unfold get_tool_table.
    destruct (tools (reg s) !! name) as [t|] eqn:Hm; [discriminate|].
    destruct (class_of name) as [cls|]; [|intros [= _ <-]; exact Hm].
    pose proof (ensure_below 2 name s) as Hb.
    destruct (ensure (get_tool_fuel 2) name s) as [o s1]. simpl in Hb.
    destruct Hb as (_ & d & _ & _ & Hnew & Hcalls & _).
    destruct (below_not_memoized name s s1 d Hnew Hcalls Hm) as [Hm1 _].
    destruct o as [e1|]; [intros [= _ <-]; exact Hm1|].
    destruct (_create_tool name cls s1) as [[t|e2] s2] eqn:Hc; [discriminate|].
    intros [= _ <-].
    destruct (create_tool_raise _ _ _ _ _ Hc) as [-> _]. exact Hm1.
  - pose proof (get_tool_effect name s) as He. rewrite H in He. simpl in He.
    destruct He as (_ & d & _ & Hkeep & _).
    intros k t Hk. apply (Hkeep k t Hk).
Qed.

Lemma create_tool_kwargs (name : string) (cls : ToolClass) (s s2 : RegState W)
      (t : ToolInstance) :
  _create_tool name cls s = (Ok t, s2) ->
  tool_class t = cls /\
  exists llm_dict emb emb_dict dp,
    tool_kwargs t = PDict [("llm_config", llm_dict);
                           ("embedder_config", emb_dict);
                           ("data_path", dp)] /\
    llm_kwargs (llm_config (reg s)) = Ok llm_dict /\
    tool_embedder (tool_configs (reg s)) name = Ok emb /\
    Py.dict_method emb = Ok emb_dict /\
    data_path_of (tool_configs (reg s)) name = Ok dp.
Proof.
  unfold _create_tool, llm_kwargs, data_path_of, tool_embedder,
    bind, gets, lift_result, ret, raise, in_sys.
  repeat (inner_case; simpl in * ); try discriminate.
  all: intros [= <- <-]; simpl.
  all: split; [reflexivity|].
  all: eexists _, _, _, _; repeat split; try reflexivity; try eassumption.
Qed.

Lemma get_tool_fuel_well_formed (n : nat) :
  forall (name : string) (s : RegState W),
    well_formed s /\ distinct_ids s ->
    well_formed (snd (get_tool_fuel n name s)) /\
    distinct_ids (snd (get_tool_fuel n name s)).
Proof.
  induction n as [|n IH]; intros name s Hs; [exact Hs|].
  simpl get_tool_fuel. rewrite get_tool_body_table. unfold get_tool_table.
  destruct (tools (reg s) !! name) as [t|] eqn:Hm; [exact Hs|].
  destruct (class_of name) as [cls|] eqn:Hcls; [|exact Hs].
  assert (well_formed (snd (ensure (get_tool_fuel n) name s)) /\
          distinct_ids (snd (ensure (get_tool_fuel n) name s))) as Hs1.
  { unfold ensure. destruct (predecessor name) as [p|]; [|exact Hs].
    specialize (IH p s Hs).
    destruct (get_tool_fuel n p s) as [[x|e] s1]; exact IH. }
  destruct (ensure (get_tool_fuel n) name s) as [[e|] s1]; [exact Hs1|].
  simpl in Hs1. destruct Hs1 as [Hw Hd].
  destruct (_create_tool name cls s1) as [[t|e] s2] eqn:Hc; simpl.
  - destruct (create_tool_ok _ _ _ _ _ Hc) as (Hreg & _ & Hid & Hnext).
    destruct (create_tool_kwargs _ _ _ _ _ Hc) as (Hclass & Hkw).
    assert (forall k x, tools (reg s1) !! k = Some x ->
                        tool_id x < tool_id t) as Hold.
    { intros k x Hk. rewrite Hid. apply (Hw k x Hk). }
    split.
    + intros k x. unfold memoize. cbn [reg sys tools set_tools].
      rewrite Hnext, Hreg.
      destruct (String.eqb_spec name k) as [<-|Hne].
      * rewrite lookup_insert_eq. intros [= <-].
        split; [lia|]. split; [congruence|exact Hkw].
      * rewrite lookup_insert_ne by exact Hne. intros Hk.
        destruct (Hw k x Hk) as [Hlt Hb]. split; [lia|exact Hb].
    + intros k1 k2 t1 t2. unfold memoize. cbn [reg sys tools set_tools].
      rewrite Hreg.
      destruct (String.eqb_spec name k1) as [<-|Hne1];
        destruct (String.eqb_spec name k2) as [<-|Hne2];
        rewrite ?lookup_insert_eq, ?lookup_insert_ne by assumption.
      * reflexivity.
      * intros [= <-] H2 He. pose proof (Hold _ _ H2). lia.
      * intros H1 [= <-] He. pose proof (Hold _ _ H1). lia.
      * apply Hd.
  - destruct (create_tool_raise _ _ _ _ _ Hc) as [Hreg Hnext]. split.
    + intros k x. rewrite Hreg, Hnext. apply Hw.
    + intros k1 k2 t1 t2. rewrite Hreg. apply Hd.
Qed.

Lemma requests_well_formed (names : list string) :
  forall s : RegState W,
    well_formed s /\ distinct_ids s ->
    well_formed (requests names s) /\ distinct_ids (requests names s).
Proof.
  induction names as [|n names IH]; intros s Hs; [exact Hs|].
  simpl. apply IH. apply (get_tool_fuel_well_formed 3 n s Hs).
Qed.

Lemma served_well_formed (r0 : ToolRegistry) (w : W) (names : list string) :
  well_formed (requests names (new_registry r0 w)) /\
  distinct_ids (requests names (new_registry r0 w)).
Proof.
  apply requests_well_formed. split.
  - intros k t. unfold new_registry. simpl. rewrite lookup_empty. discriminate.
  - intros k1 k2 t1 t2. unfold new_registry. simpl. rewrite lookup_empty.
    discriminate.
Qed.

Lemma served_configuration (r0 : ToolRegistry) (w : W) (names : list string) :
  llm_config (reg (requests names (new_registry r0 w))) = llm_config r0 /\
  tool_configs (reg (requests names (new_registry r0 w))) = tool_configs r0.
Proof.
  revert w. generalize (new_registry_consistent r0).
  assert (forall s : RegState W,
             llm_config (reg (requests names s)) = llm_config (reg s) /\
             tool_configs (reg (requests names s)) = tool_configs (reg s)) as H.
  { induction names as [|n names IH]; intros s; [auto|].
    simpl. destruct (IH (snd (get_tool n s))) as [-> ->].
    destruct (get_tool_effect n s) as [-> _]. auto. }
  intros _ w. apply (H (new_registry r0 w)).
Qed.

(** X2: in a registry that has served any requests, every memoized
    instance has the class that [get_tool] hard-codes for its name, and no
    two names are memoized to the same instance. *)
Theorem memoized_instances_distinct (r0 : ToolRegistry) (w : W)
        (names : list string) (k1 k2 : string) (t1 t2 : ToolInstance) :
  tools (reg (requests names (new_registry r0 w))) !! k1 = Some t1 ->
  tools (reg (requests names (new_registry r0 w))) !! k2 = Some t2 ->
  class_of k1 = Some (tool_class t1) /\
  tool_id t1 < next_id (sys (requests names (new_registry r0 w))) /\
  (tool_id t1 = tool_id t2 <-> k1 = k2).
Proof.
  intros H1 H2. destruct (served_well_formed r0 w names) as [Hw Hd].
  destruct (Hw k1 t1 H1) as (Hlt & Hcls & _).
  split; [exact Hcls|]. split; [exact Hlt|]. split.
  - apply (Hd k1 k2 t1 t2 H1 H2).
  - intros <-. congruence.
Qed.

(** X3: every tool a registry builds is given the same [llm_config]
    keyword argument, a mapping that is read from the registry's own
    model configuration and is never empty: the tool's entry in the
    tools document has no say in it. *)
Theorem tools_share_llm_settings (r0 : ToolRegistry) (w : W)
        (names : list string) (k : string) (t : ToolInstance) :
  tools (reg (requests names (new_registry r0 w))) !! k = Some t ->
  exists llm_dict,
    llm_kwargs (llm_config r0) = Ok llm_dict /\
    Py.getitem (tool_kwargs t) "llm_config" = Ok llm_dict /\
    Py.truthy llm_dict = true.
Proof.
  intros Hk. destruct (served_well_formed r0 w names) as [Hw _].
  destruct (Hw k t Hk) as (_ & _ & llm_dict & emb & emb_dict & dp & Hkw & Hllm & _).
  destruct (served_configuration r0 w names) as [Hl _]. rewrite Hl in Hllm.
  exists llm_dict. split; [exact Hllm|]. rewrite Hkw. split; [reflexivity|].
  revert Hllm. unfold llm_kwargs.
  repeat (inner_case; try discriminate). intros [= <-]. reflexivity.
Qed.

(** X4: a memoized tool of the three that need a data path was built
    with the [data_path] of its entry in the tools document, and that
    value is truthy: the default file that [TEDxSlugTool] falls back to
    for a missing path is never used for a tool built by the registry. *)
Theorem tedx_tools_get_document_path (r0 : ToolRegistry) (w : W)
        (names : list string) (k : string) (t : ToolInstance) :
  tools (reg (requests names (new_registry r0 w))) !! k = Some t ->
  needs_data_path k = true ->
  exists dp,
    data_path_of (tool_configs r0) k = Ok dp /\
    Py.getitem (tool_kwargs t) "data_path" = Ok dp /\
    Py.truthy dp = true /\
    SlugTool.data_path_or_default dp = dp.
Proof.
  intros Hk Hneed. destruct (served_well_formed r0 w names) as [Hw _].
  destruct (Hw k t Hk) as (_ & _ & llm_dict & emb & emb_dict & dp & Hkw & _ & _ & _ & Hdp).
  destruct (served_configuration r0 w names) as [_ Hdoc]. rewrite Hdoc in Hdp.
  pose proof (requests_consistent names _ (new_registry_consistent r0 w) k) as Hc.
  rewrite Hk, Hdoc in Hc. destruct Hc as (_ & _ & Hpath & _).
  specialize (Hpath Hneed). unfold has_data_path in Hpath. rewrite Hdp in Hpath.
  exists dp. split; [exact Hdp|]. rewrite Hkw. split; [reflexivity|].
  split; [exact Hpath|]. unfold SlugTool.data_path_or_default.
  rewrite Hpath. reflexivity.
Qed.

(** ** More on the manager *)

Lemma agents_kept_set (an : pyval) (a : Agent) (s s' : MgrState W) :
  AgentTable.lookup an (agents (mgr s)) = None ->
  agents (mgr s') = AgentTable.set an a (agents (mgr s)) ->
  agents_kept s s'.
Proof.
  intros Hn He k x Hk. rewrite He, (agent_set_absent _ _ _ Hn), agent_lookup_app, Hk.
  reflexivity.
Qed.

Lemma create_task_agents_kept (n : string) (s : MgrState W) :
  agents_kept s (snd (create_task n s)).
Proof.
  pose proof (create_task_spec n s) as H.
  destruct (create_task n s) as [[u|e] s1]; simpl.
  - destruct H as (tc & an & a & t & _ & _ & _ & _ & _ & _ & _ & _ & Hag & _).
    destruct Hag as [Hag | (Hn & Hag & _)].
    + intros k x. rewrite Hag. auto.
    + apply (agents_kept_set an a s s1 Hn Hag).
  - destruct H as (_ & Hag & _).
    destruct Hag as [Hag | (an & a & Hn & Hag & _)].
    + intros k x. rewrite Hag. auto.
    + apply (agents_kept_set an a s s1 Hn Hag).
Qed.

Lemma pass_agents (s : MgrState W) (names : list string)
      (out : list (option Task)) (s2 : MgrState W) :
  pass s names out s2 ->
  agents_kept s s2 /\
  Forall2 (fun n o =>
             forall t, o = Some t ->
               exists tc an,
                 Py.lookup n (tasks_config (mgr s)) = Some tc /\
                 Py.get tc "agent" PNone = Ok an /\
                 AgentTable.lookup an (agents (mgr s2)) = Some (agent t))
          names out.
Proof.
  induction 1 as [s | s n ns t s1 out s2 Hc Ht Hp [IHk IHf]
                    | s n ns e s1 out s2 Hc Hp [IHk IHf]].
  - split; [intros k a; auto | constructor].
  - pose proof (create_task_agents_kept n s) as Hk.
    pose proof (create_task_spec n s) as Hs.
    rewrite Hc in Hk, Hs. simpl in Hk.
    destruct Hs as (tc & an & a & t' & Htc & Han & Hl & Ht' & Hag & _ & _ & _ & _ & Hcfg).
    assert (t' = t) as ->.
    { rewrite Ht in Ht'. apply app_inv_head in Ht'. congruence. }
    assert (tasks_config (mgr s1) = tasks_config (mgr s)) as Hdoc
        by (unfold configs_of in Hcfg; congruence).
    split; [intros k x Hx; apply IHk, Hk, Hx|].
    constructor.
    + intros t0 [= <-]. exists tc, an. split; [exact Htc|]. split; [exact Han|].
      apply IHk. rewrite Hl, Hag. reflexivity.
    + rewrite <- Hdoc. exact IHf.
  - pose proof (create_task_agents_kept n s) as Hk.
    pose proof (create_task_keeps n s) as (Hcfg & _).
    rewrite Hc in Hk, Hcfg. simpl in Hk, Hcfg.
    assert (tasks_config (mgr s1) = tasks_config (mgr s)) as Hdoc
        by (unfold configs_of in Hcfg; congruence).
    split; [intros k x Hx; apply IHk, Hk, Hx|].
    constructor; [discriminate|].
    rewrite <- Hdoc. exact IHf.
Qed.

(** X5: in a pass of [initialize_crew] over the task names, every task
    that is made is bound to the agent the agents table holds, at the end
    of the pass, under the agent name of the task's entry: tasks that name
    the same agent share one agent object, and no agent that was in the
    table is replaced. *)
Theorem tasks_share_agents (names : list string) (s : MgrState W) :
  exists out,
    pass s names out (snd (create_tasks names s)) /\
    tasks (mgr (snd (create_tasks names s))) = (tasks (mgr s) ++ kept out)%list /\
    (forall k a, AgentTable.lookup k (agents (mgr s)) = Some a ->
                 AgentTable.lookup k (agents (mgr (snd (create_tasks names s))))
                 = Some a) /\
    Forall2 (fun n o =>
               forall t, o = Some t ->
                 exists tc an,
                   Py.lookup n (tasks_config (mgr s)) = Some tc /\
                   Py.get tc "agent" PNone = Ok an /\
                   AgentTable.lookup an
                     (agents (mgr (snd (create_tasks names s))))
                   = Some (agent t))
            names out.
Proof.
  destruct (create_tasks_spec names s) as (_ & _ & _ & out & Hp & Ht & _).
  exists out. split; [exact Hp|]. split; [exact Ht|].
  apply (pass_agents _ _ _ _ Hp).
Qed.

(** X6: [initialize_crew] never resets the manager: the tasks it makes
    are appended to those the manager already has, the crew it returns
    holds all of them, and the manager is left fit for another call, which
    therefore returns a crew that starts with the tasks of the first. *)
Theorem initialize_crew_appends (s s' : MgrState W) (r : result Crew) :
  ready s ->
  initialize_crew s = (r, s') ->
  ready s' /\
  exists out,
    tasks (mgr s') = (tasks (mgr s) ++ kept out)%list /\
    (forall k a, AgentTable.lookup k (agents (mgr s)) = Some a ->
                 AgentTable.lookup k (agents (mgr s')) = Some a) /\
    (forall crew, r = Ok crew ->
                  crew_tasks (crew_args crew) = (tasks (mgr s) ++ kept out)%list).
Proof.
  intros (cls & fields & He) H.
  rewrite (initialize_crew_eq s cls fields He) in H. cbv zeta in H.
  destruct (create_tasks_spec (Py.keys (tasks_config (mgr s))) s)
    as (_ & Hcfg & _ & out & Hp & Ht & _).
  destruct (pass_agents _ _ _ _ Hp) as [Hk _].
  set (s1 := snd (create_tasks (Py.keys (tasks_config (mgr s))) s)) in *.
  assert (tool_config (mgr s1) = tool_config (mgr s)) as Htc
      by (unfold configs_of in Hcfg; congruence).
  assert (mgr s' = mgr s1 /\
          forall crew, r = Ok crew ->
                       crew_tasks (crew_args crew) = tasks (mgr s1)) as [Hm Hcrew].
  { destruct (no_agents_or_tasks (mgr s1)).
    - injection H as <- <-. split; [reflexivity|discriminate].
    - destruct (construct EvCrew _ (msys s1)) as [[i|e] y];
        injection H as <- <-; (split; [reflexivity|]).
      + intros crew [= <-]. reflexivity.
      + discriminate. }
  split.
  - exists cls, fields. rewrite Hm, Htc. exact He.
  - exists out. rewrite Hm. split; [exact Ht|]. split; [exact Hk|].
    intros crew Hr. rewrite (Hcrew crew Hr). exact Ht.
Qed.

Lemma create_tasks_known (names : list string) :
  forall s : MgrState W,
    agents_known s -> agents_known (snd (create_tasks names s)).
Proof.
  induction names as [|n names IH]; intros s Hs; [exact Hs|].
  rewrite create_tasks_cons. apply IH.
  destruct (create_task_keeps n s) as (_ & _ & Hk & _). apply Hk, Hs.
Qed.

Lemma init_configured (agents_doc tasks_doc model_doc tools_doc : dict) (w : W)
      (s : MgrState W) :
  CrewAIManager_init agents_doc tasks_doc model_doc tools_doc w = Ok s ->
  exists llm emb,
    Py.getattr (tool_config (mgr s)) "llm" = Ok llm /\ Py.truthy llm = true /\
    Py.getattr (tool_config (mgr s)) "embedder" = Ok emb /\ Py.truthy emb = true.
Proof.
  unfold CrewAIManager_init, ToolRegistry_init.
  destruct (fst (_initialize_tool_config model_doc tools_doc tt)) as [tc|e];
    [|discriminate].
  destruct (Py.getattr tc "llm") as [llm|e] eqn:Hllm; [|discriminate].
  destruct (Py.getattr tc "embedder") as [emb|e] eqn:Hemb; [|discriminate].
  destruct (negb (Py.isinstance llm "LLMConfig")) eqn:Hl; [discriminate|].
  destruct (negb (Py.isinstance emb "EmbedderConfig")) eqn:Hi; [discriminate|].
  intros [= <-]. simpl. exists llm, emb.
  destruct llm; simpl in Hl; try discriminate.
  destruct emb; simpl in Hi; try discriminate.
  auto.
Qed.

Lemma _create_agent_unknown (a : string) (llm emb : pyval) (s : MgrState W) :
  Py.getattr (tool_config (mgr s)) "llm" = Ok llm -> Py.truthy llm = true ->
  Py.getattr (tool_config (mgr s)) "embedder" = Ok emb -> Py.truthy emb = true ->
  Py.lookup a (agents_config (mgr s)) = None ->
  _create_agent (PStr a) s = (Raise (KeyError (PStr a)), s).
Proof.
  intros Hl Htl He Hte Hn.
  unfold _create_agent, try_except, bind, gets, lift_result, ret, raise.
  rewrite Hl, Htl. simpl. rewrite He, Hte. simpl.
  unfold Py.getitem_key. simpl. rewrite Hn. reflexivity.
Qed.

(** X7: on a manager built by [__init__], after any earlier task
    creations, [create_task] for a task whose entry names an agent that the
    agents document does not define raises KeyError with the agent's name,
    and leaves the manager, the registry and the record of constructions
    exactly as they were. *)
Theorem unknown_agent_key_error
        (agents_doc tasks_doc model_doc tools_doc : dict) (w : W)
        (s0 : MgrState W) (pre : list string) (n a : string) (tc : pyval) :
  CrewAIManager_init agents_doc tasks_doc model_doc tools_doc w = Ok s0 ->
  Py.lookup n tasks_doc = Some tc ->
  Py.get tc "agent" PNone = Ok (PStr a) ->
  Py.lookup a agents_doc = None ->
  create_task n (snd (create_tasks pre s0))
  = (Raise (KeyError (PStr a)), snd (create_tasks pre s0)).
Proof.
  intros Hinit Htc Hag Hnone.
  destruct (init_configured _ _ _ _ _ _ Hinit) as (llm & emb & Hl & Htl & He & Hte).
  destruct (init_ready _ _ _ _ _ _ Hinit) as (_ & Hnil & _ & _ & Htd & Had & _).
  pose proof (create_tasks_known pre s0 (agents_known_nil s0 Hnil)) as Hk.
  destruct (create_tasks_spec pre s0) as (_ & Hcfg & _).
  set (s := snd (create_tasks pre s0)) in *.
  unfold configs_of in Hcfg. injection Hcfg as Ha Ht _ _ Hc _.
  assert (Py.lookup a (agents_config (mgr s)) = None) as Hnone'
      by (rewrite Ha, Had; exact Hnone).
  assert (_create_agent (PStr a) s = (Raise (KeyError (PStr a)), s)) as Hca.
  { apply (_create_agent_unknown a llm emb); rewrite ?Hc; assumption. }
  assert (AgentTable.contains (PStr a) (agents (mgr s)) = Ok false) as Hnew.
  { unfold AgentTable.contains. simpl.
    destruct (AgentTable.lookup (PStr a) (agents (mgr s))) eqn:Hlk; [|reflexivity].
    destruct (Hk _ _ Hlk) as [c Hcc].
    unfold Py.getitem_key in Hcc. simpl in Hcc. rewrite Hnone' in Hcc.
    discriminate. }
  assert (Py.lookup n (tasks_config (mgr s)) = Some tc) as Htc'
      by (rewrite Ht, Htd; exact Htc).
  destruct (create_task_agent_failure n s s tc (PStr a) (KeyError (PStr a))
              Htc' Hag Hnew Hca) as [-> _].
  reflexivity.
Qed.

End Program.

(** ** The program on the rules of the schemas *)

(** C5, as the code has it.  With the field rules the spec gives for the
    schemas: when the model document has its [llm], [provider] and
    [config] keys, then without the [model] key [_initialize_tool_config]
    raises the [KeyError] of that key and reports nothing else; with it,
    and with a [data_path] in every tool entry, it fails exactly when a
    rule of [provider], [model], [temperature] or [data_paths] is
    violated, and its [ValidationError] then lists every violated
    rule. *)
Theorem validation_reports (S : Type) (st : S) (model_doc tools_doc : dict)
        (llm c : dict) (provider : pyval) :
  Py.lookup "llm" model_doc = Some (PDict llm) ->
  Py.lookup "provider" llm = Some provider ->
  Py.lookup "config" llm = Some (PDict c) ->
  match Py.lookup "model" c with
  | None =>
      fst (_initialize_tool_config Schema.LLMConfig_validate
             Schema.EmbedderConfig_validate model_doc tools_doc st)
      = Raise (KeyError (PStr "model")) /\
      reports (KeyError (PStr "model")) "temperature" = false
  | Some model =>
      forall data_paths,
        map_result (fun tool_config => Py.getitem tool_config "data_path")
                   (Py.values tools_doc) = Ok data_paths ->
        match (Schema.required_string "provider" (Some provider)
               ++ Schema.required_string "model" (Some model)
               ++ Schema.non_negative "temperature" (Py.lookup "temperature" c)
               ++ Schema.path_strings "data_paths" (Some (PList data_paths)))%list
        with
        | [] =>
            exists tc,
              fst (_initialize_tool_config Schema.LLMConfig_validate
                     Schema.EmbedderConfig_validate model_doc tools_doc st)
              = Ok tc
        | errs =>
            fst (_initialize_tool_config Schema.LLMConfig_validate
                   Schema.EmbedderConfig_validate model_doc tools_doc st)
            = Raise (ValidationError errs)
        end
  end.
Proof.
  intros Hllm Hprov Hcfg.
  destruct (Py.lookup "model" c) as [model|] eqn:Hmodel.
  - intros data_paths Hpaths.
    rewrite (initialize_tool_config_collected _ _ model_doc tools_doc st
               llm c provider model data_paths Hllm Hprov Hcfg Hmodel Hpaths).
    unfold ToolConfig_new, sub_model, model_new,
      Schema.LLMConfig_validate, Schema.EmbedderConfig_validate,
      Schema.embedder_model.
    cbn [Py.lookup String.eqb Ascii.eqb Bool.eqb fst].
    change (Schema.required_string "provider" (Some (PStr "ollama")))
      with (@nil (string * string)).
    change (Schema.required_string "model" (Some (PStr "nomic-embed-text")))
      with (@nil (string * string)).
    cbn [app].
    assert (Ht : Schema.non_negative "temperature"
                   (Some match Py.lookup "temperature" c with
                         | Some t => t
                         | None => PFloat 1%Q
                         end)
                 = Schema.non_negative "temperature" (Py.lookup "temperature" c)).
    { destruct (Py.lookup "temperature" c); reflexivity. }
    rewrite Ht.
    destruct (Schema.required_string "provider" (Some provider)) as [|e1 l1];
      destruct (Schema.required_string "model" (Some model)) as [|e2 l2];
      destruct (Schema.non_negative "temperature" (Py.lookup "temperature" c))
        as [|e3 l3];
      destruct (Schema.path_strings "data_paths" (Some (PList data_paths)))
        as [|e4 l4];
      simpl; rewrite ?app_nil_r; repeat (rewrite <- app_assoc; simpl);
      first [reflexivity | eexists; reflexivity].
  - split; [|reflexivity].
    rewrite (initialize_tool_config_no_model _ _ model_doc tools_doc st
               llm c provider Hllm Hprov Hcfg Hmodel).
    reflexivity.
Qed.

(** ** The program on the small installation *)

#[local] Abbreviation demo_get_tool :=
  (get_tool Demo.World Schema.EmbedderConfig_validate Demo.tool_class_init).
#[local] Abbreviation demo_requests :=
  (requests Demo.World Schema.EmbedderConfig_validate Demo.tool_class_init).
#[local] Abbreviation demo_registry doc w :=
  (new_registry Demo.World (Demo.registry_over doc) w).
#[local] Abbreviation demo_init :=
  (CrewAIManager_init Demo.World Schema.LLMConfig_validate
                      Schema.EmbedderConfig_validate).
#[local] Abbreviation demo_manager :=
  (demo_init Demo.agents_doc Demo.tasks_doc Demo.model_doc Demo.tools_doc
             Demo.files).
#[local] Abbreviation demo_create_task :=
  (create_task Demo.World Schema.EmbedderConfig_validate Demo.tool_class_init
               Demo.Agent_init Demo.Task_init).
#[local] Abbreviation demo_create_agent :=
  (_create_agent Demo.World Schema.EmbedderConfig_validate Demo.tool_class_init
                 Demo.Agent_init).
#[local] Abbreviation demo_create_tasks :=
  (create_tasks Demo.World Schema.EmbedderConfig_validate Demo.tool_class_init
                Demo.Agent_init Demo.Task_init).
#[local] Abbreviation demo_initialize_crew crew_init :=
  (initialize_crew Demo.World Schema.EmbedderConfig_validate
                   Demo.tool_class_init Demo.Agent_init Demo.Task_init
                   crew_init).
#[local] Abbreviation demo_pass :=
  (pass Demo.World Schema.EmbedderConfig_validate Demo.tool_class_init
        Demo.Agent_init Demo.Task_init).
#[local] Abbreviation demo_tool_config :=
  (@_initialize_tool_config Schema.LLMConfig_validate
                            Schema.EmbedderConfig_validate unit).

(** C1 at work: after a web search was requested, [tedx_slug] is
    requested twice. *)
Lemma get_tool_idempotent_witness :
  exists inst s1,
    demo_get_tool "tedx_slug"
      (demo_requests ["duckduckgo_search"]
                     (demo_registry Demo.tools_doc Demo.files))
    = (Ok inst, s1) /\
    demo_get_tool "tedx_slug" s1 = (Ok inst, s1) /\
    (forall post,
        tools (reg (demo_requests post s1)) !! "tedx_slug" = Some inst /\
        made "tedx_slug" (log (sys (demo_requests post s1))) = [tool_id inst] /\
        calls "tedx_slug" (log (sys (demo_requests post s1)))
        = calls "tedx_slug" (log (sys s1)) /\
        calls "tedx_slug" (log (sys (demo_requests post s1)))
        = 1 + failures "tedx_slug" (log (sys (demo_requests post s1)))) /\
    (calls "tedx_slug"
           (log (sys (demo_requests ["duckduckgo_search"]
                                    (demo_registry Demo.tools_doc Demo.files))))
     = 0 ->
     calls "tedx_slug" (log (sys s1)) = 1).
Proof.
  eexists _, _. split; [vm_compute; reflexivity|].
  apply (get_tool_idempotent Demo.World Schema.EmbedderConfig_validate
           Demo.tool_class_init (Demo.registry_over Demo.tools_doc) Demo.files
           ["duckduckgo_search"] "tedx_slug").
  vm_compute. reflexivity.
Defined.

(** C1 as stated fails: the first request for [tedx_search] raises in
    the constructor and memoizes nothing, the second one succeeds and is
    repeated with the identical instance; the constructor has then been
    called twice, not once. *)
Lemma constructor_called_twice :
  exists e s0 inst s1,
    get_tool Demo.World Schema.EmbedderConfig_validate
             Demo.tool_class_init_slow "tedx_search"
             (demo_registry Demo.tools_doc Demo.files)
    = (Raise e, s0) /\
    get_tool Demo.World Schema.EmbedderConfig_validate
             Demo.tool_class_init_slow "tedx_search" s0
    = (Ok inst, s1) /\
    get_tool Demo.World Schema.EmbedderConfig_validate
             Demo.tool_class_init_slow "tedx_search" s1
    = (Ok inst, s1) /\
    calls "tedx_search" (log (sys s1)) = 2 /\
    made "tedx_search" (log (sys s1)) = [tool_id inst] /\
    failures "tedx_search" (log (sys s1)) = 1.
Proof.
  eexists _, _, _, _. split; [vm_compute; reflexivity|].
  split; [vm_compute; reflexivity|].
  split; [vm_compute; reflexivity|].
  repeat split; vm_compute; reflexivity.
Qed.

(** C2 at work: two unrelated tools are requested first, one of which
    cannot be built, and then the transcript tool. *)
Lemma predecessor_ordering_witness :
  tools (reg (demo_requests ["sdg_align"; "duckduckgo_search"]
                            (demo_registry Demo.tools_doc Demo.files)))
    !! "tedx_search" = None /\
  tools (reg (demo_requests ["sdg_align"; "duckduckgo_search"]
                            (demo_registry Demo.tools_doc Demo.files)))
    !! "tedx_slug" = None /\
  exists x s',
    demo_get_tool "tedx_transcript"
      (demo_requests ["sdg_align"; "duckduckgo_search"]
                     (demo_registry Demo.tools_doc Demo.files))
    = (Ok x, s') /\
    exists a b,
      log (sys s') =
        (log (sys (demo_requests ["sdg_align"; "duckduckgo_search"]
                                 (demo_registry Demo.tools_doc Demo.files)))
         ++ [EvTool "tedx_search" (Ok (tool_id a));
             EvTool "tedx_slug" (Ok (tool_id b));
             EvTool "tedx_transcript" (Ok (tool_id x))])%list /\
      tool_id a < tool_id b /\ tool_id b < tool_id x /\
      tools (reg s') !! "tedx_search" = Some a /\
      tools (reg s') !! "tedx_slug" = Some b /\
      tools (reg s') !! "tedx_transcript" = Some x.
Proof.
  split; [vm_compute; reflexivity|].
  split; [vm_compute; reflexivity|].
  eexists _, _. split; [vm_compute; reflexivity|].
  apply (predecessor_ordering Demo.World Schema.EmbedderConfig_validate
           Demo.tool_class_init (Demo.registry_over Demo.tools_doc) Demo.files
           ["sdg_align"; "duckduckgo_search"]);
    vm_compute; reflexivity.
Defined.

(** The record of that run: the failed unrelated tool, the web search,
    then search, slug and transcript in this order. *)
Example transcript_first_log :
  log (sys (demo_requests ["sdg_align"; "duckduckgo_search"; "tedx_transcript"]
                          (demo_registry Demo.tools_doc Demo.files)))
  = [EvTool "duckduckgo_search" (Ok 0); EvTool "tedx_search" (Ok 1);
     EvTool "tedx_slug" (Ok 2); EvTool "tedx_transcript" (Ok 3)].
Proof. vm_compute. reflexivity. Qed.



(** The pipeline of that document holds the first and the third task
    only, the second one's agent being unknown. *)
Example second_task_dropped :
  exists s crew s',
    demo_manager = Ok s /\
    unknown_agent (mgr s) "review" /\
    demo_initialize_crew Demo.Crew_init s = (Ok crew, s') /\
    map description (crew_tasks (crew_args crew))
    = [PStr "Find talks"; PStr "Analyse"] /\
    map priority (crew_tasks (crew_args crew)) = [PInt 2; PInt 3] /\
    crew_process (crew_args crew) = sequential /\
    crew_memory (crew_args crew) = true.
Proof.
  eexists _, _, _. split; [vm_compute; reflexivity|].
  split.
  { eexists _, _. split; [vm_compute; reflexivity|].
    split; vm_compute; reflexivity. }
  split; [vm_compute; reflexivity|].
  repeat split; vm_compute; reflexivity.
Qed.

(** C4 as stated fails: the loop ends with two agents and two tasks, and
    [initialize_crew] returns no pipeline but the exception of the [Crew]
    constructor. *)
Lemma no_pipeline_despite_agents_and_tasks :
  exists s,
    demo_manager = Ok s /\
    length (agents (mgr (snd (demo_create_tasks (Py.keys Demo.tasks_doc) s)))) = 2 /\
    length (tasks (mgr (snd (demo_create_tasks (Py.keys Demo.tasks_doc) s)))) = 2 /\
    fst (demo_initialize_crew Demo.Crew_rejects s)
    = Raise (Exception "Crew validation failed").
Proof.
  eexists. split; [vm_compute; reflexivity|].
  repeat split; vm_compute; reflexivity.
Qed.

(** C4 at work on a tasks document all of whose agents are unknown. *)
Lemma initialize_crew_outcome_witness :
  exists s r s',
    demo_init Demo.agents_doc Demo.tasks_doc_ghosts Demo.model_doc Demo.tools_doc
              Demo.files = Ok s /\
    demo_initialize_crew Demo.Crew_init s = (r, s') /\
    ((r = Raise empty_crew /\
      s' = snd (demo_create_tasks (Py.keys Demo.tasks_doc_ghosts) s)) <->
     (agents (mgr (snd (demo_create_tasks (Py.keys Demo.tasks_doc_ghosts) s))) = [] \/
      tasks (mgr (snd (demo_create_tasks (Py.keys Demo.tasks_doc_ghosts) s))) = [])).
Proof.
  eexists _, _, _. split; [vm_compute; reflexivity|].
  split; [vm_compute; reflexivity|].
  apply (initialize_crew_outcome Demo.World Schema.LLMConfig_validate
           Schema.EmbedderConfig_validate Demo.tool_class_init Demo.Agent_init
           Demo.Task_init Demo.Crew_init
           Demo.agents_doc Demo.tasks_doc_ghosts Demo.model_doc Demo.tools_doc
           Demo.files);
    vm_compute; reflexivity.
Defined.

(** On that document [initialize_crew] raises the empty-crew error and no
    constructor of a crew is ever called. *)
Example all_agents_unknown :
  exists s s',
    demo_init Demo.agents_doc Demo.tasks_doc_ghosts Demo.model_doc Demo.tools_doc
              Demo.files = Ok s /\
    demo_initialize_crew Demo.Crew_init s = (Raise empty_crew, s') /\
    log (msys s') = [].
Proof.
  eexists _, _. split; [vm_compute; reflexivity|].
  split; vm_compute; reflexivity.
Qed.

(** C5 as stated fails: for a model document without [model] and with
    temperature -1 the error is the [KeyError] of [model]; the violated
    temperature rule is not reported. *)
Lemma missing_model_hides_temperature :
  fst (demo_tool_config Demo.model_doc_bad Demo.tools_doc tt)
  = Raise (KeyError (PStr "model")) /\
  reports (KeyError (PStr "model")) "model" = true /\
  reports (KeyError (PStr "model")) "temperature" = false /\
  Schema.non_negative "temperature" (Some (PInt (-1)))
  = [("temperature", "must be greater than or equal to 0")].
Proof. repeat split; vm_compute; reflexivity. Qed.

(** C5 at work on a model document with a blank [model] and temperature
    -1: both violations are reported. *)
Lemma validation_reports_witness :
  Py.lookup "llm" Demo.model_doc_blank
  = Some (PDict [("provider", PStr "ollama");
                 ("config", PDict [("model", PStr " ");
                                   ("temperature", PInt (-1))])]) /\
  fst (demo_tool_config Demo.model_doc_blank Demo.tools_doc tt)
  = Raise (ValidationError
             [("model", "must not be empty");
              ("temperature", "must be greater than or equal to 0")]).
Proof.
  split; [reflexivity|].
  exact (validation_reports unit tt Demo.model_doc_blank Demo.tools_doc
           [("provider", PStr "ollama");
            ("config", PDict [("model", PStr " ");
                              ("temperature", PInt (-1))])]
           [("model", PStr " "); ("temperature", PInt (-1))]
           (PStr "ollama") eq_refl eq_refl eq_refl
           [PStr "data/tedx.csv"; PStr "data/tedx.csv"; PStr "data/tedx.csv";
            PStr "data/impact_data.csv"; PStr "data/none.csv"]
           eq_refl).
Defined.

(** C6 fails on the code: with a web search tool that declares no
    [data_path], the list comprehension over the tools document raises
    the [KeyError] of [data_path], and with it [__init__]; no embedder
    configuration with the other tool's path comes about. *)
Theorem data_path_absence_raises :
  Py.get (PDict Demo.tools_doc_partial) "duckduckgo_search" PNone
  = Ok (PDict [("embedder_config", Demo.ollama)]) /\
  fst (demo_tool_config Demo.model_doc Demo.tools_doc_partial tt)
  = Raise (KeyError (PStr "data_path")) /\
  demo_init Demo.agents_doc Demo.tasks_doc Demo.model_doc Demo.tools_doc_partial
            Demo.files
  = Raise (KeyError (PStr "data_path")).
Proof. repeat split; vm_compute; reflexivity. Qed.

(** C7 at work on the first task of the tasks document, which has
    neither [priority] nor [expected_output]. *)
Lemma create_task_defaults_witness :
  exists s s',
    demo_manager = Ok s /\
    demo_create_task "research" s = (Ok tt, s') /\
    exists t,
      tasks (mgr s') = (tasks (mgr s) ++ [t])%list /\
      priority t = PInt 2 /\
      expected_output t = PStr placeholder_output /\
      placeholder_output <> "".
Proof.
  eexists _, _. split; [vm_compute; reflexivity|].
  split; [vm_compute; reflexivity|].
  eapply (create_task_defaults Demo.World Schema.EmbedderConfig_validate
            Demo.tool_class_init Demo.Agent_init Demo.Task_init "research");
    vm_compute; reflexivity.
Defined.

(** C8 as stated fails, in three ways.  [tedx_slug] has no data path,
    and [get_tool] fails with the missing-data-path error of
    [tedx_search], the predecessor, which names the other tool.  An entry
    of [tedx_search] that is a path, not a mapping, makes [get_tool] fail
    with the AttributeError of [.get].  And with no entry at all for
    [tedx_search], the empty [embedder_config] is turned down first, and
    [get_tool] fails with the validation error of [EmbedderConfig]. *)
Lemma missing_data_path_error_preempted :
  (needs_data_path "tedx_slug" = true /\
   has_data_path Demo.tools_doc_no_paths "tedx_slug" = false /\
   fst (demo_get_tool "tedx_slug"
          (demo_registry Demo.tools_doc_no_paths Demo.files))
   = Raise (ValueError "Missing data path for tool 'tedx_search'") /\
   names_tool (ValueError "Missing data path for tool 'tedx_search'") "tedx_slug"
   = false) /\
  (needs_data_path "tedx_search" = true /\
   has_data_path [("tedx_search", PStr "data/tedx.csv")] "tedx_search" = false /\
   fst (demo_get_tool "tedx_search"
          (demo_registry [("tedx_search", PStr "data/tedx.csv")] Demo.files))
   = Raise (AttributeError "object has no attribute 'get'")) /\
  (has_data_path [] "tedx_search" = false /\
   fst (demo_get_tool "tedx_search" (demo_registry [] Demo.files))
   = Raise (ValidationError [("provider", "field required");
                             ("model", "field required")])).
Proof. repeat split; vm_compute; reflexivity. Qed.

(** C8 at work on [tedx_search] without a data path, after a web search
    was requested. *)
Lemma missing_data_path_fails_witness :
  needs_data_path "tedx_search" = true /\
  has_data_path (tool_configs (Demo.registry_over Demo.tools_doc_no_paths))
                "tedx_search" = false /\
  exists e,
    fst (demo_get_tool "tedx_search"
           (demo_requests ["duckduckgo_search"]
                          (demo_registry Demo.tools_doc_no_paths Demo.files)))
    = Raise e /\
    (forall post,
        tools (reg (demo_requests post
                      (snd (demo_get_tool "tedx_search"
                              (demo_requests ["duckduckgo_search"]
                                 (demo_registry Demo.tools_doc_no_paths
                                                Demo.files))))))
          !! "tedx_search" = None) /\
    (forall p e',
        predecessor "tedx_search" = Some p ->
        fst (demo_get_tool p
               (demo_requests ["duckduckgo_search"]
                  (demo_registry Demo.tools_doc_no_paths Demo.files)))
        = Raise e' ->
        e = e') /\
    ((forall p, predecessor "tedx_search" = Some p ->
                exists y,
                  fst (demo_get_tool p
                         (demo_requests ["duckduckgo_search"]
                            (demo_registry Demo.tools_doc_no_paths Demo.files)))
                  = Ok y) ->
     forall e',
       tool_embedder Schema.EmbedderConfig_validate
                     (tool_configs (Demo.registry_over Demo.tools_doc_no_paths))
                     "tedx_search" = Raise e' ->
       e = e') /\
    ((forall p, predecessor "tedx_search" = Some p ->
                exists y,
                  fst (demo_get_tool p
                         (demo_requests ["duckduckgo_search"]
                            (demo_registry Demo.tools_doc_no_paths Demo.files)))
                  = Ok y) ->
     (exists c,
         tool_embedder Schema.EmbedderConfig_validate
                       (tool_configs (Demo.registry_over Demo.tools_doc_no_paths))
                       "tedx_search" = Ok c) ->
     e = missing_data_path "tedx_search" /\ names_tool e "tedx_search" = true).
Proof.
  split; [reflexivity|]. split; [reflexivity|].
  apply (missing_data_path_fails Demo.World Schema.EmbedderConfig_validate
           Demo.tool_class_init (Demo.registry_over Demo.tools_doc_no_paths)
           Demo.files ["duckduckgo_search"] "tedx_search");
    reflexivity.
Defined.

(** C9 as stated fails: the impact data file is missing, the constructor
    of the impact tool raises its file-not-found error, and [get_tool]
    raises that very exception, whose message does not name the tool. *)
Lemma constructor_error_not_wrapped :
  demo_get_tool "sustainability_impact"
    (demo_registry Demo.tools_doc Demo.files_no_impact)
  = (Raise (FileNotFoundError "File not found: data/impact_data.csv"),
     {| reg := set_tools ∅ (Demo.registry_over Demo.tools_doc);
        sys := {| world := Demo.files_no_impact; next_id := 0;
                  log := [EvTool "sustainability_impact"
                            (Raise (FileNotFoundError
                                      "File not found: data/impact_data.csv"))] |} |}) /\
  names_tool (FileNotFoundError "File not found: data/impact_data.csv")
             "sustainability_impact" = false.
Proof. split; vm_compute; reflexivity. Qed.

(** C9 at work on a name no branch of [get_tool] knows. *)
Lemma get_tool_errors_witness :
  class_of "web_scraper" = None /\
  demo_get_tool "web_scraper"
    (demo_requests ["tedx_slug"] (demo_registry Demo.tools_doc Demo.files))
  = (Raise (ValueError ("Unknown tool: " +:+ "web_scraper")),
     demo_requests ["tedx_slug"] (demo_registry Demo.tools_doc Demo.files)) /\
  names_tool (ValueError ("Unknown tool: " +:+ "web_scraper")) "web_scraper" = true.
Proof.
  split; [reflexivity|].
  apply (proj1 (get_tool_errors Demo.World Schema.EmbedderConfig_validate
                  Demo.tool_class_init (Demo.registry_over Demo.tools_doc)
                  Demo.files ["tedx_slug"] "web_scraper")).
  reflexivity.
Defined.

(** C10 at work on the second task of the tasks document, whose agent
    the agents document does not define. *)
Lemma create_task_atomic_witness :
  exists s e s1,
    demo_manager = Ok s /\
    demo_create_agent (PStr "reviewer") s = (Raise e, s1) /\
    demo_create_task "review" s = (Raise e, s1) /\
    tasks (mgr s1) = tasks (mgr s) /\
    agents (mgr s1) = agents (mgr s) /\
    AgentTable.lookup (PStr "reviewer") (agents (mgr s1)) = None.
Proof.
  eexists _, _, _. split; [vm_compute; reflexivity|].
  split; [vm_compute; reflexivity|].
  eapply (proj2 (proj2 (create_task_atomic Demo.World
                          Schema.EmbedderConfig_validate Demo.tool_class_init
                          Demo.Agent_init Demo.Task_init "review" _)));
    vm_compute; reflexivity.
Defined.

(** ** Facts about Python text *)

Lemma lstrip_first (s : string) (c : ascii) :
  Text.first_char (Text.lstrip s) = Some c -> Text.isspace c = false.
Proof.
  induction s as [|a s IH]; simpl; [discriminate|].
  destruct (Text.isspace a) eqn:Ha; [exact IH|].
  simpl. intros [= <-]. exact Ha.
Qed.

Lemma rstrip_last (s : string) (c : ascii) :
  Text.last_char (Text.rstrip s) = Some c -> Text.isspace c = false.
Proof.
  revert c. induction s as [|a s IH]; simpl; [discriminate|].
  intros c. destruct (Text.rstrip s) as [|b r] eqn:Hr.
  - destruct (Text.isspace a) eqn:Ha; simpl; [discriminate|].
    intros [= <-]. exact Ha.
  - change (Text.last_char (String a (String b r)))
      with (match Text.last_char (String b r) with
            | None => Some a
            | Some d => Some d
            end).
    destruct (Text.last_char (String b r)) as [d|] eqn:Hl.
    + intros [= <-]. apply IH. reflexivity.
    + simpl in Hl. destruct (Text.last_char r); discriminate.
Qed.

Lemma rstrip_first (s : string) (c : ascii) :
  Text.first_char (Text.rstrip s) = Some c -> Text.first_char s = Some c.
Proof.
  destruct s as [|a s]; simpl; [discriminate|].
  destruct (Text.rstrip s); [destruct (Text.isspace a)|]; simpl;
    congruence.
Qed.

Lemma strip_trimmed (s : string) : Text.trimmed (Text.strip s).
Proof.
  split; intros c Hc.
  - apply (lstrip_first s). apply rstrip_first. exact Hc.
  - apply (rstrip_last (Text.lstrip s)). exact Hc.
Qed.

Lemma lstrip_fixed (s : string) :
  (forall c, Text.first_char s = Some c -> Text.isspace c = false) ->
  Text.lstrip s = s.
Proof.
  destruct s as [|a s]; simpl; [reflexivity|].
  intros H. rewrite (H a eq_refl). reflexivity.
Qed.

Lemma rstrip_fixed (s : string) :
  (forall c, Text.last_char s = Some c -> Text.isspace c = false) ->
  Text.rstrip s = s.
Proof.
  induction s as [|a s IH]; simpl; [reflexivity|].
  intros H. destruct (Text.last_char s) as [d|] eqn:Hl.
  - rewrite IH by exact H.
    destruct s; [discriminate|reflexivity].
  - destruct s as [|b s]; simpl in *.
    + rewrite (H a eq_refl). reflexivity.
    + destruct (Text.last_char s); discriminate.
Qed.

Lemma strip_fixed (s : string) : Text.trimmed s -> Text.strip s = s.
Proof.
  intros [Hf Hl]. unfold Text.strip.
  rewrite (lstrip_fixed s Hf). apply rstrip_fixed. exact Hl.
Qed.

Lemma strip_idempotent (s : string) :
  Text.strip (Text.strip s) = Text.strip s.
Proof. apply strip_fixed, strip_trimmed. Qed.

Lemma rstrip_blank (s : string) :
  Text.rstrip s = EmptyString <-> Text.blank s = true.
Proof.
  induction s as [|a s IH]; simpl; [tauto|].
  destruct (Text.rstrip s) eqn:Hr.
  - destruct (Text.isspace a); simpl; [tauto|].
    split; discriminate.
  - split; [discriminate|].
    intros H. apply andb_true_iff in H. destruct H as [_ H].
    apply IH in H. discriminate.
Qed.

Lemma blank_lstrip (s : string) :
  Text.blank (Text.lstrip s) = Text.blank s.
Proof.
  induction s as [|a s IH]; simpl; [reflexivity|].
  destruct (Text.isspace a) eqn:Ha; simpl; [exact IH|].
  rewrite Ha. reflexivity.
Qed.

Lemma strip_blank (s : string) :
  Text.strip s = EmptyString <-> Text.blank s = true.
Proof.
  unfold Text.strip. rewrite rstrip_blank, blank_lstrip. tauto.
Qed.

Lemma lower_char_space (c : ascii) :
  Text.isspace (Text.lower_char c) = Text.isspace c.
Proof.
  destruct c as [[] [] [] [] [] [] [] []]; vm_compute; reflexivity.
Qed.

Lemma lower_first (s : string) :
  Text.first_char (Text.lower s) = option_map Text.lower_char (Text.first_char s).
Proof. destruct s; reflexivity. Qed.

Lemma lower_last (s : string) :
  Text.last_char (Text.lower s) = option_map Text.lower_char (Text.last_char s).
Proof.
  induction s as [|a s IH]; simpl; [reflexivity|].
  rewrite IH. destruct (Text.last_char s); reflexivity.
Qed.

Lemma trimmed_lower (s : string) :
  Text.trimmed (Text.lower s) -> Text.trimmed s.
Proof.
  intros [Hf Hl]. split; intros c Hc.
  - rewrite <- lower_char_space. apply Hf.
    rewrite lower_first, Hc. reflexivity.
  - rewrite <- lower_char_space. apply Hl.
    rewrite lower_last, Hc. reflexivity.
Qed.

Lemma string_eqb_eq (a b : string) : String.eqb a b = true <-> a = b.
Proof. apply String.eqb_eq. Qed.
(** ** Facts about the configuration files *)

(** X8: [CrewAIManager.__init__] checks all four paths before it reads
    any file: when a path does not exist it raises FileNotFoundError for
    the first such path, in the order agents, tasks, model, tools, and has
    read nothing; when all four exist, the files are read in that order and
    the first failure of a read is what it raises. *)
Theorem config_paths_checked_first {W} (path_exists : W -> string -> bool)
        (read_yaml : string -> W -> result pyval * W)
        (a t m tl : string) (w : W) :
  match ConfigFiles.first_missing (path_exists w) a t m tl with
  | Some (label, p) =>
      ConfigFiles.load_documents path_exists read_yaml a t m tl w
      = (Raise (FileNotFoundError (label +:+ " config file not found: " +:+ p)), w)
  | None =>
      path_exists w a = true /\ path_exists w t = true /\
      path_exists w m = true /\ path_exists w tl = true /\
      forall e w',
        ConfigFiles.load_documents path_exists read_yaml a t m tl w
        = (Raise e, w') ->
        exists p w0, In p [a; t; m; tl] /\ read_yaml p w0 = (Raise e, w')
  end.
Proof.
  unfold ConfigFiles.first_missing, ConfigFiles.load_documents,
    ConfigFiles._validate_config_path, ConfigFiles.load_config.
  simpl.
  destruct (path_exists w a); simpl; [|reflexivity].
  destruct (path_exists w t); simpl; [|reflexivity].
  destruct (path_exists w m); simpl; [|reflexivity].
  destruct (path_exists w tl); simpl; [|reflexivity].
  repeat (split; [reflexivity|]).
  intros e w'.
  destruct (read_yaml a w) as [[da|ea] w1] eqn:Ha.
  2:{ intros [= <- <-]. exists a, w. simpl. auto. }
  destruct (read_yaml t w1) as [[dt|et] w2] eqn:Ht.
  2:{ intros [= <- <-]. exists t, w1. simpl. auto. }
  destruct (read_yaml m w2) as [[dm|em] w3] eqn:Hm.
  2:{ intros [= <- <-]. exists m, w2. simpl. auto. }
  destruct (read_yaml tl w3) as [[dtl|etl] w4] eqn:Htl.
  2:{ intros [= <- <-]. exists tl, w3. simpl. auto 6. }
  discriminate.
Qed.
(** ** Facts about tools/tedx_slug_tool.py *)

Lemma index_rows_lookup (rows : list SlugTool.row)
      (acc index : gmap string SlugTool.row) (slug : string) :
  SlugTool.index_rows rows acc = Ok index ->
  index !! slug
  = match (if String.eqb slug "" then None else SlugTool.last_row slug rows) with
    | Some r => Some r
    | None => acc !! slug
    end.
Proof.
  revert acc. induction rows as [|r rows IH]; intros acc; simpl.
  - intros [= <-]. destruct (String.eqb slug ""); reflexivity.
  - unfold SlugTool.has_slug.
    destruct (CustomTool.dict_get r "slug" (PStr "")) as [| | | |s| | |];
      simpl; try discriminate.
    destruct (String.eqb (Text.strip s) "") eqn:He; simpl; intros H;
      rewrite (IH _ H); clear IH H.
    + destruct (String.eqb slug "") eqn:Hs; [reflexivity|].
      destruct (SlugTool.last_row slug rows); [reflexivity|].
      destruct (String.eqb (Text.strip s) slug) eqn:Hx; [|reflexivity].
      apply String.eqb_eq in He, Hx. rewrite He in Hx. subst slug. discriminate.
    + destruct (String.eqb slug "") eqn:Hs.
      * apply String.eqb_eq in Hs. subst slug.
        apply String.eqb_neq in He.
        rewrite lookup_insert_ne by exact He. reflexivity.
      * destruct (SlugTool.last_row slug rows); [reflexivity|].
        destruct (String.eqb (Text.strip s) slug) eqn:Hx.
        -- apply String.eqb_eq in Hx. subst slug.
           apply lookup_insert_eq.
        -- apply String.eqb_neq in Hx.
           apply lookup_insert_ne. exact Hx.
Qed.

Lemma index_rows_total (rows : list SlugTool.row) (acc : gmap string SlugTool.row) :
  if forallb SlugTool.slug_is_text rows
  then exists index, SlugTool.index_rows rows acc = Ok index
  else exists m, SlugTool.index_rows rows acc = Raise (AttributeError m).
Proof.
  revert acc. induction rows as [|r rows IH]; intros acc; simpl; [eauto|].
  unfold SlugTool.slug_is_text.
  destruct (CustomTool.dict_get r "slug" (PStr "")); simpl; eauto.
  destruct (negb (String.eqb (Text.strip s) "")); apply IH.
Qed.

Lemma last_row_has_slug (slug : string) (rows : list SlugTool.row) (r : SlugTool.row) :
  SlugTool.last_row slug rows = Some r ->
  In r rows /\ SlugTool.has_slug slug r = true.
Proof.
  induction rows as [|r0 rows IH]; simpl; [discriminate|].
  destruct (SlugTool.last_row slug rows) as [r'|].
  - intros [= <-]. destruct (IH eq_refl). auto.
  - destruct (SlugTool.has_slug slug r0) eqn:Hh; [|discriminate].
    intros [= <-]. auto.
Qed.

Lemma last_row_found (slug : string) (rows : list SlugTool.row) (r : SlugTool.row) :
  In r rows -> SlugTool.has_slug slug r = true ->
  exists r', SlugTool.last_row slug rows = Some r'.
Proof.
  induction rows as [|r0 rows IH]; simpl; [tauto|].
  intros [->|Hin] Hh.
  - destruct (SlugTool.last_row slug rows); [eauto|].
    rewrite Hh. eauto.
  - destruct (IH Hin Hh) as [r' ->]. eauto.
Qed.

Lemma has_slug_trimmed (slug : string) (r : SlugTool.row) :
  SlugTool.has_slug slug r = true -> Text.strip slug = slug.
Proof.
  unfold SlugTool.has_slug.
  destruct (CustomTool.dict_get r "slug" (PStr "")); try discriminate.
  intros H. apply String.eqb_eq in H. subst slug. apply strip_idempotent.
Qed.

Lemma has_slug_row (slug : string) (r : SlugTool.row) :
  SlugTool.has_slug slug r = true -> slug <> "" -> r <> [].
Proof.
  intros H Hs ->. apply Hs.
  vm_compute in H. destruct slug; [reflexivity|discriminate].
Qed.

Lemma load_csv_data_lookup {W}
        (read_rows : pyval -> W -> result (list SlugTool.row) * W)
        (data_path : pyval) (w w' : W) (index : gmap string SlugTool.row) :
  SlugTool._load_csv_data read_rows data_path w = (Ok index, w') ->
  exists rows,
    read_rows data_path w = (Ok rows, w') /\
    forall slug,
      index !! slug
      = if String.eqb slug "" then None else SlugTool.last_row slug rows.
Proof.
  unfold SlugTool._load_csv_data.
  destruct (read_rows data_path w) as [[rows|e] w1]; [|discriminate].
  intros H. assert (w1 = w') as -> by congruence.
  exists rows. split; [reflexivity|]. intros slug.
  assert (SlugTool.index_rows rows ∅ = Ok index) as Hi by congruence.
  rewrite (index_rows_lookup rows ∅ index slug Hi), lookup_empty.
  destruct (String.eqb slug ""); [reflexivity|].
  destruct (SlugTool.last_row slug rows); reflexivity.
Qed.

(** X9: the index [_load_csv_data] builds maps a slug to the last row of
    the file whose slug column, trimmed, is that slug; it has no entry for
    the empty slug, and none for a slug no row has. *)
Theorem load_csv_data_index {W}
        (read_rows : pyval -> W -> result (list SlugTool.row) * W)
        (data_path : pyval) (w w' : W) (index : gmap string SlugTool.row) :
  SlugTool._load_csv_data read_rows data_path w = (Ok index, w') ->
  exists rows,
    read_rows data_path w = (Ok rows, w') /\
    forall slug,
      index !! slug
      = if String.eqb slug "" then None else SlugTool.last_row slug rows.
Proof. apply load_csv_data_lookup. Qed.

(** X10: [_load_csv_data] succeeds exactly when the file can be read and
    the slug column of every row holds a text; one row where it holds
    something else, as the reader's None for a row shorter than the
    header, makes the whole load raise AttributeError. *)
Theorem load_csv_data_outcome {W}
        (read_rows : pyval -> W -> result (list SlugTool.row) * W)
        (data_path : pyval) (w w' : W) (rows : list SlugTool.row) :
  read_rows data_path w = (Ok rows, w') ->
  if forallb SlugTool.slug_is_text rows
  then exists index,
      SlugTool._load_csv_data read_rows data_path w = (Ok index, w')
  else exists m,
      SlugTool._load_csv_data read_rows data_path w = (Raise (AttributeError m), w').
Proof.
  intros Hr. unfold SlugTool._load_csv_data. rewrite Hr.
  pose proof (index_rows_total rows ∅) as H.
  destruct (forallb SlugTool.slug_is_text rows); destruct H as [x ->]; eauto.
Qed.

Lemma TEDxSlugTool_init_ok {W} (super_init : W -> option exn * W)
      (read_rows : pyval -> W -> result (list SlugTool.row) * W)
      (llm_config embedder_config data_path : pyval) (w w' : W)
      (tool : SlugTool.TEDxSlugTool) :
  SlugTool.TEDxSlugTool_init super_init read_rows
    llm_config embedder_config data_path w = (Ok tool, w') ->
  exists w1 rows,
    super_init w = (None, w1) /\
    read_rows (SlugTool.data_path_or_default data_path) w1 = (Ok rows, w') /\
    forall slug,
      SlugTool.csv_data tool !! slug
      = if String.eqb slug "" then None else SlugTool.last_row slug rows.
Proof.
  unfold SlugTool.TEDxSlugTool_init.
  destruct (negb (Py.truthy llm_config) || negb (Py.truthy embedder_config));
    [discriminate|].
  destruct (super_init w) as [[e|] w1]; [discriminate|].
  destruct (SlugTool._load_csv_data read_rows _ w1) as [[index|e] w2] eqn:Hl;
    [|discriminate].
  intros [= <- <-].
  destruct (load_csv_data_lookup _ _ _ _ _ Hl) as (rows & Hr & Hi).
  exists w1, rows. simpl. auto.
Qed.

(** X11: a tool that [TEDxSlugTool] has built answers a slug that has
    white space at either end with the no-data text, whatever the file
    holds: the slugs of the file are trimmed when it is loaded, the slug
    asked for is not. *)
Theorem run_misses_padded_slug {W} (super_init : W -> option exn * W)
        (read_rows : pyval -> W -> result (list SlugTool.row) * W)
        (show : SlugTool.row -> string)
        (llm_config embedder_config data_path : pyval) (w w' : W)
        (tool : SlugTool.TEDxSlugTool) (slug : string) :
  SlugTool.TEDxSlugTool_init super_init read_rows
    llm_config embedder_config data_path w = (Ok tool, w') ->
  Text.strip slug <> slug ->
  SlugTool._run show tool slug
  = "No data found for slug '" +:+ slug +:+ "'. Please ensure the slug is correct.".
Proof.
  intros Hi Hs.
  destruct (TEDxSlugTool_init_ok _ _ _ _ _ _ _ _ Hi) as (w1 & rows & _ & _ & Hl).
  unfold SlugTool._run. rewrite Hl.
  destruct (String.eqb slug "") eqn:He.
  - apply String.eqb_eq in He. subst slug. exfalso. apply Hs. reflexivity.
  - destruct (SlugTool.last_row slug rows) as [r|] eqn:Hr; [|reflexivity].
    exfalso. apply Hs.
    apply last_row_has_slug in Hr. destruct Hr as [_ Hr].
    apply (has_slug_trimmed slug r Hr).
Qed.

(** X12: a tool that [TEDxSlugTool] has built finds every slug of its
    file: asked for the trimmed slug of any row whose slug is not blank, it
    answers with the data of the last row that has this slug. *)
Theorem run_finds_loaded_slug {W} (super_init : W -> option exn * W)
        (read_rows : pyval -> W -> result (list SlugTool.row) * W)
        (show : SlugTool.row -> string)
        (llm_config embedder_config data_path : pyval) (w w' : W)
        (tool : SlugTool.TEDxSlugTool) :
  SlugTool.TEDxSlugTool_init super_init read_rows
    llm_config embedder_config data_path w = (Ok tool, w') ->
  exists w1 rows,
    super_init w = (None, w1) /\
    read_rows (SlugTool.data_path_or_default data_path) w1 = (Ok rows, w') /\
    forall r s,
      In r rows ->
      CustomTool.dict_get r "slug" (PStr "") = PStr s ->
      Text.blank s = false ->
      exists r',
        SlugTool.last_row (Text.strip s) rows = Some r' /\
        SlugTool._run show tool (Text.strip s)
        = "Final Answer: Data for slug '" +:+ Text.strip s +:+ "':"
          +:+ Text.newline +:+ show r'.
Proof.
  intros Hi.
  destruct (TEDxSlugTool_init_ok _ _ _ _ _ _ _ _ Hi) as (w1 & rows & H1 & H2 & Hl).
  exists w1, rows. split; [exact H1|]. split; [exact H2|].
  intros r s Hin Hs Hb.
  assert (SlugTool.has_slug (Text.strip s) r = true) as Hh.
  { unfold SlugTool.has_slug. rewrite Hs. apply String.eqb_refl. }
  assert (Text.strip s <> "") as Hne.
  { intros He. apply strip_blank in He. congruence. }
  destruct (last_row_found _ _ _ Hin Hh) as [r' Hr'].
  exists r'. split; [exact Hr'|].
  unfold SlugTool._run. rewrite Hl.
  apply String.eqb_neq in Hne. rewrite Hne, Hr'.
  apply last_row_has_slug in Hr'. destruct Hr' as [_ Hr'].
  destruct r' as [|kv r'']; [|reflexivity].
  exfalso. apply String.eqb_neq in Hne.
  exact (has_slug_row _ _ Hr' Hne eq_refl).
Qed.
(** ** Facts about tools/custom_tool.py *)

Lemma says_nothing_text (s : string) :
  CustomTool.says_nothing (CustomTool.QStr s) = true <->
  Text.lower s = "none" \/ Text.lower s = "null" \/ s = "".
Proof.
  unfold CustomTool.says_nothing. simpl.
  rewrite !orb_true_iff, !String.eqb_eq.
  assert (Text.lower s = "" <-> s = "") as ->
      by (destruct s; simpl; split; congruence).
  split; [intros [?|[?|[?|?]]]|]; try tauto. discriminate.
Qed.

(** X13: on a text, [extract_query_string] returns a text with no white
    space at either end, and the empty text exactly when the input is blank
    or is the word none or null in any letter case. *)
Theorem extract_query_string_text (s : string) :
  exists r,
    CustomTool.extract_query_string (CustomTool.QStr s) = Ok (PStr r) /\
    Text.trimmed r /\
    (r = "" <->
     Text.blank s = true \/ Text.lower s = "none" \/ Text.lower s = "null").
Proof.
  unfold CustomTool.extract_query_string.
  destruct (CustomTool.says_nothing (CustomTool.QStr s)) eqn:Hn.
  - exists "". split; [reflexivity|]. split.
    + split; simpl; discriminate.
    + apply says_nothing_text in Hn. split; [intros _|reflexivity].
      destruct Hn as [?|[?| ->]]; auto.
  - exists (Text.strip s). split; [reflexivity|].
    split; [apply strip_trimmed|].
    rewrite strip_blank. split; [tauto|].
    intros [H|H]; [exact H|].
    assert (CustomTool.says_nothing (CustomTool.QStr s) = true)
      by (apply says_nothing_text; tauto).
    congruence.
Qed.

Lemma lower_word_trimmed (s w : string) :
  Text.lower s = w -> Text.trimmed w -> Text.strip s = s.
Proof.
  intros <- Hw. apply strip_fixed, trimmed_lower, Hw.
Qed.

(** X14: the words none and null are filtered before the text is trimmed:
    when a padded text trims to one of them, [extract_query_string] returns
    the word, and only a second pass over its own result gives the empty
    text. *)
Theorem extract_query_string_padded_word (s : string) :
  Text.strip s <> s ->
  Text.lower (Text.strip s) = "none" \/ Text.lower (Text.strip s) = "null" ->
  CustomTool.extract_query_string (CustomTool.QStr s) = Ok (PStr (Text.strip s)) /\
  Text.strip s <> "" /\
  CustomTool.extract_query_string (CustomTool.QStr (Text.strip s)) = Ok (PStr "").
Proof.
  intros Hpad Hword.
  assert (CustomTool.says_nothing (CustomTool.QStr s) = false) as Hs.
  { destruct (CustomTool.says_nothing (CustomTool.QStr s)) eqn:Hn; [|reflexivity].
    exfalso. apply Hpad. apply says_nothing_text in Hn.
    destruct Hn as [Hn|[Hn| ->]]; [| |reflexivity].
    - apply (lower_word_trimmed s "none" Hn).
      split; intros c [= <-]; reflexivity.
    - apply (lower_word_trimmed s "null" Hn).
      split; intros c [= <-]; reflexivity. }
  assert (CustomTool.says_nothing (CustomTool.QStr (Text.strip s)) = true) as Ht
      by (apply says_nothing_text; tauto).
  unfold CustomTool.extract_query_string. rewrite Hs, Ht.
  split; [reflexivity|]. split; [|reflexivity].
  intros He. rewrite He in Hword. destruct Hword; discriminate.
Qed.

Lemma extract_query_string_padded_word_witness :
  Text.strip " None" <> " None" /\
  CustomTool.extract_query_string (CustomTool.QStr " None") = Ok (PStr "None") /\
  CustomTool.extract_query_string (CustomTool.QStr "None") = Ok (PStr "").
Proof.
  split; [vm_compute; discriminate|].
  pose proof (extract_query_string_padded_word " None") as H.
  destruct H as (H1 & _ & H2).
  - vm_compute. discriminate.
  - left. vm_compute. reflexivity.
  - split; [exact H1 | exact H2].
Defined.

(** X15: for a mapping that has a [search_query], [extract_query_string]
    returns that value as it is, untrimmed and of whatever type, unless the
    value under [query] (or, without it, under [q]) is not a text: then it
    raises AttributeError although that value would not have been used. *)
Theorem extract_query_string_search_query (d : dict) (v : pyval) :
  Py.lookup "search_query" d = Some v ->
  match CustomTool.dict_get d "query" (CustomTool.dict_get d "q" (PStr "")) with
  | PStr _ => CustomTool.extract_query_string (CustomTool.QDict d) = Ok v
  | _ => exists m,
      CustomTool.extract_query_string (CustomTool.QDict d) = Raise (AttributeError m)
  end.
Proof.
  intros Hv. unfold CustomTool.extract_query_string. simpl.
  destruct (CustomTool.dict_get d "query" _); simpl; eauto.
  unfold CustomTool.dict_get. rewrite Hv. reflexivity.
Qed.

Lemma extract_query_string_search_query_witness :
  CustomTool.extract_query_string
    (CustomTool.QDict [("search_query", PStr " oceans "); ("q", PInt 7)])
  <> Ok (PStr " oceans ") /\
  CustomTool.extract_query_string
    (CustomTool.QDict [("search_query", PStr " oceans "); ("q", PStr "x")])
  = Ok (PStr " oceans ").
Proof.
  split.
  - pose proof (extract_query_string_search_query
                  [("search_query", PStr " oceans "); ("q", PInt 7)]
                  (PStr " oceans ") eq_refl) as [m H].
    rewrite H. discriminate.
  - exact (extract_query_string_search_query
             [("search_query", PStr " oceans "); ("q", PStr "x")]
             (PStr " oceans ") eq_refl).
Defined.

Lemma strip_usable (s : string) :
  String.eqb (Text.strip s) "" = negb (CustomTool.usable (PStr s)).
Proof.
  simpl. rewrite negb_involutive.
  destruct (Text.blank s) eqn:Hb.
  - apply strip_blank in Hb. rewrite Hb. reflexivity.
  - apply String.eqb_neq. intros H. apply strip_blank in H. congruence.
Qed.

Lemma first_text_some (d : dict) (q : string) :
  CustomTool.first_text d = Some q -> q <> "" /\ Text.trimmed q.
Proof.
  induction d as [|[k v] d IH]; simpl; [discriminate|].
  destruct v; try exact IH.
  destruct (String.eqb (Text.strip s) "") eqn:He; [exact IH|].
  intros [= <-]. split; [apply String.eqb_neq, He|apply strip_trimmed].
Qed.

Lemma first_text_usable (d : dict) :
  CustomTool.first_text d = None <->
  existsb (fun item => CustomTool.usable (snd item)) d = false.
Proof.
  induction d as [|[k v] d IH]; simpl; [tauto|].
  destruct v; try exact IH.
  rewrite strip_usable. simpl.
  destruct (Text.blank s); simpl; [exact IH|].
  split; discriminate.
Qed.

Lemma lookup_usable (k : string) (d : dict) (v : pyval) :
  Py.lookup k d = Some v -> CustomTool.usable v = true ->
  existsb (fun item => CustomTool.usable (snd item)) d = true.
Proof.
  induction d as [|[k' v'] d IH]; simpl; [discriminate|].
  destruct (String.eqb k k').
  - intros [= ->] ->. reflexivity.
  - intros H1 H2. rewrite (IH H1 H2). apply orb_true_r.
Qed.

Lemma prepare_trimmed (q : string) :
  q <> "" -> Text.trimmed q ->
  CustomTool.prepare_youtube_search_input (CustomTool.search_input q)
  = Ok (CustomTool.search_input q).
Proof.
  intros Hq Ht. unfold CustomTool.search_input. simpl.
  rewrite (strip_fixed q Ht).
  apply String.eqb_neq in Hq. rewrite Hq. reflexivity.
Qed.

Lemma prepare_youtube_search_input_post (input_data r : pyval) :
  CustomTool.prepare_youtube_search_input input_data = Ok r ->
  (exists q, r = CustomTool.search_input q /\ q <> "" /\ Text.trimmed q) /\
  CustomTool.prepare_youtube_search_input r = Ok r.
Proof.
  intros H.
  assert (exists q, r = CustomTool.search_input q /\ q <> "" /\ Text.trimmed q)
    as (q & -> & Hq & Ht).
  { destruct input_data; simpl in H; try discriminate.
    - destruct (String.eqb (Text.strip s) "") eqn:He; [discriminate|].
      injection H as <-. exists (Text.strip s).
      split; [reflexivity|].
      split; [apply String.eqb_neq, He|apply strip_trimmed].
    - destruct (match Py.lookup "search_query" d with
                | Some (PStr s) =>
                    if String.eqb (Text.strip s) "" then None
                    else Some (Text.strip s)
                | _ => None
                end) as [q|] eqn:Hs.
      + injection H as <-. exists q. split; [reflexivity|].
        destruct (Py.lookup "search_query" d) as [[]|]; try discriminate.
        destruct (String.eqb (Text.strip s) "") eqn:He; [discriminate|].
        injection Hs as <-.
        split; [apply String.eqb_neq, He|apply strip_trimmed].
      + destruct (CustomTool.first_text d) as [q|] eqn:Hf; [|discriminate].
        injection H as <-. exists q. split; [reflexivity|].
        apply (first_text_some d), Hf. }
  split; [eauto|]. apply prepare_trimmed; assumption.
Qed.

(** X16: what [prepare_youtube_search_input] returns is a mapping with the
    one key [search_query], whose text is not empty and has no white space
    at either end; preparing it again gives it back unchanged. *)
Theorem prepare_youtube_search_input_result (input_data r : pyval) :
  CustomTool.prepare_youtube_search_input input_data = Ok r ->
  (exists q, r = CustomTool.search_input q /\ q <> "" /\ Text.trimmed q) /\
  CustomTool.prepare_youtube_search_input r = Ok r.
Proof. apply prepare_youtube_search_input_post. Qed.

Lemma prepare_youtube_search_input_result_witness :
  CustomTool.prepare_youtube_search_input
    (PDict [("n", PInt 3); ("topic", PStr "  clean water "); ("search_query", PStr " ")])
  = Ok (CustomTool.search_input "clean water") /\
  CustomTool.prepare_youtube_search_input (CustomTool.search_input "clean water")
  = Ok (CustomTool.search_input "clean water").
Proof.
  split; [vm_compute; reflexivity|].
  apply (prepare_youtube_search_input_result
           (PDict [("n", PInt 3); ("topic", PStr "  clean water ");
                   ("search_query", PStr " ")])).
  vm_compute. reflexivity.
Defined.

Lemma prepare_youtube_search_input_cases (input_data : pyval) :
  if CustomTool.has_query input_data
  then exists q, CustomTool.prepare_youtube_search_input input_data
                 = Ok (CustomTool.search_input q)
  else exists m, CustomTool.prepare_youtube_search_input input_data
                 = Raise (ValueError m).
Proof.
  destruct input_data; simpl; eauto.
  - pose proof (strip_usable s) as Hs. simpl in Hs. rewrite Hs, negb_involutive.
    destruct (Text.blank s); simpl; eauto.
  - destruct (CustomTool.first_text d) as [q|] eqn:Hf.
    + assert (existsb (fun item => CustomTool.usable (snd item)) d = true) as ->.
      { destruct (existsb _ d) eqn:He; [reflexivity|].
        apply first_text_usable in He. congruence. }
      destruct (Py.lookup "search_query" d) as [[]|]; eauto.
      destruct (String.eqb (Text.strip s) ""); eauto.
    + destruct (Py.lookup "search_query" d) as [v|] eqn:Hl.
      * pose proof (proj1 (first_text_usable d) Hf) as He. rewrite He.
        destruct v; eauto.
        rewrite strip_usable.
        destruct (CustomTool.usable (PStr s)) eqn:Hu; simpl; eauto.
        rewrite (lookup_usable _ _ _ Hl Hu) in He. discriminate.
      * rewrite (proj1 (first_text_usable d) Hf). eauto.
Qed.

(** X17: [prepare_youtube_search_input] succeeds exactly on a text that is
    not blank and on a mapping one of whose values is such a text; on every
    other input it raises ValueError and nothing else. *)
Theorem prepare_youtube_search_input_accepts (input_data : pyval) :
  if CustomTool.has_query input_data
  then exists q, CustomTool.prepare_youtube_search_input input_data
                 = Ok (CustomTool.search_input q)
  else exists m, CustomTool.prepare_youtube_search_input input_data
                 = Raise (ValueError m).
Proof. apply prepare_youtube_search_input_cases. Qed.

Lemma youtube_run_prepared {W} (str : pyval -> string)
      (run : pyval -> W -> result string * W) (search_query : pyval) (w : W) :
  CustomTool.has_query search_query = true ->
  CustomTool.youtube_run str run search_query w
  = match run (PStr "cats") w with
    | (Ok r, w') =>
        (Ok ("Test Search Results for 'cats':" +:+ Text.newline +:+ r), w')
    | (Raise e, w') =>
        (Ok ("Error during YouTube video search for query 'cats': "
             +:+ Py.message e), w')
    end.
Proof.
  intros Hq. pose proof (prepare_youtube_search_input_cases search_query) as H.
  rewrite Hq in H. destruct H as [q H].
  destruct (prepare_youtube_search_input_post _ _ H) as [(q' & Hq' & Hne & _) _].
  injection Hq' as <-.
  unfold CustomTool.youtube_run. rewrite H. simpl.
  apply String.eqb_neq in Hne. rewrite Hne. simpl.
  unfold CustomTool.youtube_test.
  destruct (run (PStr "cats") w) as [[r|e] w']; reflexivity.
Qed.

(** X18: [CustomYoutubeVideoSearchTool._run] never raises; on an input
    without a usable query it answers with an error text and runs no
    search. *)
Theorem youtube_run_total {W} (str : pyval -> string)
        (run : pyval -> W -> result string * W) (search_query : pyval) (w : W) :
  exists answer w',
    CustomTool.youtube_run str run search_query w = (Ok answer, w') /\
    (CustomTool.has_query search_query = false ->
     w' = w /\ String.prefix "Error: " answer = true).
Proof.
  destruct (CustomTool.has_query search_query) eqn:Hq.
  - rewrite (youtube_run_prepared str run search_query w Hq).
    destruct (run (PStr "cats") w) as [[r|e] w'];
      eexists _, _; (split; [reflexivity|discriminate]).
  - pose proof (prepare_youtube_search_input_cases search_query) as H.
    rewrite Hq in H. destruct H as [m H].
    unfold CustomTool.youtube_run. rewrite H.
    eexists _, _. split; [reflexivity|]. intros _.
    split; [reflexivity|apply str_prefix_append].
Qed.

(** X19: with a usable query, [CustomYoutubeVideoSearchTool._run] runs
    exactly one search, for the text cats, and answers with its outcome:
    the query that was asked is never searched for, so any two usable
    queries get the same answer. *)
Theorem youtube_run_ignores_query {W} (str : pyval -> string)
        (run : pyval -> W -> result string * W) (q1 q2 : pyval) (w : W) :
  CustomTool.has_query q1 = true ->
  CustomTool.has_query q2 = true ->
  CustomTool.youtube_run str run q1 w = CustomTool.youtube_run str run q2 w /\
  snd (CustomTool.youtube_run str run q1 w) = snd (run (PStr "cats") w).
Proof.
  intros H1 H2.
  rewrite (youtube_run_prepared str run q1 w H1),
          (youtube_run_prepared str run q2 w H2).
  split; [reflexivity|].
  destruct (run (PStr "cats") w) as [[r|e] w']; reflexivity.
Qed.
(** ** The tools on small inputs *)

Lemma youtube_run_ignores_query_witness :
  CustomTool.youtube_run CustomTool.sample_str CustomTool.sample_search
    (PStr " ocean plastic ") []
  = (Ok ("Test Search Results for 'cats':" +:+ Text.newline +:+ "3 videos"),
     [PStr "cats"]) /\
  CustomTool.youtube_run CustomTool.sample_str CustomTool.sample_search
    (PStr " ocean plastic ") []
  = CustomTool.youtube_run CustomTool.sample_str CustomTool.sample_search
      (PDict [("topic", PStr "solar power")]) [] /\
  snd (CustomTool.youtube_run CustomTool.sample_str CustomTool.sample_search
         (PStr " ocean plastic ") [])
  = snd (CustomTool.sample_search (PStr "cats") []).
Proof.
  split; [vm_compute; reflexivity|].
  apply (youtube_run_ignores_query CustomTool.sample_str CustomTool.sample_search
           (PStr " ocean plastic ") (PDict [("topic", PStr "solar power")]) []);
    vm_compute; reflexivity.
Defined.

Lemma load_csv_data_index_witness :
  exists index,
    SlugTool._load_csv_data SlugTool.sample_read (PStr "talks.csv") tt
    = (Ok index, tt) /\
    exists rows,
      SlugTool.sample_read (PStr "talks.csv") tt = (Ok rows, tt) /\
      forall slug,
        index !! slug
        = if String.eqb slug "" then None else SlugTool.last_row slug rows.
Proof.
  eexists. split; [vm_compute; reflexivity|].
  apply (load_csv_data_index SlugTool.sample_read (PStr "talks.csv") tt tt).
  vm_compute. reflexivity.
Defined.

(** The second row for a slug replaces the first, the padded slug is
    stored trimmed, and the blank slug and the row without a slug column
    are left out. *)
Example sample_index :
  exists index,
    SlugTool._load_csv_data SlugTool.sample_read (PStr "talks.csv") tt
    = (Ok index, tt) /\
    index !! "ada_lovelace"
    = Some [("slug", PStr "ada_lovelace");
            ("title", PStr "The first program, again")] /\
    index !! "grace_hopper"
    = Some [("slug", PStr " grace_hopper "); ("title", PStr "Compilers")] /\
    index !! " grace_hopper " = None /\
    size index = 2.
Proof.
  eexists. split; [vm_compute; reflexivity|].
  repeat split; vm_compute; reflexivity.
Qed.

Lemma load_csv_data_outcome_witness :
  (exists index,
      SlugTool._load_csv_data SlugTool.sample_read (PStr "talks.csv") tt
      = (Ok index, tt)) /\
  (exists m,
      SlugTool._load_csv_data SlugTool.sample_read (PStr "short.csv") tt
      = (Raise (AttributeError m), tt)).
Proof.
  split.
  - exact (load_csv_data_outcome SlugTool.sample_read (PStr "talks.csv") tt tt
             SlugTool.sample_rows eq_refl).
  - exact (load_csv_data_outcome SlugTool.sample_read (PStr "short.csv") tt tt
             SlugTool.short_rows eq_refl).
Defined.

Lemma run_misses_padded_slug_witness :
  exists tool,
    SlugTool.TEDxSlugTool_init SlugTool.sample_super SlugTool.sample_read
      (PDict [("provider", PStr "ollama")]) (PDict [("provider", PStr "ollama")])
      (PStr "talks.csv") tt
    = (Ok tool, tt) /\
    Text.strip " grace_hopper " <> " grace_hopper " /\
    SlugTool._run SlugTool.show_title tool " grace_hopper "
    = "No data found for slug ' grace_hopper '. Please ensure the slug is correct.".
Proof.
  eexists. split; [vm_compute; reflexivity|].
  split; [vm_compute; discriminate|].
  apply (run_misses_padded_slug SlugTool.sample_super SlugTool.sample_read
           SlugTool.show_title
           (PDict [("provider", PStr "ollama")]) (PDict [("provider", PStr "ollama")])
           (PStr "talks.csv") tt tt).
  - vm_compute. reflexivity.
  - vm_compute. discriminate.
Defined.

Lemma run_finds_loaded_slug_witness :
  exists tool,
    SlugTool.TEDxSlugTool_init SlugTool.sample_super SlugTool.sample_read
      (PDict [("provider", PStr "ollama")]) (PDict [("provider", PStr "ollama")])
      (PStr "talks.csv") tt
    = (Ok tool, tt) /\
    exists w1 rows,
      SlugTool.sample_super tt = (None, w1) /\
      SlugTool.sample_read (SlugTool.data_path_or_default (PStr "talks.csv")) w1
      = (Ok rows, tt) /\
      forall r s,
        In r rows ->
        CustomTool.dict_get r "slug" (PStr "") = PStr s ->
        Text.blank s = false ->
        exists r',
          SlugTool.last_row (Text.strip s) rows = Some r' /\
          SlugTool._run SlugTool.show_title tool (Text.strip s)
          = "Final Answer: Data for slug '" +:+ Text.strip s +:+ "':"
            +:+ Text.newline +:+ SlugTool.show_title r'.
Proof.
  eexists. split; [vm_compute; reflexivity|].
  apply (run_finds_loaded_slug SlugTool.sample_super SlugTool.sample_read
           SlugTool.show_title
           (PDict [("provider", PStr "ollama")]) (PDict [("provider", PStr "ollama")])
           (PStr "talks.csv") tt tt).
  vm_compute. reflexivity.
Defined.

(** Asked for the slug that two rows have, the tool answers with the
    later row; asked for it with a trailing blank, it finds nothing. *)
Example sample_answers :
  exists tool,
    SlugTool.TEDxSlugTool_init SlugTool.sample_super SlugTool.sample_read
      (PDict [("provider", PStr "ollama")]) (PDict [("provider", PStr "ollama")])
      (PStr "talks.csv") tt
    = (Ok tool, tt) /\
    SlugTool._run SlugTool.show_title tool "ada_lovelace"
    = "Final Answer: Data for slug 'ada_lovelace':" +:+ Text.newline
      +:+ "The first program, again" /\
    SlugTool._run SlugTool.show_title tool "ada_lovelace "
    = "No data found for slug 'ada_lovelace '. Please ensure the slug is correct." /\
    SlugTool._run SlugTool.show_title tool "" = "Error: No slug provided.".
Proof.
  eexists. split; [vm_compute; reflexivity|].
  repeat split; vm_compute; reflexivity.
Qed.
(** ** The registry and the manager on the small installation, again *)

(** With a tools document that has no entry for the slug tool, the
    request for it builds the search tool and then fails. *)
Lemma get_tool_failure_not_memoized_witness :
  exists e s',
    demo_get_tool "tedx_slug"
      (demo_requests ["duckduckgo_search"]
                     (demo_registry Demo.tools_doc_partial Demo.files))
    = (Raise e, s') /\
    tools (reg s') !! "tedx_slug" = None /\
    (forall k t,
        tools (reg (demo_requests ["duckduckgo_search"]
                      (demo_registry Demo.tools_doc_partial Demo.files)))
          !! k = Some t ->
        tools (reg s') !! k = Some t).
Proof.
  eexists _, _. split; [vm_compute; reflexivity|].
  eapply (get_tool_failure_not_memoized Demo.World Schema.EmbedderConfig_validate
            Demo.tool_class_init "tedx_slug").
  vm_compute. reflexivity.
Defined.

Lemma memoized_instances_distinct_witness :
  exists t1 t2,
    tools (reg (demo_requests ["tedx_transcript"]
                  (demo_registry Demo.tools_doc Demo.files)))
      !! "tedx_slug" = Some t1 /\
    tools (reg (demo_requests ["tedx_transcript"]
                  (demo_registry Demo.tools_doc Demo.files)))
      !! "tedx_search" = Some t2 /\
    class_of "tedx_slug" = Some (tool_class t1) /\
    tool_id t1 < next_id (sys (demo_requests ["tedx_transcript"]
                                 (demo_registry Demo.tools_doc Demo.files))) /\
    (tool_id t1 = tool_id t2 <-> "tedx_slug" = "tedx_search").
Proof.
  eexists _, _. split; [vm_compute; reflexivity|].
  split; [vm_compute; reflexivity|].
  apply (memoized_instances_distinct Demo.World Schema.EmbedderConfig_validate
           Demo.tool_class_init (Demo.registry_over Demo.tools_doc) Demo.files
           ["tedx_transcript"] "tedx_slug" "tedx_search");
    vm_compute; reflexivity.
Defined.

Lemma tools_share_llm_settings_witness :
  exists t,
    tools (reg (demo_requests ["tedx_transcript"; "duckduckgo_search"]
                  (demo_registry Demo.tools_doc Demo.files)))
      !! "duckduckgo_search" = Some t /\
    exists llm_dict,
      llm_kwargs (llm_config (Demo.registry_over Demo.tools_doc)) = Ok llm_dict /\
      Py.getitem (tool_kwargs t) "llm_config" = Ok llm_dict /\
      Py.truthy llm_dict = true.
Proof.
  eexists. split; [vm_compute; reflexivity|].
  apply (tools_share_llm_settings Demo.World Schema.EmbedderConfig_validate
           Demo.tool_class_init (Demo.registry_over Demo.tools_doc) Demo.files
           ["tedx_transcript"; "duckduckgo_search"] "duckduckgo_search").
  vm_compute. reflexivity.
Defined.

Lemma tedx_tools_get_document_path_witness :
  exists t,
    tools (reg (demo_requests ["tedx_transcript"]
                  (demo_registry Demo.tools_doc Demo.files)))
      !! "tedx_slug" = Some t /\
    exists dp,
      data_path_of (tool_configs (Demo.registry_over Demo.tools_doc)) "tedx_slug"
      = Ok dp /\
      Py.getitem (tool_kwargs t) "data_path" = Ok dp /\
      Py.truthy dp = true /\
      SlugTool.data_path_or_default dp = dp.
Proof.
  eexists. split; [vm_compute; reflexivity|].
  apply (tedx_tools_get_document_path Demo.World Schema.EmbedderConfig_validate
           Demo.tool_class_init (Demo.registry_over Demo.tools_doc) Demo.files
           ["tedx_transcript"] "tedx_slug");
    vm_compute; reflexivity.
Defined.

(** The second call of [initialize_crew] on the manager of the small
    installation. *)
Lemma initialize_crew_appends_witness :
  exists s0 c1 s1 r s2,
    demo_manager = Ok s0 /\
    demo_initialize_crew Demo.Crew_init s0 = (Ok c1, s1) /\
    demo_initialize_crew Demo.Crew_init s1 = (r, s2) /\
    ready Demo.World s2 /\
    exists out,
      tasks (mgr s2) = (tasks (mgr s1) ++ kept out)%list /\
      (forall k a, AgentTable.lookup k (agents (mgr s1)) = Some a ->
                   AgentTable.lookup k (agents (mgr s2)) = Some a) /\
      (forall crew, r = Ok crew ->
                    crew_tasks (crew_args crew)
                    = (tasks (mgr s1) ++ kept out)%list).
Proof.
  eexists _, _, _, _, _. split; [vm_compute; reflexivity|].
  split; [vm_compute; reflexivity|].
  split; [vm_compute; reflexivity|].
  apply (initialize_crew_appends Demo.World Schema.EmbedderConfig_validate
           Demo.tool_class_init Demo.Agent_init Demo.Task_init Demo.Crew_init).
  - eexists _, _. vm_compute. reflexivity.
  - vm_compute. reflexivity.
Defined.

(** That second crew holds the two tasks of the first and the same two
    again, bound to the same two agents. *)
Example second_crew_repeats_tasks :
  exists s0 c1 s1 c2 s2,
    demo_manager = Ok s0 /\
    demo_initialize_crew Demo.Crew_init s0 = (Ok c1, s1) /\
    demo_initialize_crew Demo.Crew_init s1 = (Ok c2, s2) /\
    map description (crew_tasks (crew_args c1))
    = [PStr "Find talks"; PStr "Analyse"] /\
    map description (crew_tasks (crew_args c2))
    = [PStr "Find talks"; PStr "Analyse"; PStr "Find talks"; PStr "Analyse"] /\
    map (fun t => agent_id (agent t)) (crew_tasks (crew_args c2))
    = map (fun t => agent_id (agent t))
          (crew_tasks (crew_args c1) ++ crew_tasks (crew_args c1))%list /\
    length (crew_agents (crew_args c2)) = 2.
Proof.
  eexists _, _, _, _, _. split; [vm_compute; reflexivity|].
  split; [vm_compute; reflexivity|].
  split; [vm_compute; reflexivity|].
  repeat split; vm_compute; reflexivity.
Qed.

(** After the first task of the small installation was made, the task
    whose agent is unknown is asked for. *)
Lemma unknown_agent_key_error_witness :
  exists s0,
    demo_manager = Ok s0 /\
    demo_create_task "review" (snd (demo_create_tasks ["research"] s0))
    = (Raise (KeyError (PStr "reviewer")),
       snd (demo_create_tasks ["research"] s0)).
Proof.
  eexists. split; [vm_compute; reflexivity|].
  eapply (unknown_agent_key_error Demo.World Schema.LLMConfig_validate
            Schema.EmbedderConfig_validate Demo.tool_class_init
            Demo.Agent_init Demo.Task_init
            Demo.agents_doc Demo.tasks_doc Demo.model_doc Demo.tools_doc
            Demo.files _ ["research"] "review" "reviewer");
    vm_compute; reflexivity.
Defined.
